(** * The journalist interface of the document submission platform

    A shallow embedding of [securedrop/journalist.py]: the request handlers
    that authenticate journalists, star, rename and delete source
    collections, send encrypted replies and export submissions.

    The handlers are Python functions that read and write ambient state
    (the SQLAlchemy session, Flask's [g], [session], [request] and flashed
    messages) and that may raise.  They are embedded as computations of a
    state-and-exception monad over a [World]; an exception keeps the state
    changes made before it, as in Python.  The modules the handlers import
    but which are not part of that module ([store], [crypto_util], [worker],
    [db], [config]) are taken as an environment [Env] of collaborators. *)

From Stdlib Require Import String Ascii List ZArith Bool Lia.
From Stdlib Require Import DecimalString.
From Stdlib Require DecimalPos DecimalZ.
Import ListNotations.

Local Open Scope string_scope.
Local Open Scope Z_scope.

(** ** Python values *)

Module Py.

(** [sub in s] on strings. *)
Fixpoint contains (sub s : string) : bool :=
  String.prefix sub s ||
  match s with
  | EmptyString => false
  | String _ t => contains sub t
  end.

(** [s.startswith(p)]. *)
Definition startswith (s p : string) : bool := String.prefix p s.

(** [str(n)] and ["{}".format(n)] for an integer. *)
Definition str (n : Z) : string := NilZero.string_of_int (Z.to_int n).

(** Truth value of a string: [bool(s)]. *)
Definition truthy (s : string) : bool :=
  match s with EmptyString => false | _ => true end.

(** [x in l] for a list of strings. *)
Definition mem (x : string) (l : list string) : bool :=
  existsb (String.eqb x) l.

End Py.

(** ** Database rows

    Only the columns the handlers read or write are kept. *)

Record Journalist := mkJournalist {
  journalist_id : Z;
  username : string;
  is_totp : bool;
  is_admin : bool;
  last_access : option Z
}.

Record Source := mkSource {
  source_id : Z;
  filesystem_id : string;
  journalist_designation : string;
  interaction_count : Z;
  flagged : bool;
  pending : bool
}.

Record Submission := mkSubmission {
  submission_id : Z;
  submission_source_id : Z;
  filename : string;
  downloaded : bool
}.

Record SourceStar := mkSourceStar {
  star_source_id : Z;
  starred : bool
}.

Record Reply := mkReply {
  reply_journalist_id : Z;
  reply_source_id : Z;
  reply_filename : string
}.

Record DB := mkDB {
  journalists : list Journalist;
  sources : list Source;
  submissions : list Submission;
  source_stars : list SourceStar;
  replies : list Reply
}.

Definition with_journalists (f : list Journalist -> list Journalist) (d : DB) : DB :=
  mkDB (f (journalists d)) (sources d) (submissions d) (source_stars d) (replies d).
Definition with_sources (f : list Source -> list Source) (d : DB) : DB :=
  mkDB (journalists d) (f (sources d)) (submissions d) (source_stars d) (replies d).
Definition with_submissions (f : list Submission -> list Submission) (d : DB) : DB :=
  mkDB (journalists d) (sources d) (f (submissions d)) (source_stars d) (replies d).
Definition with_source_stars (f : list SourceStar -> list SourceStar) (d : DB) : DB :=
  mkDB (journalists d) (sources d) (submissions d) (f (source_stars d)) (replies d).
Definition with_replies (f : list Reply -> list Reply) (d : DB) : DB :=
  mkDB (journalists d) (sources d) (submissions d) (source_stars d) (f (replies d)).

(** An ORM object is a row of the session; assigning to an attribute changes
    the row with that primary key. *)
Definition update_where {A} (p : A -> bool) (f : A -> A) (l : list A) : list A :=
  map (fun x => if p x then f x else x) l.

(** [source.star] is a scalar relationship: the object is the first row that
    refers to the source. *)
Fixpoint update_first {A} (p : A -> bool) (f : A -> A) (l : list A) : list A :=
  match l with
  | [] => []
  | x :: t => if p x then f x :: t else x :: update_first p f t
  end.

Definition set_journalist_designation (v : string) (s : Source) : Source :=
  mkSource (source_id s) (filesystem_id s) v (interaction_count s) (flagged s) (pending s).
Definition set_interaction_count (v : Z) (s : Source) : Source :=
  mkSource (source_id s) (filesystem_id s) (journalist_designation s) v (flagged s) (pending s).
Definition set_filename (v : string) (s : Submission) : Submission :=
  mkSubmission (submission_id s) (submission_source_id s) v (downloaded s).
Definition set_downloaded (v : bool) (s : Submission) : Submission :=
  mkSubmission (submission_id s) (submission_source_id s) (filename s) v.
Definition set_starred (v : bool) (s : SourceStar) : SourceStar :=
  mkSourceStar (star_source_id s) v.
Definition set_last_access (v : Z) (j : Journalist) : Journalist :=
  mkJournalist (journalist_id j) (username j) (is_totp j) (is_admin j) (Some v).

(** ** The world outside the database *)

(** What the content store and the key ring hold. *)
Record Ext := mkExt {
  files : list (string * string);
  keyring : list (string * string)
}.

(** The temporary archive [store.get_bulk_archive] returns: its path and the
    filenames of the submissions it holds. *)
Record ZipFile := mkZipFile {
  zf_name : string;
  zf_members : list string
}.

(** Tasks handed to [worker.enqueue]. *)
Inductive Job :=
| DeleteSourceDirectory (sid : string)
| SecureUnlink (path : string).

(** Calls that leave the process, in the order they are made, each with its
    outcome. *)
Inductive Event :=
| EvEnqueue (j : Job)
| EvDeleteReplyKeypair (sid : string) (ok : bool)
| EvCommit (ok : bool)
| EvEncrypt (msg : string) (recipients : list (option string)) (output : string) (ok : bool)
| EvRenameSubmission (sid orig journalist_filename : string) (res : option string)
| EvGetBulkArchive (subs : list Submission) (zip_directory : string) (res : option ZipFile)
| EvSendFile (path : string).

Inductive exn :=
| HTTPException (code : Z)
| BadRequestKeyError (key : string)
| AttributeError (name : string)
| NoResultFound
| MultipleResultsFound
| LoginThrottledException
| WrongPasswordException
| LoginError (msg : string)
| CollaboratorError (what : string)
| StorageError.

Inductive Response :=
| Redirect (url : string)
| RenderTemplate (name : string)
| SendFile (path mimetype : string) (attachment_filename : option string).

Record Request := mkRequest {
  method : string;
  form : list (string * string)
}.

(** Flask's [g].  A field is [None] until the attribute is assigned.
    [user] holds what [Journalist.query.get] returned, so it is [None] as
    well when that was Python's [None]: [logged_in], the one reader that
    comes before the guards, treats the two alike.  [source] holds the
    primary key of the row the object refers to. *)
Record G := mkG {
  g_user : option Journalist;
  g_sid : option string;
  g_source : option Z
}.

Definition empty_g : G := mkG None None None.

Record World := mkWorld {
  db : DB;
  committed : DB;
  session_uid : option Z;
  request : Request;
  g : G;
  flashes : list (string * string);
  logged : list string;
  ext : Ext;
  queue : list Job;
  utcnow : Z;
  trace : list Event
}.

Definition set_db (d : DB) (w : World) : World :=
  mkWorld d (committed w) (session_uid w) (request w) (g w) (flashes w)
          (logged w) (ext w) (queue w) (utcnow w) (trace w).
Definition set_committed (d : DB) (w : World) : World :=
  mkWorld (db w) d (session_uid w) (request w) (g w) (flashes w)
          (logged w) (ext w) (queue w) (utcnow w) (trace w).
Definition set_session_uid (u : option Z) (w : World) : World :=
  mkWorld (db w) (committed w) u (request w) (g w) (flashes w)
          (logged w) (ext w) (queue w) (utcnow w) (trace w).
Definition set_g (x : G) (w : World) : World :=
  mkWorld (db w) (committed w) (session_uid w) (request w) x (flashes w)
          (logged w) (ext w) (queue w) (utcnow w) (trace w).
Definition set_flashes (l : list (string * string)) (w : World) : World :=
  mkWorld (db w) (committed w) (session_uid w) (request w) (g w) l
          (logged w) (ext w) (queue w) (utcnow w) (trace w).
Definition set_logged (l : list string) (w : World) : World :=
  mkWorld (db w) (committed w) (session_uid w) (request w) (g w) (flashes w)
          l (ext w) (queue w) (utcnow w) (trace w).
Definition set_ext (e : Ext) (w : World) : World :=
  mkWorld (db w) (committed w) (session_uid w) (request w) (g w) (flashes w)
          (logged w) e (queue w) (utcnow w) (trace w).
Definition set_queue (q : list Job) (w : World) : World :=
  mkWorld (db w) (committed w) (session_uid w) (request w) (g w) (flashes w)
          (logged w) (ext w) q (utcnow w) (trace w).
Definition set_trace (t : list Event) (w : World) : World :=
  mkWorld (db w) (committed w) (session_uid w) (request w) (g w) (flashes w)
          (logged w) (ext w) (queue w) (utcnow w) t.

(** ** Computations that change the world and may raise *)

Inductive Outcome (A : Type) :=
| Return (a : A)
| Raise (e : exn).
Arguments Return {A} a.
Arguments Raise {A} e.

Definition M (A : Type) : Type := World -> Outcome A * World.

Definition ret {A} (a : A) : M A := fun w => (Return a, w).

Definition raise {A} (e : exn) : M A := fun w => (Raise e, w).

Definition bind {A B} (c : M A) (k : A -> M B) : M B :=
  fun w =>
    match c w with
    | (Return a, w') => k a w'
    | (Raise e, w') => (Raise e, w')
    end.

(** [try: c  except Exception as e: h e  else: k a]. *)
Definition try_except_else {A B} (c : M A) (h : exn -> M B) (k : A -> M B) : M B :=
  fun w =>
    match c w with
    | (Return a, w') => k a w'
    | (Raise e, w') => h e w'
    end.

(** [try: c  except: h]. *)
Definition try_except {A} (c : M A) (h : exn -> M A) : M A :=
  try_except_else c h ret.

(** [try: c  finally: return r], which also swallows what [c] raised. *)
Definition finally_return {A B} (c : M A) (r : M B) : M B :=
  fun w => r (snd (c w)).

Declare Scope monad_scope.
Delimit Scope monad_scope with monad.
Notation "x <- c ;; k" := (bind c (fun x => k))
  (at level 61, c at next level, right associativity) : monad_scope.
Notation "c ;; k" := (bind c (fun _ => k))
  (at level 61, right associativity) : monad_scope.
Local Open Scope monad_scope.

Definition gets {A} (f : World -> A) : M A := fun w => (Return (f w), w).
Definition modify (f : World -> World) : M unit := fun w => (Return tt, f w).

(** [for x in l: body x]. *)
Fixpoint for_each {A} (l : list A) (body : A -> M unit) : M unit :=
  match l with
  | [] => ret tt
  | x :: t => body x ;; for_each t body
  end.

Definition emit (e : Event) : M unit :=
  modify (fun w => set_trace (trace w ++ [e]) w).

(** ** The collaborators

    The handlers call into modules other than [journalist.py].  What
    they return there is taken as given: constants of [config] and [db],
    pure helpers, and the calls into the content store, the key ring and
    the login check, each a function of the state it reads.  A result of
    [None] (or [Raise]) stands for the call raising. *)

Record Env := mkEnv {
  (** [config.JOURNALIST_KEY] *)
  JOURNALIST_KEY : string;
  (** [Journalist._LOGIN_ATTEMPT_PERIOD] *)
  LOGIN_ATTEMPT_PERIOD : Z;
  (** the value of [starred] in a row built by [SourceStar(source)] *)
  default_starred : bool;
  (** the property [Source.journalist_filename], computed from the
      designation *)
  journalist_filename_of : string -> string;
  (** [crypto_util.display_id()] *)
  display_id : DB -> string;
  (** [store.path(sid, filename)] *)
  store_path : string -> string -> string;
  (** [datetime.strftime("%Y-%m-%d--%H-%M-%S")] *)
  strftime : Z -> string;
  (** [Journalist.login(username, password, token)]; the counters it keeps
      are columns this model does not hold *)
  Journalist_login : DB -> string -> string -> string -> Outcome Journalist;
  (** [crypto_util.getkey(sid)] *)
  getkey : Ext -> string -> option string;
  (** [crypto_util.encrypt(msg, recipients, output=path)] *)
  encrypt : Ext -> string -> list (option string) -> string -> option Ext;
  (** [crypto_util.delete_reply_keypair(sid)] *)
  delete_reply_keypair : Ext -> string -> option Ext;
  (** [store.rename_submission(sid, orig_filename, journalist_filename)] *)
  rename_submission : Ext -> string -> string -> string -> option (string * Ext);
  (** [store.get_bulk_archive(submissions, zip_directory=...)] *)
  get_bulk_archive : Ext -> list Submission -> string -> option (ZipFile * Ext);
  (** whether [db_session.commit()] of the pending state goes through *)
  commit_ok : DB -> bool
}.

(** ** Flask and SQLAlchemy primitives *)

Definition abort {A} (code : Z) : M A := raise (HTTPException code).

Definition flash (message category : string) : M unit :=
  modify (fun w => set_flashes (flashes w ++ [(message, category)]) w).

Definition logger_error (line : string) : M unit :=
  modify (fun w => set_logged (logged w ++ ["ERROR " ++ line]) w).

Definition logger_info (line : string) : M unit :=
  modify (fun w => set_logged (logged w ++ ["INFO " ++ line]) w).

Definition redirect (url : string) : M Response := ret (Redirect url).

Definition render_template (name : string) : M Response := ret (RenderTemplate name).

(** Whether the store holds a file at [path]. *)
Definition file_exists (e : Ext) (path : string) : bool :=
  existsb (fun kv => String.eqb (fst kv) path) (files e).

(** Flask's [send_file] opens the file at [path] and builds the response
    from it; it raises when there is no such file.  [held] says that the
    caller holds the file itself, as [download] holds the temporary file of
    the archive it sends; any other path is looked up in the store. *)
Definition send_file (held : bool) (path mimetype : string) (attachment : option string)
  : M Response :=
  e <- gets ext ;;
  if held || file_exists e path
  then emit (EvSendFile path) ;; ret (SendFile path mimetype attachment)
  else raise (CollaboratorError "flask.send_file").

(** The routes [journalist.py] declares, as [url_for] resolves them. *)
Definition url_for_login : string := "/login".
Definition url_for_index : string := "/".
Definition url_for_col (sid : string) : string := "/col/" ++ sid.

(** [request.form] is a multi-dict. *)
Fixpoint form_get (f : list (string * string)) (k : string) : option string :=
  match f with
  | [] => None
  | (k', v) :: t => if String.eqb k' k then Some v else form_get t k
  end.

Definition form_getlist (f : list (string * string)) (k : string) : list string :=
  map snd (filter (fun kv => String.eqb (fst kv) k) f).

Definition form_has (f : list (string * string)) (k : string) : bool :=
  match form_get f k with Some _ => true | None => false end.

(** [request.form[k]]. *)
Definition form_getitem (k : string) : M string :=
  r <- gets request ;;
  match form_get (form r) k with
  | Some v => ret v
  | None => raise (BadRequestKeyError k)
  end.

(** [query.one()]. *)
Definition one {A} (rows : list A) : M A :=
  match rows with
  | [x] => ret x
  | [] => raise NoResultFound
  | _ :: _ :: _ => raise MultipleResultsFound
  end.

(** Modelled from the spec: [db.get_one_or_else(query, logger, abort)] is
    missing from [journalist.py].  A missing record is logged on the operator's
    log and reported generically: the single row is returned, otherwise the
    failure method [abort] is called, with 404 for no row and 500 for
    several. *)
Definition get_one_or_else {A} (rows : list A) : M A :=
  match rows with
  | [x] => ret x
  | [] => logger_error "Found none when one was expected" ;; abort 404
  | _ :: _ :: _ => logger_error "Found multiple when one was expected" ;; abort 500
  end.

Definition sources_by_filesystem_id (d : DB) (sid : string) : list Source :=
  filter (fun s => String.eqb (filesystem_id s) sid) (sources d).

Definition get_source (sid : string) : M Source :=
  d <- gets db ;;
  get_one_or_else (sources_by_filesystem_id d sid).

(** [Journalist.query.get(uid)]. *)
Definition Journalist_get (d : DB) (uid : Z) : option Journalist :=
  find (fun j => journalist_id j =? uid) (journalists d).

Definition journalists_by_username (d : DB) (u : string) : list Journalist :=
  filter (fun j => String.eqb (username j) u) (journalists d).

(** The row behind the object [g.source]. *)
Definition source_row (d : DB) (id : Z) : option Source :=
  find (fun s => source_id s =? id) (sources d).

(** [source.star]. *)
Definition star_of (d : DB) (s : Source) : option SourceStar :=
  find (fun st => star_source_id st =? source_id s) (source_stars d).

(** Modelled from the spec: the property [Source.collection] of the [db]
    module is missing from [journalist.py]; a collection is the source's entire
    submission history, so it is the submissions that belong to the
    source. *)
Definition collection (d : DB) (id : Z) : list Submission :=
  filter (fun x => submission_source_id x =? id) (submissions d).

Definition modify_db (f : DB -> DB) : M unit :=
  modify (fun w => set_db (f (db w)) w).

(** Reading an attribute of [g] that was never assigned raises. *)
Definition g_sid_get : M string :=
  x <- gets g ;;
  match g_sid x with Some s => ret s | None => raise (AttributeError "sid") end.

Definition g_source_get : M Source :=
  x <- gets g ;;
  d <- gets db ;;
  match g_source x with
  | Some id =>
      match source_row d id with
      | Some s => ret s
      | None => raise (AttributeError "source")
      end
  | None => raise (AttributeError "source")
  end.

Definition g_user_get : M Journalist :=
  x <- gets g ;;
  match g_user x with Some j => ret j | None => raise (AttributeError "user") end.

(** [worker.enqueue(task, arg)]: the job is queued and its handle, the
    position in the queue, is returned; nothing runs it here. *)
Definition worker_enqueue (j : Job) : M nat :=
  q <- gets queue ;;
  modify (fun w => set_queue (queue w ++ [j]) w) ;;
  emit (EvEnqueue j) ;;
  ret (length q).

(** ** The handlers of [journalist.py] *)

Section Handlers.

Variable env : Env.

Definition journalist_filename (s : Source) : string :=
  journalist_filename_of env (journalist_designation s).

(** [db_session.commit()]: the pending state becomes the durable one, or
    the commit raises and the durable state stays. *)
Definition db_commit : M unit :=
  d <- gets db ;;
  if commit_ok env d
  then modify (set_committed d) ;; emit (EvCommit true)
  else emit (EvCommit false) ;; raise StorageError.

(** [shutdown_session]: [db_session.remove()] drops what was not
    committed. *)
Definition shutdown_session (w : World) : World := set_db (committed w) w.

Definition crypto_getkey (sid : string) : M (option string) :=
  e <- gets ext ;; ret (getkey env e sid).

Definition crypto_encrypt (msg : string) (recipients : list (option string))
           (output : string) : M unit :=
  e <- gets ext ;;
  match encrypt env e msg recipients output with
  | Some e' => modify (set_ext e') ;; emit (EvEncrypt msg recipients output true)
  | None => emit (EvEncrypt msg recipients output false) ;;
            raise (CollaboratorError "crypto_util.encrypt")
  end.

Definition crypto_delete_reply_keypair (sid : string) : M unit :=
  e <- gets ext ;;
  match delete_reply_keypair env e sid with
  | Some e' => modify (set_ext e') ;; emit (EvDeleteReplyKeypair sid true)
  | None => emit (EvDeleteReplyKeypair sid false) ;;
            raise (CollaboratorError "crypto_util.delete_reply_keypair")
  end.

Definition store_rename_submission (sid orig jfn : string) : M string :=
  e <- gets ext ;;
  match rename_submission env e sid orig jfn with
  | Some (new, e') =>
      modify (set_ext e') ;; emit (EvRenameSubmission sid orig jfn (Some new)) ;; ret new
  | None => emit (EvRenameSubmission sid orig jfn None) ;;
            raise (CollaboratorError "store.rename_submission")
  end.

Definition store_get_bulk_archive (subs : list Submission) (zip_directory : string)
  : M ZipFile :=
  e <- gets ext ;;
  match get_bulk_archive env e subs zip_directory with
  | Some (zf, e') =>
      modify (set_ext e') ;; emit (EvGetBulkArchive subs zip_directory (Some zf)) ;; ret zf
  | None => emit (EvGetBulkArchive subs zip_directory None) ;;
            raise (CollaboratorError "store.get_bulk_archive")
  end.

(** *** Request context and guards *)

Definition setup_g : M unit :=
  uid <- gets session_uid ;;
  match uid with
  | Some u =>
      if u =? 0 then ret tt
      else d <- gets db ;;
           modify (fun w => set_g (mkG (Journalist_get d u) (g_sid (g w)) (g_source (g w))) w)
  | None => ret tt
  end ;;
  r <- gets request ;;
  if String.eqb (method r) "POST" then
    match form_get (form r) "sid" with
    | Some sid =>
        if Py.truthy sid then
          modify (fun w => set_g (mkG (g_user (g w)) (Some sid) (g_source (g w))) w) ;;
          s <- get_source sid ;;
          modify (fun w => set_g (mkG (g_user (g w)) (g_sid (g w)) (Some (source_id s))) w)
        else ret tt
    | None => ret tt
    end
  else ret tt.

Definition logged_in (w : World) : bool :=
  match g_user (g w) with Some _ => true | None => false end.

Definition login_required (func : M Response) : M Response :=
  b <- gets logged_in ;;
  if negb b then redirect url_for_login else func.

(** One request: a fresh [g], the [before_request] hook, the view, and
    the teardown of the database session. *)
Definition serve (view : M Response) (w : World) : Outcome Response * World :=
  let (r, w') := (setup_g ;; view) (set_g empty_g w) in
  (r, shutdown_session w').

(** *** Login *)

Definition str_exn (e : exn) : string :=
  match e with
  | HTTPException c => "HTTPException " ++ Py.str c
  | BadRequestKeyError k => "BadRequestKeyError " ++ k
  | AttributeError n => "AttributeError " ++ n
  | NoResultFound => "No row was found for one()"
  | MultipleResultsFound => "Multiple rows were found for one()"
  | LoginThrottledException => "LoginThrottledException"
  | WrongPasswordException => "WrongPasswordException"
  | LoginError m => m
  | CollaboratorError m => m
  | StorageError => "StorageError"
  end.

Definition is_LoginThrottledException (e : exn) : bool :=
  match e with LoginThrottledException => true | _ => false end.

Definition totp_hint : string :=
  " Please wait for a new two-factor token before logging in again.".

Definition throttle_hint : string :=
  " Please wait at least " ++ Py.str (LOGIN_ATTEMPT_PERIOD env)
    ++ " seconds before logging in again.".

(** The body of the [try]: the three form fields, then the check. *)
Definition login_attempt : M Journalist :=
  u <- form_getitem "username" ;;
  p <- form_getitem "password" ;;
  t <- form_getitem "token" ;;
  d <- gets db ;;
  match Journalist_login env d u p t with
  | Return user => ret user
  | Raise e => raise e
  end.

Definition login : M Response :=
  r <- gets request ;;
  if String.eqb (method r) "POST" then
    try_except_else
      login_attempt
      (fun e =>
         u <- form_getitem "username" ;;
         logger_error ("Login for '" ++ u ++ "' failed: " ++ str_exn e) ;;
         let login_flashed_msg := "Login failed." in
         login_flashed_msg <-
           (if is_LoginThrottledException e
            then ret (login_flashed_msg ++ throttle_hint)
            else
              try_except
                (u <- form_getitem "username" ;;
                 d <- gets db ;;
                 user <- one (journalists_by_username d u) ;;
                 if is_totp user
                 then ret (login_flashed_msg ++ totp_hint)
                 else ret login_flashed_msg)
                (fun _ => ret login_flashed_msg)) ;;
         flash login_flashed_msg "error" ;;
         render_template "login.html")
      (fun user =>
         u <- form_getitem "username" ;;
         t <- form_getitem "token" ;;
         logger_info ("Successful login for '" ++ u ++ "' with token " ++ t) ;;
         now <- gets utcnow ;;
         modify_db (with_journalists
                      (update_where (fun j => journalist_id j =? journalist_id user)
                                    (set_last_access now))) ;;
         db_commit ;;
         modify (set_session_uid (Some (journalist_id user))) ;;
         redirect url_for_index)
  else render_template "login.html".

(** *** Stars *)

Definition SourceStar_new (s : Source) : SourceStar :=
  mkSourceStar (source_id s) (default_starred env).

Definition set_star_of (s : Source) (v : bool) : M unit :=
  modify_db (with_source_stars
               (update_first (fun st => star_source_id st =? source_id s)
                             (set_starred v))).

Definition db_add_star (st : SourceStar) : M unit :=
  modify_db (with_source_stars (fun l => (l ++ [st])%list)).

(** [source.star] as a handler reads it.  The attribute is loaded from the
    rows the database holds: a row handed to [db_session.add] is pending
    until the next commit and is not seen through [source.star], which is
    why [make_star_false] commits before it dereferences the attribute.  A
    row the database holds is read as the session has it, with the
    assignments the session made to it. *)
Definition source_star (w : World) (s : Source) : option SourceStar :=
  match star_of (committed w) s with
  | Some _ => star_of (db w) s
  | None => None
  end.

Definition make_star_true (sid : string) : M unit :=
  source <- get_source sid ;;
  star <- gets (fun w => source_star w source) ;;
  match star with
  | Some _ => set_star_of source true
  | None => db_add_star (SourceStar_new source)
  end.

Definition make_star_false (sid : string) : M unit :=
  source <- get_source sid ;;
  star <- gets (fun w => source_star w source) ;;
  match star with
  | None => db_add_star (SourceStar_new source) ;; db_commit
  | Some _ => ret tt
  end ;;
  set_star_of source false.

Definition add_star (sid : string) : M Response :=
  make_star_true sid ;; db_commit ;; redirect url_for_index.

Definition remove_star (sid : string) : M Response :=
  make_star_false sid ;; db_commit ;; redirect url_for_index.

(** *** Deleting a collection *)

Definition db_delete_source (s : Source) : M unit :=
  modify_db (with_sources (filter (fun x => negb (source_id x =? source_id s)))).

Definition delete_collection (source_id : string) : M nat :=
  job <- worker_enqueue (DeleteSourceDirectory source_id) ;;
  crypto_delete_reply_keypair source_id ;;
  source <- get_source source_id ;;
  db_delete_source source ;;
  db_commit ;;
  ret job.

(** *** Export *)

Definition mark_downloaded (s : Submission) : M unit :=
  modify_db (with_submissions
               (update_where (fun x => submission_id x =? submission_id s)
                             (set_downloaded true))).

(** The archive [zf] is a named temporary file that
    [store.get_bulk_archive] has made and that [download] holds until it
    returns, so [send_file] is given a file that is there. *)
Definition download (zip_basename : string) (subs : list Submission) : M Response :=
  zf <- store_get_bulk_archive subs zip_basename ;;
  now <- gets utcnow ;;
  let attachment_filename := zip_basename ++ "--" ++ strftime env now ++ ".zip" in
  for_each subs mark_downloaded ;;
  db_commit ;;
  send_file true (zf_name zf) "application/zip" (Some attachment_filename).

(** The loop [for sid in cols_selected: ... submissions += ...] of the
    two collection exports, with the filter each one applies. *)
Fixpoint gather (keep : Submission -> bool) (cols_selected : list string)
         (acc : list Submission) : M (list Submission) :=
  match cols_selected with
  | [] => ret acc
  | sid :: t =>
      d <- gets db ;;
      s <- one (sources_by_filesystem_id d sid) ;;
      gather keep t
        (acc ++ filter (fun x => keep x && (submission_source_id x =? source_id s))
                       (submissions d))%list
  end.

Definition is_nil {A} (l : list A) : bool :=
  match l with [] => true | _ => false end.

Definition col_download_unread (cols_selected : list string) : M Response :=
  subs <- gather (fun x => negb (downloaded x)) cols_selected [] ;;
  if is_nil subs then
    flash "No unread submissions in collections selected!" "error" ;;
    redirect url_for_index
  else download "unread" subs.

Definition col_download_all (cols_selected : list string) : M Response :=
  subs <- gather (fun _ => true) cols_selected [] ;;
  download "all" subs.

Definition col_star (cols_selected : list string) : M Response :=
  for_each cols_selected make_star_true ;;
  db_commit ;;
  redirect url_for_index.

Definition col_un_star (cols_selected : list string) : M Response :=
  for_each cols_selected make_star_false ;;
  db_commit ;;
  redirect url_for_index.

Definition col_delete (cols_selected : list string) : M Response :=
  (if (Z.of_nat (length cols_selected) <? 1) then
     flash "No collections selected to delete!" "error"
   else
     for_each cols_selected (fun source_id => delete_collection source_id ;; ret tt) ;;
     flash (Py.str (Z.of_nat (length cols_selected)) ++ " " ++
            (if Z.of_nat (length cols_selected) =? 1
             then "collection" else "collections") ++ " deleted")
           "notification") ;;
  redirect url_for_index.

Definition col_process : M Response :=
  r <- gets request ;;
  if negb (form_has (form r) "cols_selected") then
    flash "No collections selected!" "error" ;;
    redirect url_for_index
  else
    let cols_selected := form_getlist (form r) "cols_selected" in
    action <- form_getitem "action" ;;
    if String.eqb action "download-unread" then col_download_unread cols_selected
    else if String.eqb action "download-all" then col_download_all cols_selected
    else if String.eqb action "star" then col_star cols_selected
    else if String.eqb action "un-star" then col_un_star cols_selected
    else if String.eqb action "delete" then col_delete cols_selected
    else abort 500.

Definition download_unread_sid (sid : string) : M Response :=
  d <- gets db ;;
  s <- one (sources_by_filesystem_id d sid) ;;
  let subs := filter (fun x => (submission_source_id x =? source_id s)
                                 && negb (downloaded x)) (submissions d) in
  if is_nil subs then
    flash "No unread submissions for this source!" "message" ;;
    redirect (url_for_col sid)
  else
    source <- get_source sid ;;
    download (journalist_filename source) subs.

Definition bad_filename (fn : string) : bool :=
  Py.contains ".." fn || Py.startswith fn "/".

Definition download_single_submission (sid fn : string) : M Response :=
  (if bad_filename fn then abort 404 else ret tt) ;;
  try_except
    (d <- gets db ;;
     s <- one (filter (fun x => String.eqb (filename x) fn) (submissions d)) ;;
     mark_downloaded s ;;
     db_commit)
    (fun e =>
       match e with
       | NoResultFound =>
           logger_error ("Could not mark " ++ fn ++ " as downloaded: " ++ str_exn e)
       | _ => raise e
       end) ;;
  send_file false (store_path env sid fn) "application/pgp-encrypted" None.

Definition confirm_bulk_delete (sid : string) (items_selected : list Submission)
  : M Response :=
  render_template "delete.html".

Definition db_delete_submission (s : Submission) : M unit :=
  modify_db (with_submissions
               (filter (fun x => negb (submission_id x =? submission_id s)))).

Definition bulk_delete (sid : string) (items_selected : list Submission) : M Response :=
  for_each items_selected
    (fun item =>
       let item_path := store_path env sid (filename item) in
       worker_enqueue (SecureUnlink item_path) ;;
       db_delete_submission item) ;;
  db_commit ;;
  flash ("Submission" ++
         (if (1 <? Z.of_nat (length items_selected)) then "s" else "") ++ " deleted.")
        "notification" ;;
  redirect (url_for_col sid).

Definition bulk : M Response :=
  action <- form_getitem "action" ;;
  r <- gets request ;;
  let doc_names_selected := form_getlist (form r) "doc_names_selected" in
  src <- g_source_get ;;
  d <- gets db ;;
  let selected_docs :=
    filter (fun doc => Py.mem (filename doc) doc_names_selected)
           (collection d (source_id src)) in
  if is_nil selected_docs then
    (if String.eqb action "download" then
       flash "No collections selected to download!" "error"
     else if String.eqb action "delete" || String.eqb action "confirm_delete" then
       flash "No collections selected to delete!" "error"
     else ret tt) ;;
    sid <- g_sid_get ;;
    redirect (url_for_col sid)
  else if String.eqb action "download" then
    sid <- g_sid_get ;;
    source <- get_source sid ;;
    download (journalist_filename source) selected_docs
  else if String.eqb action "delete" then
    sid <- g_sid_get ;;
    bulk_delete sid selected_docs
  else if String.eqb action "confirm_delete" then
    sid <- g_sid_get ;;
    confirm_bulk_delete sid selected_docs
  else abort 400.

(** *** Replies *)

Definition db_add_reply (r : Reply) : M unit :=
  modify_db (with_replies (fun l => (l ++ [r])%list)).

Definition reply_filename_for (count : Z) (jfn : string) : string :=
  Py.str count ++ "-" ++ jfn ++ "-reply.gpg".

Definition reply : M Response :=
  msg <- form_getitem "msg" ;;
  if negb (Py.truthy msg) then
    flash "You cannot send an empty reply!" "error" ;;
    sid <- g_sid_get ;;
    redirect (url_for_col sid)
  else
    src <- g_source_get ;;
    modify_db (with_sources
                 (update_where (fun s => source_id s =? source_id src)
                               (set_interaction_count (interaction_count src + 1)))) ;;
    src <- g_source_get ;;
    let filename := reply_filename_for (interaction_count src) (journalist_filename src) in
    sid <- g_sid_get ;;
    key <- crypto_getkey sid ;;
    crypto_encrypt msg [key; Some (JOURNALIST_KEY env)] (store_path env sid filename) ;;
    user <- g_user_get ;;
    let reply := mkReply (journalist_id user) (source_id src) filename in
    finally_return
      (try_except_else
         (db_add_reply reply ;; db_commit)
         (fun exc =>
            flash ("An unexpected error occurred! Please check the application " ++
                   "logs or inform your adminstrator.") "error" ;;
            user <- g_user_get ;;
            logger_error ("Reply from '" ++ username user ++ "' (id " ++
                          Py.str (journalist_id user) ++ ") failed: " ++
                          str_exn exc ++ "!"))
         (fun _ => flash "Thanks! Your reply has been stored." "notification"))
      (sid <- g_sid_get ;; redirect (url_for_col sid)).

(** *** Renaming a source *)

Definition rename_item (item : Submission) : M unit :=
  sid <- g_sid_get ;;
  src <- g_source_get ;;
  new <- store_rename_submission sid (filename item) (journalist_filename src) ;;
  modify_db (with_submissions
               (update_where (fun x => submission_id x =? submission_id item)
                             (set_filename new))).

Definition generate_code : M Response :=
  src <- g_source_get ;;
  let original_journalist_designation := journalist_designation src in
  d <- gets db ;;
  modify_db (with_sources
               (update_where (fun s => source_id s =? source_id src)
                             (set_journalist_designation (display_id env d)))) ;;
  src <- g_source_get ;;
  d <- gets db ;;
  for_each (collection d (source_id src)) rename_item ;;
  db_commit ;;
  src <- g_source_get ;;
  flash ("The source '" ++ original_journalist_designation ++
         "' has been renamed to '" ++ journalist_designation src ++ "'")
        "notification" ;;
  sid <- g_sid_get ;;
  redirect ("/col/" ++ sid).

End Handlers.

(** ** A reference environment

    The collaborators as the specification describes them, over a content
    store that maps paths to contents and a key ring that maps collection
    identifiers to key fingerprints.  The lemmas below hold for every
    environment; this one makes them run on concrete requests. *)

Module Ref.

Fixpoint lookup (k : string) (l : list (string * string)) : option string :=
  match l with
  | [] => None
  | (k', v) :: t => if String.eqb k' k then Some v else lookup k t
  end.

Definition remove (k : string) (l : list (string * string)) : list (string * string) :=
  filter (fun kv => negb (String.eqb (fst kv) k)) l.

Definition endswith (s suffix : string) : bool :=
  let n := String.length s in
  let m := String.length suffix in
  Nat.leb m n && String.eqb (substring (n - m) m s) suffix.

(** The sequence number a filename starts with. *)
Fixpoint before_dash (s : string) : string :=
  match s with
  | EmptyString => EmptyString
  | String c t => if Ascii.eqb c "-" then EmptyString else String c (before_dash t)
  end.

(** The kind and extension a filename ends with. *)
Fixpoint after_last_dash (s : string) : string :=
  match s with
  | EmptyString => EmptyString
  | String c t =>
      if Py.contains "-" t then after_last_dash t
      else if Ascii.eqb c "-" then t else String c t
  end.

(** Modelled from the spec: [Content Store: pathFor(collectionId,
    filename) -> path]; [store.path] is missing from [journalist.py]. *)
Definition path (sid fn : string) : string := "/store/" ++ sid ++ "/" ++ fn.

(** Modelled from the spec: [store.rename_submission] is missing from
    [journalist.py].  It renames the backing file to reflect the new designation
    while preserving its embedded sequence number; it fails when the
    backing file is not there. *)
Definition rename (e : Ext) (sid orig jfn : string) : option (string * Ext) :=
  let new := before_dash orig ++ "-" ++ jfn ++ "-" ++ after_last_dash orig in
  match lookup (path sid orig) (files e) with
  | Some content =>
      Some (new, mkExt ((path sid new, content) :: remove (path sid orig) (files e))
                       (keyring e))
  | None => None
  end.

(** Modelled from the spec: [store.get_bulk_archive] is missing from
    [journalist.py].  It builds an archive of the selected submissions' backing
    files, named with the export basename; it fails when a backing file
    is not there. *)
Definition archive (e : Ext) (subs : list Submission) (zip_directory : string)
  : option (ZipFile * Ext) :=
  if forallb (fun s => existsb (fun kv => endswith (fst kv) ("/" ++ filename s)) (files e))
             subs
  then
    let name := "/tmp/" ++ zip_directory ++ ".zip" in
    Some (mkZipFile name (map filename subs),
          mkExt ((name, "zip") :: files e) (keyring e))
  else None.

(** Modelled from the spec: [crypto_util.encrypt] is missing from
    [journalist.py].  Given plaintext and recipient public keys it produces an
    encrypted artifact at a target path, and fails on malformed key
    material, here a recipient without a key. *)
Definition encrypt_to (e : Ext) (msg : string) (recipients : list (option string))
           (output : string) : option Ext :=
  if forallb (fun k => match k with Some _ => true | None => false end) recipients
  then Some (mkExt ((output, "gpg:" ++ msg) :: files e) (keyring e))
  else None.

(** Modelled from the spec: [crypto_util.delete_reply_keypair] is
    missing from [journalist.py]; given a collection identifier it irreversibly destroys
    the keypair. *)
Definition destroy_keypair (e : Ext) (sid : string) : option Ext :=
  Some (mkExt (files e) (remove sid (keyring e))).

(** Modelled from the spec: [Journalist.login] is missing from [journalist.py].
    It looks the user up by username and rejects a password or token
    that does not verify; [accepted] lists the triples that verify. *)
Definition check_login (accepted : list (string * string * string))
           (d : DB) (u p t : string) : Outcome Journalist :=
  match journalists_by_username d u with
  | [j] =>
      if existsb (fun c => match c with
                           | (u', p', t') =>
                               String.eqb u' u && String.eqb p' p && String.eqb t' t
                           end) accepted
      then Return j
      else Raise WrongPasswordException
  | _ => Raise (LoginError ("invalid username '" ++ u ++ "'"))
  end.

Definition env : Env :=
  {| JOURNALIST_KEY := "JOURNALIST-KEY";
     LOGIN_ATTEMPT_PERIOD := 60;
     default_starred := true;
     journalist_filename_of := fun designation => designation;
     display_id := fun _ => "newname";
     store_path := path;
     strftime := Py.str;
     Journalist_login := check_login [("alice", "correct horse", "123456")];
     getkey := fun e sid => lookup sid (keyring e);
     encrypt := encrypt_to;
     delete_reply_keypair := destroy_keypair;
     rename_submission := rename;
     get_bulk_archive := archive;
     commit_ok := fun _ => true |}.

(** The same collaborators over a database that refuses every commit. *)
Definition env_storage_down : Env :=
  {| JOURNALIST_KEY := JOURNALIST_KEY env;
     LOGIN_ATTEMPT_PERIOD := LOGIN_ATTEMPT_PERIOD env;
     default_starred := default_starred env;
     journalist_filename_of := journalist_filename_of env;
     display_id := display_id env;
     store_path := store_path env;
     strftime := strftime env;
     Journalist_login := Journalist_login env;
     getkey := getkey env;
     encrypt := encrypt env;
     delete_reply_keypair := delete_reply_keypair env;
     rename_submission := rename_submission env;
     get_bulk_archive := get_bulk_archive env;
     commit_ok := fun _ => false |}.

Definition alice : Journalist := mkJournalist 1 "alice" true false None.
Definition dave : Journalist := mkJournalist 2 "dave" false false None.

Definition c1 : Source := mkSource 1 "c1" "oldname" 2 false false.
Definition c2 : Source := mkSource 2 "c2" "quiet" 0 false false.

Definition sub1 : Submission := mkSubmission 1 1 "1-oldname-msg.gpg" true.
Definition sub2 : Submission := mkSubmission 2 1 "2-oldname-doc.gpg" false.

Definition database : DB :=
  mkDB [alice; dave] [c1; c2] [sub1; sub2] [] [].

Definition store : Ext :=
  mkExt [(path "c1" "1-oldname-msg.gpg", "gpg:one");
         (path "c1" "2-oldname-doc.gpg", "gpg:two")]
        [("c1", "C1-KEY"); ("c2", "C2-KEY")].

(** A world at the start of a request: nothing pending, nothing flashed. *)
Definition world (uid : option Z) (r : Request) : World :=
  mkWorld database database uid r empty_g [] [] store [] 1000 [].

(** The same world once [setup_g] has run for journalist [alice] on a
    request that names collection [c1]. *)
Definition world_in_c1 (r : Request) : World :=
  set_g (mkG (Some alice) (Some "c1") (Some 1)) (world (Some 1) r).

(** A content store that has lost the backing file of the second
    submission. *)
Definition store_without_doc : Ext :=
  mkExt [(path "c1" "1-oldname-msg.gpg", "gpg:one")] (keyring store).


Definition post (fields : list (string * string)) : Request := mkRequest "POST" fields.
Definition get : Request := mkRequest "GET" [].

End Ref.

(** ** Further handlers of [journalist.py] *)

Definition url_for_admin_index : string := "/admin".

Definition set_request (r : Request) (w : World) : World :=
  mkWorld (db w) (committed w) (session_uid w) r (g w) (flashes w)
          (logged w) (ext w) (queue w) (utcnow w) (trace w).

Definition set_flagged (v : bool) (s : Source) : Source :=
  mkSource (source_id s) (filesystem_id s) (journalist_designation s)
           (interaction_count s) v (pending s).

(** [logged_in() and g.user.is_admin], then the view; otherwise the
    notification and the way back to the index. *)
Definition admin_required (func : M Response) : M Response :=
  b <- gets logged_in ;;
  u <- gets (fun w => g_user (g w)) ;;
  if b && match u with Some j => is_admin j | None => false end
  then func
  else
    flash "You must be an administrator to access that page" "notification" ;;
    redirect url_for_index.

(** [session.pop('uid', None)]. *)
Definition logout : M Response :=
  modify (set_session_uid None) ;;
  redirect url_for_index.

Definition admin_index : M Response := render_template "admin.html".

Section FurtherHandlers.

Variable env : Env.

(** [db_session.delete(user)]: the row goes.  What the mapper does to the
    rows that refer to it is decided in the [db] module and is not
    followed here. *)
Definition db_delete_journalist (j : Journalist) : M unit :=
  modify_db (with_journalists
               (filter (fun x => negb (journalist_id x =? journalist_id j)))).

Definition admin_delete_user (user_id : Z) : M Response :=
  d <- gets db ;;
  match Journalist_get d user_id with
  | Some user =>
      db_delete_journalist user ;;
      db_commit env ;;
      flash ("Deleted user '" ++ username user ++ "'") "notification"
  | None =>
      admin <- g_user_get ;;
      logger_error ("Admin " ++ username admin ++
                    " tried to delete nonexistent user with pk=" ++ Py.str user_id) ;;
      abort 404
  end ;;
  redirect url_for_admin_index.

Definition col (sid : string) : M Response :=
  source <- get_source sid ;;
  has_key <- crypto_getkey env sid ;;
  render_template "col.html".

Definition col_delete_single (sid : string) : M Response :=
  source <- get_source sid ;;
  delete_collection env sid ;;
  flash (journalist_designation source ++ "'s collection deleted") "notification" ;;
  redirect url_for_index.

Definition flag : M Response :=
  src <- g_source_get ;;
  modify_db (with_sources
               (update_where (fun s => source_id s =? source_id src)
                             (set_flagged true))) ;;
  db_commit env ;;
  sid <- g_sid_get ;;
  src <- g_source_get ;;
  render_template "flag.html".

End FurtherHandlers.

(** The journalist a request is served for: the row the user id of the
    session resolves to, if it is set and resolves. *)
Definition session_user (w : World) : option Journalist :=
  match session_uid w with
  | Some u => if u =? 0 then None else Journalist_get (db w) u
  | None => None
  end.

Definition admin_session (w : World) : bool :=
  match session_user w with Some j => is_admin j | None => false end.

(** The unread submissions of the collection [sid] names, when it names
    exactly one. *)
Definition submissions_of (keep : Submission -> bool) (d : DB) (sid : string)
  : list Submission :=
  match sources_by_filesystem_id d sid with
  | [s] => filter (fun x => keep x && (submission_source_id x =? source_id s))
                  (submissions d)
  | _ => []
  end.

Definition resolves (d : DB) (sid : string) : Prop :=
  exists s, sources_by_filesystem_id d sid = [s].

(** The tasks [bulk_delete] hands to the worker. *)
Definition unlink_jobs (env : Env) (sid : string) (items : list Submission) : list Job :=
  map (fun item => SecureUnlink (store_path env sid (filename item))) items.

(** The documents of the collection behind [g.source] that the form
    names. *)
Definition selected_docs (w : World) (id : Z) : list Submission :=
  filter (fun doc => Py.mem (filename doc)
                            (form_getlist (form (request w)) "doc_names_selected"))
         (collection (db w) id).

(** What stays of a submission under a rename. *)
Definition row_facts (x : Submission) : Z * Z * bool :=
  (submission_id x, submission_source_id x, downloaded x).

(** At most one star row for each collection. *)
Definition stars_unique (d : DB) : Prop :=
  NoDup (map star_source_id (source_stars d)).

(** No star row is pending: a collection of which the database holds no
    star has none in the session either.  A request starts like this, the
    session of the previous one having been removed. *)
Definition no_pending_star (w : World) : Prop :=
  forall s0, star_of (committed w) s0 = None -> star_of (db w) s0 = None.

(** Whether a star action on the selection [cols] reaches the star of
    collection [s0]: some selected identifier names a collection with its
    primary key. *)
Definition star_selected (d : DB) (cols : list string) (s0 : Source) : bool :=
  existsb (fun sid =>
             match sources_by_filesystem_id d sid with
             | [s] => source_id s =? source_id s0
             | _ => false
             end) cols.

(** A newsroom with an administrator besides the two journalists. *)
Module Desk.

Definition erin : Journalist := mkJournalist 3 "erin" false true None.

Definition database : DB :=
  with_journalists (fun l => (l ++ [erin])%list) Ref.database.

Definition world (uid : option Z) (r : Request) : World :=
  mkWorld database database uid r empty_g [] [] Ref.store [] 1000 [].

(** The world once [setup_g] has run for [erin]. *)
Definition world_of_erin (r : Request) : World :=
  set_g (mkG (Some erin) None None) (world (Some 3) r).

(** Collection [c2] with a document of its own. *)
Definition sub3 : Submission := mkSubmission 3 2 "1-quiet-doc.gpg" false.

Definition database_with_c2_doc : DB :=
  with_submissions (fun l => (l ++ [sub3])%list) Ref.database.

(** A request of [alice] inside collection [c1], over that database. *)
Definition world_in_c1 (r : Request) : World :=
  mkWorld database_with_c2_doc database_with_c2_doc (Some 1) r
          (mkG (Some Ref.alice) (Some "c1") (Some 1)) [] [] Ref.store [] 1000 [].

(** The reference collaborators with a key ring that has lost the key of
    every collection, so that no reply can be encrypted. *)
Definition store_without_keys : Ext := mkExt (files Ref.store) [].

(** The reference collaborators under a login throttle that rejects every
    attempt. *)
Definition env_throttled : Env :=
  {| JOURNALIST_KEY := JOURNALIST_KEY Ref.env;
     LOGIN_ATTEMPT_PERIOD := LOGIN_ATTEMPT_PERIOD Ref.env;
     default_starred := default_starred Ref.env;
     journalist_filename_of := journalist_filename_of Ref.env;
     display_id := display_id Ref.env;
     store_path := store_path Ref.env;
     strftime := strftime Ref.env;
     Journalist_login := fun _ _ _ _ => Raise LoginThrottledException;
     getkey := getkey Ref.env;
     encrypt := encrypt Ref.env;
     delete_reply_keypair := delete_reply_keypair Ref.env;
     rename_submission := rename_submission Ref.env;
     get_bulk_archive := get_bulk_archive Ref.env;
     commit_ok := commit_ok Ref.env |}.

(** A content store that does not raise when it cannot rename a file: it
    leaves the store as it is and answers with the name the file still
    has.  [generate_code] assigns whatever name [store.rename_submission]
    returns, so such an answer is a value it accepts. *)
Definition rename_or_keep (e : Ext) (sid orig jfn : string) : option (string * Ext) :=
  match Ref.rename e sid orig jfn with
  | Some r => Some r
  | None => Some (orig, e)
  end.

Definition env_keeps_name : Env :=
  {| JOURNALIST_KEY := JOURNALIST_KEY Ref.env;
     LOGIN_ATTEMPT_PERIOD := LOGIN_ATTEMPT_PERIOD Ref.env;
     default_starred := default_starred Ref.env;
     journalist_filename_of := journalist_filename_of Ref.env;
     display_id := display_id Ref.env;
     store_path := store_path Ref.env;
     strftime := strftime Ref.env;
     Journalist_login := Journalist_login Ref.env;
     getkey := getkey Ref.env;
     encrypt := encrypt Ref.env;
     delete_reply_keypair := delete_reply_keypair Ref.env;
     rename_submission := rename_or_keep;
     get_bulk_archive := get_bulk_archive Ref.env;
     commit_ok := commit_ok Ref.env |}.

End Desk.

(** ** Observations on a run *)

(** The messages a computation flashes, and the outside calls it makes. *)
Definition flashed_by {A} (c : M A) (w : World) : list (string * string) :=
  skipn (length (flashes w)) (flashes (snd (c w))).

Definition events_of {A} (c : M A) (w : World) : list Event :=
  skipn (length (trace w)) (trace (snd (c w))).

(** The code with which [setup_g] aborts a request, if it does: a POST that
    names a collection which is not exactly one row. *)
Definition setup_g_abort (w : World) : option Z :=
  if String.eqb (method (request w)) "POST" then
    match form_get (form (request w)) "sid" with
    | Some sid =>
        if Py.truthy sid then
          match sources_by_filesystem_id (db w) sid with
          | [_] => None
          | [] => Some 404
          | _ :: _ :: _ => Some 500
          end
        else None
    | None => None
    end
  else None.

(** The world [w1] a view is entered with when a request is served in
    [w]: [g.user] is the journalist of the session, and nothing else has
    moved but the rest of [g] and, on an abort, the log. *)
Definition enters (w w1 : World) : Prop :=
  g_user (g w1) = session_user w /\
  db w1 = db w /\ committed w1 = committed w /\ session_uid w1 = session_uid w /\
  request w1 = request w /\ flashes w1 = flashes w /\ ext w1 = ext w /\
  queue w1 = queue w /\ trace w1 = trace w.

(** What a request that is turned away leaves in [w']: the messages [msgs]
    are flashed, the session of the database is dropped, and the committed
    state, the user id, the store, the queue and the outside calls are
    what they were. *)
Definition turned_away (w w' : World) (msgs : list (string * string)) : Prop :=
  flashes w' = (flashes w ++ msgs)%list /\
  db w' = committed w /\ committed w' = committed w /\
  session_uid w' = session_uid w /\ ext w' = ext w /\
  queue w' = queue w /\ trace w' = trace w.

(** The answer of a guard that turns a request away with [resp], unless
    [setup_g] has aborted the request before. *)
Definition refusal (w : World) (resp : Response) : Outcome Response :=
  match setup_g_abort w with
  | Some c => Raise (HTTPException c)
  | None => Return resp
  end.

(** A login attempt for [u] that fails, and not because of throttling. *)
Definition failed_login_attempt (env : Env) (w : World) (u : string) : Prop :=
  method (request w) = "POST" /\
  form_get (form (request w)) "username" = Some u /\
  exists e, fst (login_attempt env w) = Raise e /\
            is_LoginThrottledException e = false.

(** [star] or [un-star] one collection. *)
Definition make_star (env : Env) (v : bool) (sid : string) : M unit :=
  if v then make_star_true env sid else make_star_false env sid.

(** The rows a bulk export marks: those whose primary key is among the
    exported submissions. *)
Definition exported (subs : list Submission) (x : Submission) : bool :=
  existsb (fun s => submission_id x =? submission_id s) subs.

(** Modelled from the spec: [store.get_bulk_archive] is missing from
    [journalist.py]; it builds an archive of the selected submissions'
    backing files.  So an archive that was built holds the file of every
    submission it was built from. *)
Definition archive_holds_its_submissions (env : Env) : Prop :=
  forall e subs zip_directory zf e',
    get_bulk_archive env e subs zip_directory = Some (zf, e') ->
    forall s, In s subs -> In (filename s) (zf_members zf).





(** * Properties *)

(** Runs the monadic plumbing of a handler on the world at hand. *)
Ltac run_monad :=
  unfold bind, ret, raise, gets, modify, abort, redirect, render_template; cbn.

(** ** Strings *)

Lemma prefix_spec (p s : string) :
  String.prefix p s = true <-> exists b, s = p ++ b.
Proof.
  revert s. induction p as [|c p IH]; intros s.
  - split; [intros _; exists s; reflexivity | intros _; destruct s; reflexivity].
  - destruct s as [|c' s]; simpl.
    + split; [discriminate | intros [b Hb]; discriminate].
    + destruct (ascii_dec c c') as [Heq|Hne].
      * subst c'. rewrite IH. split; intros [b Hb]; exists b.
        -- now rewrite Hb.
        -- now injection Hb.
      * split; [discriminate | intros [b Hb]; injection Hb; intros; congruence].
Qed.

Lemma contains_cons (sub : string) (c : ascii) (s : string) :
  Py.contains sub (String c s) = String.prefix sub (String c s) || Py.contains sub s.
Proof. reflexivity. Qed.

Lemma contains_nil (sub : string) :
  Py.contains sub EmptyString = String.prefix sub EmptyString.
Proof. unfold Py.contains. apply orb_false_r. Qed.

Lemma contains_spec (sub s : string) :
  Py.contains sub s = true <-> exists a b, s = a ++ sub ++ b.
Proof.
  split.
  - induction s as [|c s IH]; intros H.
    + rewrite contains_nil in H. apply prefix_spec in H as [b Hb].
      exists EmptyString, b. exact Hb.
    + rewrite contains_cons in H. apply orb_true_iff in H as [H|H].
      * apply prefix_spec in H as [b Hb]. exists EmptyString, b. exact Hb.
      * destruct (IH H) as (a & b & ->). exists (String c a), b. reflexivity.
  - intros (a & b & ->). induction a as [|c a IH].
    + assert (P : String.prefix sub (sub ++ b) = true)
        by (apply prefix_spec; now exists b).
      change (EmptyString ++ sub ++ b) with (sub ++ b).
      destruct (sub ++ b) eqn:E.
      * now rewrite contains_nil.
      * rewrite contains_cons, P. reflexivity.
    + change (String c a ++ sub ++ b) with (String c (a ++ sub ++ b)).
      rewrite contains_cons, IH. apply orb_true_r.
Qed.

Lemma bad_filename_spec (fn : string) :
  bad_filename fn = true <->
  (exists a b, fn = a ++ ".." ++ b) \/ (exists t, fn = "/" ++ t).
Proof.
  unfold bad_filename, Py.startswith.
  rewrite orb_true_iff, contains_spec, prefix_spec. reflexivity.
Qed.

(** ** Single downloads *)

(** C9: a filename that contains [..] or begins with [/] makes
    [download_single_submission] abort with 404 and leaves the world as it
    was: no submission is looked up or marked, nothing is committed, the
    content store is not touched.  Behind [login_required] the same request
    of a visitor who is not logged in is redirected to the login page, again
    with the world as it was. *)
Theorem download_single_submission_bad_filename
        (env : Env) (sid fn : string) (w : World) :
  (exists a b, fn = a ++ ".." ++ b) \/ (exists t, fn = "/" ++ t) ->
  download_single_submission env sid fn w = (Raise (HTTPException 404), w) /\
  login_required (download_single_submission env sid fn) w =
    (if logged_in w then Raise (HTTPException 404) else Return (Redirect "/login"), w).
Proof.
  intros H. apply bad_filename_spec in H.
  assert (E : download_single_submission env sid fn w = (Raise (HTTPException 404), w)).
  { unfold download_single_submission, bind at 1. now rewrite H. }
  split; [exact E|].
  unfold login_required, bind, gets. destruct (logged_in w); simpl; [exact E | reflexivity].
Qed.

Lemma download_single_submission_bad_filename_witness :
  let w := Ref.world_in_c1 Ref.get in
  let fn := "../../etc/passwd" in
  ((exists a b, fn = a ++ ".." ++ b) \/ (exists t, fn = "/" ++ t)) /\
  download_single_submission Ref.env "c1" fn w = (Raise (HTTPException 404), w) /\
  login_required (download_single_submission Ref.env "c1" fn) w =
    (if logged_in w then Raise (HTTPException 404) else Return (Redirect "/login"), w).
Proof.
  intros w fn.
  assert (H : (exists a b, fn = a ++ ".." ++ b) \/ (exists t, fn = "/" ++ t)).
  { left. exists "", "/../etc/passwd". reflexivity. }
  split; [exact H|].
  exact (download_single_submission_bad_filename Ref.env "c1" fn w H).
Defined.

(** ** Replies *)

(** C5: a reply with an empty message is rejected: the handler flashes the
    validation error and redirects back to the collection, and that flash
    is the only change to the world.  The interaction counter and the
    replies are as before, in the session and in the committed state, and
    nothing was encrypted or written: no outside call was made. *)
Theorem reply_rejects_empty_message (env : Env) (w : World) (sid : string) :
  form_get (form (request w)) "msg" = Some "" ->
  g_sid (g w) = Some sid ->
  reply env w =
    (Return (Redirect (url_for_col sid)),
     set_flashes (flashes w ++ [("You cannot send an empty reply!", "error")]) w) /\
  db (snd (reply env w)) = db w /\
  committed (snd (reply env w)) = committed w /\
  ext (snd (reply env w)) = ext w /\
  events_of (reply env) w = [].
Proof.
  intros Hmsg Hsid.
  assert (E : reply env w =
    (Return (Redirect (url_for_col sid)),
     set_flashes (flashes w ++ [("You cannot send an empty reply!", "error")]) w)).
  { unfold reply, form_getitem, bind at 1, bind at 1, gets. rewrite Hmsg.
    cbn. unfold g_sid_get, bind, gets, flash, modify. cbn. rewrite Hsid. reflexivity. }
  split; [exact E|]. unfold events_of. rewrite E. cbn.
  repeat split. apply skipn_all.
Qed.

Lemma reply_rejects_empty_message_witness :
  let w := Ref.world_in_c1 (Ref.post [("sid", "c1"); ("msg", "")]) in
  form_get (form (request w)) "msg" = Some "" /\
  g_sid (g w) = Some "c1" /\
  reply Ref.env w =
    (Return (Redirect "/col/c1"),
     set_flashes [("You cannot send an empty reply!", "error")] w).
Proof.
  intros w.
  split; [reflexivity|]. split; [reflexivity|].
  exact (proj1 (reply_rejects_empty_message Ref.env w "c1" eq_refl eq_refl)).
Defined.

(** ** Stale sessions *)

Lemma setup_g_stale_session (w : World) (u : Z) :
  session_uid w = Some u ->
  Journalist_get (db w) u = None ->
  let (r, w') := setup_g (set_g empty_g w) in
  g_user (g w') = None /\
  r = match setup_g_abort w with
      | Some c => Raise (HTTPException c)
      | None => Return tt
      end.
Proof.
  intros Hu Hget. unfold setup_g, setup_g_abort, get_source, get_one_or_else, logger_error.
  run_monad. rewrite Hu.
  destruct (u =? 0); cbn; rewrite ?Hget;
    (destruct (String.eqb (method (request w)) "POST"); cbn; [|now split]);
    (destruct (form_get (form (request w)) "sid") as [sid|]; cbn; [|now split]);
    (destruct (Py.truthy sid); cbn; [|now split]);
    (destruct (sources_by_filesystem_id (db w) sid) as [|s [|s' l]]; cbn; now split).
Qed.

(** C10 (as amended): when the user id kept in the session does not resolve
    to a journalist any more, the protected view is never run: the request
    is served exactly as if the view were the redirect to the login page.
    The answer is that redirect, except for a POST that names a collection
    which is not exactly one row: [setup_g] then aborts the request (404
    for no row, 500 for several) before the login check is reached. *)
Theorem stale_session_is_not_authenticated (view : M Response) (w : World) (u : Z) :
  session_uid w = Some u ->
  Journalist_get (db w) u = None ->
  serve (login_required view) w = serve (redirect url_for_login) w /\
  fst (serve (login_required view) w) =
    match setup_g_abort w with
    | Some c => Raise (HTTPException c)
    | None => Return (Redirect "/login")
    end.
Proof.
  intros Hu Hget. pose proof (setup_g_stale_session w u Hu Hget) as H.
  unfold serve, bind. destruct (setup_g (set_g empty_g w)) as [r w'].
  destruct H as [Hg ->].
  destruct (setup_g_abort w) as [c|]; cbn; [now split|].
  unfold login_required, logged_in. run_monad. rewrite Hg. cbn. now split.
Qed.

Lemma stale_session_is_not_authenticated_witness :
  let w := Ref.world (Some 7) (Ref.post [("sid", "c1"); ("msg", "hello")]) in
  session_uid w = Some 7 /\
  Journalist_get (db w) 7 = None /\
  serve (login_required (reply Ref.env)) w = serve (redirect url_for_login) w /\
  fst (serve (login_required (reply Ref.env)) w) = Return (Redirect "/login").
Proof.
  intros w. split; [reflexivity|]. split; [reflexivity|].
  exact (stale_session_is_not_authenticated (reply Ref.env) w 7 eq_refl eq_refl).
Defined.

(** C10 (as stated) fails: a POST to [/reply] from a session whose user is
    gone, naming a collection that does not exist, is answered with 404 and
    not with the redirect to the login page. *)
Lemma stale_session_redirect_counterexample :
  ~ (forall (view : M Response) (w : World) (u : Z),
        session_uid w = Some u ->
        Journalist_get (db w) u = None ->
        fst (serve (login_required view) w) = Return (Redirect "/login")).
Proof.
  intros H.
  specialize (H (reply Ref.env)
                (Ref.world (Some 7) (Ref.post [("sid", "ghost"); ("msg", "hello")]))
                7 eq_refl eq_refl).
  cbv in H. discriminate H.
Qed.

(** ** Login *)

Lemma skipn_length_app {A} (l l' : list A) : skipn (length l) (l ++ l') = l'.
Proof. induction l as [|x l IH]; [reflexivity | exact IH]. Qed.

Lemma login_attempt_reads_only (env : Env) (w : World) :
  snd (login_attempt env w) = w.
Proof.
  unfold login_attempt, form_getitem. run_monad.
  destruct (form_get (form (request w)) "username"); cbn; [|reflexivity].
  destruct (form_get (form (request w)) "password"); cbn; [|reflexivity].
  destruct (form_get (form (request w)) "token"); cbn; [|reflexivity].
  destruct (Journalist_login env (db w) _ _ _); reflexivity.
Qed.

(** What a failed login does: it logs one line and flashes the fixed
    sentence, followed by the hint about a new token when the username is
    that of exactly one journalist whose second factor is time-based. *)
Lemma login_failed_run (env : Env) (w : World) (u : string) :
  failed_login_attempt env w u ->
  exists line,
    login env w =
      (Return (RenderTemplate "login.html"),
       set_flashes
         (flashes w ++
          [("Login failed." ++
            match journalists_by_username (db w) u with
            | [j] => if is_totp j then totp_hint else ""
            | _ => ""
            end, "error")])
         (set_logged (logged w ++ [line]) w)).
Proof.
  intros (Hm & Hu & e & He & Hth).
  pose proof (login_attempt_reads_only env w) as Hw.
  exists ("ERROR " ++ "Login for '" ++ u ++ "' failed: " ++ str_exn e).
  unfold login, try_except_else, try_except, try_except_else, bind at 1, gets.
  rewrite Hm. cbn [String.eqb Ascii.eqb Bool.eqb]. cbv iota.
  destruct (login_attempt env w) as [r w']. cbn in He, Hw. subst r w'.
  unfold form_getitem, logger_error, flash, one. run_monad.
  rewrite Hu. cbn. rewrite Hth. cbn. rewrite Hu. cbn.
  destruct (journalists_by_username (db w) u) as [|j [|j' l]]; cbn;
    [ | destruct (is_totp j); cbn | ]; reflexivity.
Qed.

Lemma login_failed_flash (env : Env) (w : World) (u : string) :
  failed_login_attempt env w u ->
  flashed_by (login env) w =
    [("Login failed." ++
      match journalists_by_username (db w) u with
      | [j] => if is_totp j then totp_hint else ""
      | _ => ""
      end, "error")].
Proof.
  intros H. destruct (login_failed_run env w u H) as [line E].
  unfold flashed_by. rewrite E. cbn. apply skipn_length_app.
Qed.

(** C1 (as amended): of two failed, non-throttled attempts against the same
    journalists, one for a username nobody has and one for the username of
    journalist [j], the first flashes the fixed sentence alone and the
    second the fixed sentence with the token hint exactly when [j] uses a
    time-based second factor.  The two messages are the same when [j] does
    not. *)
Theorem login_failure_message (env : Env) (w1 w2 : World) (u1 u2 : string)
        (j : Journalist) :
  db w2 = db w1 ->
  failed_login_attempt env w1 u1 ->
  failed_login_attempt env w2 u2 ->
  journalists_by_username (db w1) u1 = [] ->
  journalists_by_username (db w1) u2 = [j] ->
  flashed_by (login env) w1 = [("Login failed.", "error")] /\
  flashed_by (login env) w2 =
    [("Login failed." ++ (if is_totp j then totp_hint else ""), "error")] /\
  (is_totp j = false -> flashed_by (login env) w1 = flashed_by (login env) w2).
Proof.
  intros Hdb H1 H2 Hno Hj.
  pose proof (login_failed_flash env w1 u1 H1) as E1.
  pose proof (login_failed_flash env w2 u2 H2) as E2.
  rewrite Hno in E1. rewrite Hdb, Hj in E2.
  split; [exact E1|]. split; [exact E2|].
  intros Ht. rewrite E1, E2, Ht. reflexivity.
Qed.

Lemma login_failure_message_witness :
  let w1 := Ref.world None (Ref.post [("username", "bob"); ("password", "x");
                                      ("token", "000000")]) in
  let w2 := Ref.world None (Ref.post [("username", "dave"); ("password", "x");
                                      ("token", "000000")]) in
  failed_login_attempt Ref.env w1 "bob" /\
  failed_login_attempt Ref.env w2 "dave" /\
  flashed_by (login Ref.env) w1 = [("Login failed.", "error")] /\
  flashed_by (login Ref.env) w2 = [("Login failed.", "error")].
Proof.
  intros w1 w2.
  assert (H1 : failed_login_attempt Ref.env w1 "bob").
  { split; [reflexivity|]. split; [reflexivity|].
    exists (LoginError "invalid username 'bob'"). split; reflexivity. }
  assert (H2 : failed_login_attempt Ref.env w2 "dave").
  { split; [reflexivity|]. split; [reflexivity|].
    exists WrongPasswordException. split; reflexivity. }
  split; [exact H1|]. split; [exact H2|].
  destruct (login_failure_message Ref.env w1 w2 "bob" "dave" Ref.dave
              eq_refl H1 H2 eq_refl eq_refl) as (E1 & E2 & _).
  split; [exact E1 | exact E2].
Defined.

(** C1 (as stated) fails: a wrong password for [alice], who uses a
    time-based second factor, is answered with the token hint, while the
    same attempt for [bob], whom nobody knows, is not; the message tells
    that [alice] exists. *)
Lemma login_failure_message_counterexample :
  ~ (forall (env : Env) (w1 w2 : World) (u1 u2 : string),
        db w2 = db w1 ->
        failed_login_attempt env w1 u1 ->
        failed_login_attempt env w2 u2 ->
        journalists_by_username (db w1) u1 = [] ->
        journalists_by_username (db w1) u2 <> [] ->
        flashed_by (login env) w1 = flashed_by (login env) w2).
Proof.
  intros H.
  specialize (H Ref.env
    (Ref.world None (Ref.post [("username", "bob"); ("password", "x"); ("token", "000000")]))
    (Ref.world None (Ref.post [("username", "alice"); ("password", "x"); ("token", "000000")]))
    "bob" "alice" eq_refl).
  assert (E : [("Login failed.", "error")] =
              [("Login failed." ++ totp_hint, "error")]); [|discriminate E].
  apply H.
  - split; [reflexivity|]. split; [reflexivity|].
    exists (LoginError "invalid username 'bob'"). split; reflexivity.
  - split; [reflexivity|]. split; [reflexivity|].
    exists WrongPasswordException. split; reflexivity.
  - reflexivity.
  - discriminate.
Qed.

(** ** Bulk export *)

Lemma update_where_none {A} (f : A -> A) (l : list A) :
  update_where (fun _ => false) f l = l.
Proof. unfold update_where. induction l as [|x l IH]; cbn; [|rewrite IH]; reflexivity. Qed.

Lemma update_where_twice {A} (p q : A -> bool) (f : A -> A) (l : list A) :
  (forall x, f (f x) = f x) ->
  (forall x, q (f x) = q x) ->
  update_where q f (update_where p f l) = update_where (fun x => p x || q x) f l.
Proof.
  intros Hf Hq. unfold update_where. rewrite map_map. apply map_ext. intros x.
  destruct (p x); cbn.
  - rewrite Hq. destruct (q x); [apply Hf | reflexivity].
  - reflexivity.
Qed.

Lemma set_db_same (w : World) : set_db (db w) w = w.
Proof. destruct w; reflexivity. Qed.

Lemma mark_nothing (d : DB) :
  with_submissions (update_where (exported []) (set_downloaded true)) d = d.
Proof.
  change (exported []) with (fun _ : Submission => false).
  unfold with_submissions. rewrite update_where_none. destruct d; reflexivity.
Qed.

(** The marking loop sets the flag of the rows that were exported, and of no
    other row. *)
Lemma for_each_mark_downloaded (subs : list Submission) (w : World) :
  for_each subs mark_downloaded w =
    (Return tt,
     set_db (with_submissions (update_where (exported subs) (set_downloaded true)) (db w)) w).
Proof.
  revert w. induction subs as [|s subs IH]; intros w.
  - cbn. unfold ret. f_equal. now rewrite mark_nothing, set_db_same.
  - cbn [for_each]. unfold bind at 1, mark_downloaded at 1, modify_db, modify.
    rewrite IH. cbn. f_equal. unfold set_db; cbn. f_equal.
    unfold with_submissions; cbn. f_equal.
    exact (update_where_twice (fun x => submission_id x =? submission_id s)
             (exported subs) (set_downloaded true) _
             (fun _ => eq_refl) (fun _ => eq_refl)).
Qed.

(** [download], step by step: the archive first; the flags and their commit
    only once the archive is there; the file is sent last. *)
Lemma download_run (env : Env) (base : string) (subs : list Submission) (w : World) :
  download env base subs w =
    match get_bulk_archive env (ext w) subs base with
    | None =>
        (Raise (CollaboratorError "store.get_bulk_archive"),
         set_trace (trace w ++ [EvGetBulkArchive subs base None]) w)
    | Some (zf, e') =>
        let d' := with_submissions
                    (update_where (exported subs) (set_downloaded true)) (db w) in
        if commit_ok env d' then
          (Return (SendFile (zf_name zf) "application/zip"
                            (Some (base ++ "--" ++ strftime env (utcnow w) ++ ".zip"))),
           mkWorld d' d' (session_uid w) (request w) (g w) (flashes w) (logged w)
                   e' (queue w) (utcnow w)
                   (((trace w ++ [EvGetBulkArchive subs base (Some zf)])
                       ++ [EvCommit true]) ++ [EvSendFile (zf_name zf)]))
        else
          (Raise StorageError,
           mkWorld d' (committed w) (session_uid w) (request w) (g w) (flashes w)
                   (logged w) e' (queue w) (utcnow w)
                   ((trace w ++ [EvGetBulkArchive subs base (Some zf)])
                      ++ [EvCommit false]))
    end.
Proof.
  unfold download, store_get_bulk_archive, send_file, db_commit, emit. run_monad.
  destruct (get_bulk_archive env (ext w) subs base) as [[zf e']|]; cbn; [|reflexivity].
  rewrite for_each_mark_downloaded. cbn.
  destruct (commit_ok env _); reflexivity.
Qed.

Lemma gather_reads_only (keep : Submission -> bool) (cols : list string)
      (acc : list Submission) (w : World) :
  snd (gather keep cols acc w) = w.
Proof.
  revert acc. induction cols as [|sid cols IH]; intros acc; [reflexivity|].
  cbn [gather]. unfold one. run_monad.
  destruct (sources_by_filesystem_id (db w) sid) as [|s [|s' l]]; cbn;
    [reflexivity | apply IH | reflexivity].
Qed.

(** Export of the unread submissions: an empty selection is reported and
    nothing else happens. *)
Lemma col_download_unread_empty_selection (env : Env) (cols : list string) (w : World) :
  fst (gather (fun x => negb (downloaded x)) cols [] w) = Return [] ->
  col_download_unread env cols w =
    (Return (Redirect "/"),
     set_flashes (flashes w ++ [("No unread submissions in collections selected!", "error")]) w).
Proof.
  intros H. pose proof (gather_reads_only (fun x => negb (downloaded x)) cols [] w) as Hw.
  unfold col_download_unread, bind at 1.
  destruct (gather _ cols [] w) as [r w']. cbn in H, Hw. subst r w'. reflexivity.
Qed.

(** X29: export of selected files: an empty selection is reported and
    nothing else happens. *)
Lemma bulk_download_empty_selection (env : Env) (w : World) (sid : string)
      (id : Z) (src : Source) :
  form_get (form (request w)) "action" = Some "download" ->
  g_sid (g w) = Some sid ->
  g_source (g w) = Some id ->
  source_row (db w) id = Some src ->
  filter (fun doc => Py.mem (filename doc)
                            (form_getlist (form (request w)) "doc_names_selected"))
         (collection (db w) (source_id src)) = [] ->
  bulk env w =
    (Return (Redirect (url_for_col sid)),
     set_flashes (flashes w ++ [("No collections selected to download!", "error")]) w).
Proof.
  intros Ha Hsid Hsrc Hrow Hsel.
  unfold bulk, form_getitem, g_source_get, g_sid_get, flash. run_monad.
  rewrite Ha. cbn. rewrite Hsrc, Hrow. cbn. rewrite Hsel. cbn. rewrite Hsid. reflexivity.
Qed.

(** C2: what [col_download_all] does with an empty selection.  It reports
    nothing: no message is flashed and the answer is not a redirect.  It
    hands the empty list to the archive builder, and when that and the
    commit go through it sends the archive. *)
Theorem col_download_all_empty_selection (env : Env) (cols : list string) (w : World) :
  fst (gather (fun _ => true) cols [] w) = Return [] ->
  flashed_by (col_download_all env cols) w = [] /\
  (forall url, fst (col_download_all env cols w) <> Return (Redirect url)) /\
  (exists res, hd_error (events_of (col_download_all env cols) w)
               = Some (EvGetBulkArchive [] "all" res)) /\
  (forall zf e',
      get_bulk_archive env (ext w) [] "all" = Some (zf, e') ->
      commit_ok env (db w) = true ->
      fst (col_download_all env cols w) =
        Return (SendFile (zf_name zf) "application/zip"
                         (Some ("all" ++ "--" ++ strftime env (utcnow w) ++ ".zip")))).
Proof.
  intros H. pose proof (gather_reads_only (fun _ => true) cols [] w) as Hw.
  assert (E : col_download_all env cols w = download env "all" [] w).
  { unfold col_download_all, bind at 1.
    destruct (gather _ cols [] w) as [r w']. cbn in H, Hw. now subst r w'. }
  unfold flashed_by, events_of. rewrite E, download_run. cbn zeta. rewrite mark_nothing.
  destruct (get_bulk_archive env (ext w) [] "all") as [[zf e']|].
  - destruct (commit_ok env (db w)); cbn.
    + rewrite <- !app_assoc, skipn_length_app, skipn_all. cbn.
      repeat split; try discriminate; eauto.
      intros zf0 e0 Heq _. now inversion Heq.
    + rewrite <- !app_assoc, skipn_length_app, skipn_all. cbn.
      repeat split; try discriminate; eauto.
  - cbn. rewrite skipn_length_app, skipn_all. cbn.
    repeat split; try discriminate; eauto.
Qed.

Lemma col_download_all_empty_selection_witness :
  let w := Ref.world_in_c1 (Ref.post [("cols_selected", "c2"); ("action", "download-all")]) in
  fst (gather (fun _ => true) ["c2"] [] w) = Return [] /\
  flashed_by (col_download_all Ref.env ["c2"]) w = [] /\
  fst (col_download_all Ref.env ["c2"] w) =
    Return (SendFile "/tmp/all.zip" "application/zip" (Some "all--1000.zip")).
Proof.
  intros w. split; [reflexivity|].
  destruct (col_download_all_empty_selection Ref.env ["c2"] w eq_refl)
    as (Hflash & _ & _ & Hsend).
  split; [exact Hflash|].
  exact (Hsend (mkZipFile "/tmp/all.zip" [])
               (mkExt (("/tmp/all.zip", "zip") :: files (ext w)) (keyring (ext w)))
               eq_refl eq_refl).
Defined.

(** C4: [download] marks submissions only after their archive was built.
    When the archive cannot be built the handler raises with the session and
    the committed state as they were.  When it is built, the rows marked are
    those of the exported submissions, each of which the archive holds; any
    row of the table is either unchanged or an exported one with its flag
    set.  The marks are committed in one commit that follows the archive
    call and precedes the sending of the file; if that commit fails nothing
    is committed and nothing is sent. *)
Theorem download_marks_after_archive (env : Env) (base : string)
        (subs : list Submission) (w : World) :
  archive_holds_its_submissions env ->
  let r := fst (download env base subs w) in
  let w' := snd (download env base subs w) in
  match get_bulk_archive env (ext w) subs base with
  | None =>
      r = Raise (CollaboratorError "store.get_bulk_archive") /\
      db w' = db w /\
      committed w' = committed w /\
      events_of (download env base subs) w = [EvGetBulkArchive subs base None]
  | Some (zf, _) =>
      submissions (db w') =
        update_where (exported subs) (set_downloaded true) (submissions (db w)) /\
      (forall s, In s subs -> In (filename s) (zf_members zf)) /\
      (forall i x x',
          nth_error (submissions (db w)) i = Some x ->
          nth_error (submissions (db w')) i = Some x' ->
          x' = x \/
          (x' = set_downloaded true x /\
           exists s, In s subs /\ submission_id s = submission_id x /\
                     In (filename s) (zf_members zf))) /\
      ((r = Return (SendFile (zf_name zf) "application/zip"
                             (Some (base ++ "--" ++ strftime env (utcnow w) ++ ".zip"))) /\
        committed w' = db w' /\
        events_of (download env base subs) w =
          [EvGetBulkArchive subs base (Some zf); EvCommit true; EvSendFile (zf_name zf)])
       \/
       (r = Raise StorageError /\
        committed w' = committed w /\
        events_of (download env base subs) w =
          [EvGetBulkArchive subs base (Some zf); EvCommit false]))
  end.
Proof.
  intros Hc r w'. subst r w'. unfold events_of. rewrite download_run.
  destruct (get_bulk_archive env (ext w) subs base) as [[zf e']|] eqn:Ha.
  - cbn zeta.
    assert (Hrows : forall i x x',
        nth_error (submissions (db w)) i = Some x ->
        nth_error (update_where (exported subs) (set_downloaded true)
                                (submissions (db w))) i = Some x' ->
        x' = x \/
        (x' = set_downloaded true x /\
         exists s, In s subs /\ submission_id s = submission_id x /\
                   In (filename s) (zf_members zf))).
    { intros i x x' Hx Hx'. unfold update_where in Hx'.
      rewrite nth_error_map, Hx in Hx'. cbn in Hx'. injection Hx' as <-.
      destruct (exported subs x) eqn:Ex; [right | now left].
      split; [reflexivity|]. unfold exported in Ex.
      apply existsb_exists in Ex as (s & Hs & Heq). apply Z.eqb_eq in Heq.
      exists s. repeat split; [exact Hs | now symmetry | exact (Hc _ _ _ _ _ Ha s Hs)]. }
    destruct (commit_ok env _); cbn.
    + split; [reflexivity|]. split; [exact (Hc _ _ _ _ _ Ha)|].
      split; [exact Hrows|].
      left. rewrite <- !app_assoc, skipn_length_app. now repeat split.
    + split; [reflexivity|]. split; [exact (Hc _ _ _ _ _ Ha)|].
      split; [exact Hrows|].
      right. rewrite <- !app_assoc, skipn_length_app. now repeat split.
  - cbn. rewrite skipn_length_app. now repeat split.
Qed.

Lemma ref_archive_holds_its_submissions : archive_holds_its_submissions Ref.env.
Proof.
  intros e subs dir zf e' H s Hs. cbn in H. unfold Ref.archive in H.
  destruct (forallb _ subs); [|discriminate].
  injection H as <- _. cbn. now apply in_map.
Qed.

Lemma download_marks_after_archive_witness :
  let w := Ref.world_in_c1 (Ref.post [("cols_selected", "c1"); ("action", "download-all")]) in
  let w' := snd (download Ref.env "all" [Ref.sub1; Ref.sub2] w) in
  archive_holds_its_submissions Ref.env /\
  submissions (db w') = [Ref.sub1; set_downloaded true Ref.sub2] /\
  (fst (download Ref.env "all" [Ref.sub1; Ref.sub2] w) =
     Return (SendFile "/tmp/all.zip" "application/zip" (Some "all--1000.zip")) /\
   committed w' = db w' /\
   events_of (download Ref.env "all" [Ref.sub1; Ref.sub2]) w =
     [EvGetBulkArchive [Ref.sub1; Ref.sub2] "all"
        (Some (mkZipFile "/tmp/all.zip" ["1-oldname-msg.gpg"; "2-oldname-doc.gpg"]));
      EvCommit true; EvSendFile "/tmp/all.zip"]).
Proof.
  intros w w'. split; [exact ref_archive_holds_its_submissions|].
  pose proof (download_marks_after_archive Ref.env "all" [Ref.sub1; Ref.sub2] w
                ref_archive_holds_its_submissions) as H.
  cbv zeta in H.
  change (get_bulk_archive Ref.env (ext w) [Ref.sub1; Ref.sub2] "all")
    with (Some (mkZipFile "/tmp/all.zip" ["1-oldname-msg.gpg"; "2-oldname-doc.gpg"],
                mkExt (("/tmp/all.zip", "zip") :: files (ext w)) (keyring (ext w)))) in H.
  cbv iota beta in H.
  destruct H as (Hsub & _ & _ & [Hok | (Hbad & _)]).
  - split; [exact Hsub | exact Hok].
  - exfalso. vm_compute in Hbad. discriminate Hbad.
Defined.

(** ** Deleting a collection *)

Lemma nth_error_snoc {A} (l : list A) (x : A) : nth_error (l ++ [x]) (length l) = Some x.
Proof. induction l as [|y l IH]; [reflexivity | exact IH]. Qed.

Lemma filter_filter_nil {A} (p q : A -> bool) (l : list A) :
  (forall x, In x l -> p x = true -> q x = false) ->
  filter p (filter q l) = [].
Proof.
  intros H. destruct (filter p (filter q l)) as [|x t] eqn:E; [reflexivity|].
  assert (Hx : In x (filter p (filter q l))) by (rewrite E; now left).
  apply filter_In in Hx as [Hx Hp]. apply filter_In in Hx as [Hx Hq].
  rewrite (H x Hx Hp) in Hq. discriminate.
Qed.

Lemma deleted_source_is_gone (d : DB) (sid : string) (s : Source) :
  sources_by_filesystem_id d sid = [s] ->
  sources_by_filesystem_id
    (with_sources (filter (fun x => negb (source_id x =? source_id s))) d) sid = [].
Proof.
  intros H. unfold sources_by_filesystem_id, with_sources; cbn.
  apply filter_filter_nil. intros x Hx Hp.
  assert (Hin : In x (sources_by_filesystem_id d sid)) by (apply filter_In; now split).
  rewrite H in Hin. destruct Hin as [<-|[]]. now rewrite Z.eqb_refl.
Qed.

(** X28: whatever the collaborators do, [delete_collection] starts by enqueueing
    the erase task, goes on with the keypair, and commits last. *)
Lemma delete_collection_events (env : Env) (sid : string) (w : World) :
  let evs := events_of (delete_collection env sid) w in
  evs = [EvEnqueue (DeleteSourceDirectory sid); EvDeleteReplyKeypair sid false] \/
  evs = [EvEnqueue (DeleteSourceDirectory sid); EvDeleteReplyKeypair sid true] \/
  exists ok, evs = [EvEnqueue (DeleteSourceDirectory sid); EvDeleteReplyKeypair sid true;
                    EvCommit ok].
Proof.
  unfold events_of, delete_collection, worker_enqueue, crypto_delete_reply_keypair,
    get_source, get_one_or_else, db_delete_source, db_commit, modify_db, emit, logger_error.
  run_monad.
  destruct (delete_reply_keypair env (ext w) sid) as [e'|]; cbn.
  - destruct (sources_by_filesystem_id (db w) sid) as [|s [|s' l]]; cbn.
    + right; left. rewrite <- !app_assoc. apply skipn_length_app.
    + right; right. destruct (commit_ok env _); cbn;
        [exists true | exists false]; rewrite <- !app_assoc; apply skipn_length_app.
    + right; left. rewrite <- !app_assoc. apply skipn_length_app.
  - left. rewrite <- !app_assoc. apply skipn_length_app.
Qed.

(** C7: a deletion that goes through makes exactly three outside calls, in
    this order: the erase task for the collection's directory is enqueued,
    the reply keypair is destroyed, the deletion of the record is
    committed.  The handle returned is that of the enqueued task, which is
    still waiting in the queue when [delete_collection] returns; the record
    is gone from the committed state. *)
Theorem delete_collection_order (env : Env) (sid : string) (w : World)
        (e' : Ext) (s : Source) :
  delete_reply_keypair env (ext w) sid = Some e' ->
  sources_by_filesystem_id (db w) sid = [s] ->
  commit_ok env (with_sources (filter (fun x => negb (source_id x =? source_id s))) (db w))
    = true ->
  let job := fst (delete_collection env sid w) in
  let w' := snd (delete_collection env sid w) in
  job = Return (length (queue w)) /\
  events_of (delete_collection env sid) w =
    [EvEnqueue (DeleteSourceDirectory sid); EvDeleteReplyKeypair sid true; EvCommit true] /\
  queue w' = (queue w ++ [DeleteSourceDirectory sid])%list /\
  nth_error (queue w') (length (queue w)) = Some (DeleteSourceDirectory sid) /\
  ext w' = e' /\
  db w' = with_sources (filter (fun x => negb (source_id x =? source_id s))) (db w) /\
  committed w' = db w' /\
  sources_by_filesystem_id (committed w') sid = [].
Proof.
  intros Hk Hs Hc.
  assert (E : delete_collection env sid w =
    (Return (length (queue w)),
     let d' := with_sources (filter (fun x => negb (source_id x =? source_id s))) (db w) in
     mkWorld d' d' (session_uid w) (request w) (g w) (flashes w) (logged w) e'
             (queue w ++ [DeleteSourceDirectory sid]) (utcnow w)
             (((trace w ++ [EvEnqueue (DeleteSourceDirectory sid)])
                 ++ [EvDeleteReplyKeypair sid true]) ++ [EvCommit true]))).
  { unfold delete_collection, worker_enqueue, crypto_delete_reply_keypair,
      get_source, get_one_or_else, db_delete_source, db_commit, modify_db, emit.
    run_monad. rewrite Hk. cbn. rewrite Hs. cbn. rewrite Hc. reflexivity. }
  unfold events_of. rewrite E. cbn.
  rewrite <- !app_assoc, skipn_length_app, nth_error_snoc.
  repeat split. now apply deleted_source_is_gone.
Qed.

Lemma delete_collection_order_witness :
  let w := Ref.world_in_c1 (Ref.post [("sid", "c1")]) in
  let w' := snd (delete_collection Ref.env "c1" w) in
  fst (delete_collection Ref.env "c1" w) = Return 0%nat /\
  events_of (delete_collection Ref.env "c1") w =
    [EvEnqueue (DeleteSourceDirectory "c1"); EvDeleteReplyKeypair "c1" true; EvCommit true] /\
  queue w' = [DeleteSourceDirectory "c1"] /\
  files (ext w') = files (ext w) /\
  sources (committed w') = [Ref.c2].
Proof.
  intros w w'.
  destruct (delete_collection_order Ref.env "c1" w
              (mkExt (files (ext w)) [("c2", "C2-KEY")]) Ref.c1
              eq_refl eq_refl eq_refl)
    as (Hjob & Hev & Hq & _ & Hext & Hdb & Hcm & _).
  split; [exact Hjob|]. split; [exact Hev|]. split; [exact Hq|].
  split; [unfold w'; rewrite Hext; reflexivity|].
  unfold w'. rewrite Hcm, Hdb. reflexivity.
Defined.

(** ** Stars *)

Lemma for_each_cons {A} (x : A) (t : list A) (body : A -> M unit) (w : World) :
  for_each (x :: t) body w =
    match body x w with
    | (Return _, w1) => for_each t body w1
    | (Raise e, w1) => (Raise e, w1)
    end.
Proof. reflexivity. Qed.

Lemma find_update_first {A} (p : A -> bool) (f : A -> A) (l : list A) (x : A) :
  (forall y, p (f y) = p y) ->
  find p l = Some x ->
  find p (update_first p f l) = Some (f x).
Proof.
  intros Hp. induction l as [|y l IH]; cbn; [discriminate|].
  destruct (p y) eqn:Ey; cbn.
  - intros [= <-]. now rewrite Hp, Ey.
  - rewrite Ey. exact IH.
Qed.

Lemma update_first_fixed {A} (p : A -> bool) (f : A -> A) (l : list A) (x : A) :
  find p l = Some x -> f x = x -> update_first p f l = l.
Proof.
  induction l as [|y l IH]; cbn; [reflexivity|].
  destruct (p y) eqn:Ey.
  - intros [= <-] Hf. now rewrite Hf.
  - intros Hx Hf. now rewrite IH.
Qed.

Lemma find_snoc_none {A} (p : A -> bool) (l : list A) (x : A) :
  find p l = None -> p x = true -> find p (l ++ [x]) = Some x.
Proof.
  intros Hl Hx. induction l as [|y l IH]; cbn in *.
  - now rewrite Hx.
  - destruct (p y); [discriminate | now apply IH].
Qed.

Lemma make_star_true_run (env : Env) (sid : string) (w : World) (s : Source) :
  sources_by_filesystem_id (db w) sid = [s] ->
  make_star_true env sid w =
    (Return tt,
     set_db (with_source_stars
               (fun l =>
                  match source_star w s with
                  | Some _ => update_first (fun st => star_source_id st =? source_id s)
                                           (set_starred true) l
                  | None => (l ++ [SourceStar_new env s])%list
                  end) (db w)) w).
Proof.
  intros Hs. unfold make_star_true, get_source, get_one_or_else, set_star_of,
    db_add_star, modify_db. run_monad. rewrite Hs. cbn.
  destruct (source_star w s); reflexivity.
Qed.

Lemma make_star_false_run (env : Env) (sid : string) (w : World) (s : Source) :
  sources_by_filesystem_id (db w) sid = [s] ->
  (forall d, commit_ok env d = true) ->
  make_star_false env sid w =
    (Return tt,
     match source_star w s with
     | Some _ =>
         set_db (with_source_stars
                   (update_first (fun st => star_source_id st =? source_id s)
                                 (set_starred false)) (db w)) w
     | None =>
         let d1 := with_source_stars (fun l => (l ++ [SourceStar_new env s])%list) (db w) in
         mkWorld (with_source_stars
                    (update_first (fun st => star_source_id st =? source_id s)
                                  (set_starred false)) d1)
                 d1 (session_uid w) (request w) (g w) (flashes w) (logged w) (ext w)
                 (queue w) (utcnow w) (trace w ++ [EvCommit true])
     end).
Proof.
  intros Hs Hc. unfold make_star_false, get_source, get_one_or_else, set_star_of,
    db_add_star, db_commit, modify_db, emit. run_monad. rewrite Hs. cbn.
  destruct (source_star w s); cbn; [reflexivity|]. now rewrite Hc.
Qed.

Lemma source_star_pending (w : World) (s : Source) :
  star_of (committed w) s = None -> source_star w s = None.
Proof. intros H. unfold source_star. now rewrite H. Qed.

(** C8: starring is not idempotent.  For a collection of which the
    database holds no star, [make_star_true] adds a star row to the
    session; the row is pending, [source.star] stays empty, and a second
    [make_star_true] in the same session adds a second row for the same
    collection.  [col_star] with the collection selected twice commits
    both rows. *)
Theorem make_star_true_adds_second_row (env : Env) (sid : string) (w : World)
        (s : Source) :
  sources_by_filesystem_id (db w) sid = [s] ->
  star_of (committed w) s = None ->
  let st := mkSourceStar (source_id s) (default_starred env) in
  let w1 := snd (make_star_true env sid w) in
  let w2 := snd (make_star_true env sid w1) in
  fst (make_star_true env sid w) = Return tt /\
  source_stars (db w1) = (source_stars (db w) ++ [st])%list /\
  fst (make_star_true env sid w1) = Return tt /\
  source_stars (db w2) = (source_stars (db w) ++ [st; st])%list /\
  (commit_ok env (db w2) = true ->
   fst (col_star env [sid; sid] w) = Return (Redirect "/") /\
   source_stars (committed (snd (col_star env [sid; sid] w)))
   = (source_stars (db w) ++ [st; st])%list).
Proof.
  intros Hs Hnone st w1 w2.
  set (W1 := set_db (with_source_stars (fun l => (l ++ [st])%list) (db w)) w).
  set (W2 := set_db (with_source_stars (fun l => (l ++ [st])%list) (db W1)) W1).
  assert (E1 : make_star_true env sid w = (Return tt, W1)).
  { rewrite (make_star_true_run env sid w s Hs).
    now rewrite (source_star_pending w s Hnone). }
  assert (E2 : make_star_true env sid W1 = (Return tt, W2)).
  { rewrite (make_star_true_run env sid W1 s Hs).
    now rewrite (source_star_pending W1 s Hnone). }
  assert (Hw1 : w1 = W1) by (unfold w1; now rewrite E1).
  assert (Hw2 : w2 = W2) by (unfold w2; now rewrite Hw1, E2).
  assert (Hrows : source_stars (db W2) = (source_stars (db w) ++ [st; st])%list)
    by (cbn; now rewrite <- app_assoc).
  rewrite Hw2, Hw1, E1, E2. cbn [fst snd].
  split; [reflexivity|]. split; [reflexivity|]. split; [reflexivity|].
  split; [exact Hrows|]. intros Hc.
  assert (E : col_star env [sid; sid] w = (db_commit env ;; redirect url_for_index) W2).
  { unfold col_star. unfold bind at 1. now rewrite for_each_cons, E1, for_each_cons, E2. }
  rewrite E. unfold db_commit, emit, bind, gets, modify, ret, redirect.
  rewrite Hc. cbn [fst snd committed set_committed]. split; [reflexivity | exact Hrows].
Qed.

Lemma make_star_true_adds_second_row_witness :
  let w := Ref.world_in_c1 (Ref.post [("cols_selected", "c1"); ("cols_selected", "c1");
                                      ("action", "star")]) in
  sources_by_filesystem_id (db w) "c1" = [Ref.c1] /\
  star_of (committed w) Ref.c1 = None /\
  source_stars (db (snd (make_star_true Ref.env "c1" w))) = [mkSourceStar 1 true] /\
  source_stars (db (snd (make_star_true Ref.env "c1"
                           (snd (make_star_true Ref.env "c1" w)))))
  = [mkSourceStar 1 true; mkSourceStar 1 true] /\
  fst (col_process Ref.env w) = Return (Redirect "/") /\
  source_stars (committed (snd (col_process Ref.env w)))
  = [mkSourceStar 1 true; mkSourceStar 1 true].
Proof.
  intros w. split; [reflexivity|]. split; [reflexivity|].
  destruct (make_star_true_adds_second_row Ref.env "c1" w Ref.c1 eq_refl eq_refl)
    as (_ & H1 & _ & H2 & Hcol).
  split; [exact H1|]. split; [exact H2|].
  exact (Hcol eq_refl).
Defined.

(** ** Accepted replies *)

Lemma find_update_where_same {A} (p : A -> bool) (f : A -> A) (l : list A) (x : A) :
  (forall y, p (f y) = p y) ->
  find p l = Some x ->
  find p (update_where p f l) = Some (f x).
Proof.
  intros Hp. induction l as [|y l IH]; cbn; [discriminate|].
  destruct (p y) eqn:Ey; cbn.
  - intros [= <-]. now rewrite Hp, Ey.
  - rewrite Ey. exact IH.
Qed.

Lemma source_row_id (d : DB) (id : Z) (s : Source) :
  source_row d id = Some s -> source_id s = id.
Proof. intros H. apply find_some in H as [_ H]. now apply Z.eqb_eq in H. Qed.

(** Assigning to an attribute of the object [g.source] is seen by the next
    read of [g.source]. *)
Lemma source_row_assigned (d : DB) (id : Z) (s : Source) (f : Source -> Source) :
  (forall y, source_id (f y) = source_id y) ->
  source_row d id = Some s ->
  source_row (with_sources (update_where (fun x => source_id x =? source_id s) f) d) id
  = Some (f s).
Proof.
  intros Hf H. rewrite (source_row_id d id s H). unfold source_row, with_sources; cbn.
  apply find_update_where_same; [|exact H]. intros y. now rewrite Hf.
Qed.

(** A reply with a message whose encryption goes through, up to the
    commit: what [reply] returns and the world it leaves, for a commit that
    goes through and for one that does not. *)
Lemma reply_run (env : Env) (w : World) (msg sid : string) (id : Z)
      (user : Journalist) (src : Source) (e' : Ext) :
  let count := interaction_count src + 1 in
  let fname := reply_filename_for count (journalist_filename env src) in
  let recipients := [getkey env (ext w) sid; Some (JOURNALIST_KEY env)] in
  let output := store_path env sid fname in
  let d' := with_replies (fun l => (l ++ [mkReply (journalist_id user) id fname])%list)
              (with_sources (update_where (fun x => source_id x =? id)
                                          (set_interaction_count count)) (db w)) in
  form_get (form (request w)) "msg" = Some msg ->
  msg <> "" ->
  g w = mkG (Some user) (Some sid) (Some id) ->
  source_row (db w) id = Some src ->
  encrypt env (ext w) msg recipients output = Some e' ->
  reply env w =
    (Return (Redirect (url_for_col sid)),
     if commit_ok env d' then
       mkWorld d' d' (session_uid w) (request w) (g w)
               (flashes w ++ [("Thanks! Your reply has been stored.", "notification")])
               (logged w) e' (queue w) (utcnow w)
               ((trace w ++ [EvEncrypt msg recipients output true]) ++ [EvCommit true])
     else
       mkWorld d' (committed w) (session_uid w) (request w) (g w)
               (flashes w ++
                [("An unexpected error occurred! Please check the application " ++
                  "logs or inform your adminstrator.", "error")])
               (logged w ++
                ["ERROR " ++ "Reply from '" ++ username user ++ "' (id " ++
                 Py.str (journalist_id user) ++ ") failed: " ++
                 str_exn StorageError ++ "!"])
               e' (queue w) (utcnow w)
               ((trace w ++ [EvEncrypt msg recipients output true]) ++ [EvCommit false])).
Proof.
  intros count fname recipients output d' Hmsg Hne Hg Hrow Henc.
  pose proof (source_row_id _ _ _ Hrow) as Hid.
  pose proof (source_row_assigned (db w) id src (set_interaction_count count)
                (fun _ => eq_refl) Hrow) as Hfind.
  rewrite Hid in Hfind.
  unfold source_row, with_sources, count in Hfind. cbn in Hfind.
  unfold recipients, output, fname, count, journalist_filename, reply_filename_for
    in Henc. cbn in Henc.
  assert (Hu : g_user (g w) = Some user) by now rewrite Hg.
  assert (Hs : g_sid (g w) = Some sid) by now rewrite Hg.
  assert (Hsrc : g_source (g w) = Some id) by now rewrite Hg.
  unfold reply, form_getitem, bind at 1, bind at 1, gets. rewrite Hmsg.
  destruct msg as [|c m]; [congruence|]. cbn [Py.truthy negb].
  unfold d', recipients, output, fname, count.
  unfold g_source_get, g_sid_get, g_user_get, crypto_getkey, crypto_encrypt,
    finally_return, try_except_else, db_add_reply, db_commit, modify_db, emit, flash,
    logger_error, journalist_filename, reply_filename_for.
  run_monad. rewrite Hsrc. cbn. rewrite Hrow. cbn. rewrite Hsrc. cbn.
  rewrite Hid, Hfind. cbn. rewrite Hs. cbn.
  rewrite Henc. cbn. rewrite Hu. cbn. rewrite Hid.
  destruct (commit_ok env _); cbn; rewrite ?Hu; cbn; rewrite Hs; reflexivity.
Qed.

(** C6: a reply with a message, when the encryption and the commit go
    through.  The collection's interaction counter goes up by exactly one;
    the filename is built from the new count and the collection's
    designation; the message is encrypted once, to the collection's key and
    to the journalist key, and written to the path of that filename in the
    collection; a reply row with that filename is added and committed. *)
Theorem reply_accepted (env : Env) (w : World) (msg sid : string) (id : Z)
        (user : Journalist) (src : Source) (e' : Ext) :
  let count := interaction_count src + 1 in
  let fname := reply_filename_for count (journalist_filename env src) in
  let recipients := [getkey env (ext w) sid; Some (JOURNALIST_KEY env)] in
  let output := store_path env sid fname in
  let d' := with_replies (fun l => (l ++ [mkReply (journalist_id user) id fname])%list)
              (with_sources (update_where (fun x => source_id x =? id)
                                          (set_interaction_count count)) (db w)) in
  form_get (form (request w)) "msg" = Some msg ->
  msg <> "" ->
  g w = mkG (Some user) (Some sid) (Some id) ->
  source_row (db w) id = Some src ->
  encrypt env (ext w) msg recipients output = Some e' ->
  commit_ok env d' = true ->
  let w' := snd (reply env w) in
  fst (reply env w) = Return (Redirect (url_for_col sid)) /\
  source_row (db w') id = Some (set_interaction_count count src) /\
  replies (db w') = (replies (db w) ++ [mkReply (journalist_id user) id fname])%list /\
  db w' = d' /\
  committed w' = d' /\
  ext w' = e' /\
  events_of (reply env) w = [EvEncrypt msg recipients output true; EvCommit true] /\
  flashed_by (reply env) w = [("Thanks! Your reply has been stored.", "notification")].
Proof.
  intros count fname recipients output d' Hmsg Hne Hg Hrow Henc Hc.
  pose proof (reply_run env w msg sid id user src e' Hmsg Hne Hg Hrow Henc) as E.
  cbv zeta in E. fold count fname recipients output d' in E. rewrite Hc in E.
  pose proof (source_row_assigned (db w) id src (set_interaction_count count)
                (fun _ => eq_refl) Hrow) as Hrow'.
  rewrite (source_row_id _ _ _ Hrow) in Hrow'.
  unfold events_of, flashed_by. rewrite E. cbn.
  rewrite <- !app_assoc, !skipn_length_app.
  repeat split. unfold d'. exact Hrow'.
Qed.

(** X27: the other outcome of an accepted reply: when the commit fails the
    journalist is told of an unexpected error and is sent back to the
    collection; neither the reply nor the new count is committed, and the
    encrypted file stays where it was written. *)
Lemma reply_commit_fails (env : Env) (w : World) (msg sid : string) (id : Z)
      (user : Journalist) (src : Source) (e' : Ext) :
  let count := interaction_count src + 1 in
  let fname := reply_filename_for count (journalist_filename env src) in
  let recipients := [getkey env (ext w) sid; Some (JOURNALIST_KEY env)] in
  let output := store_path env sid fname in
  let d' := with_replies (fun l => (l ++ [mkReply (journalist_id user) id fname])%list)
              (with_sources (update_where (fun x => source_id x =? id)
                                          (set_interaction_count count)) (db w)) in
  form_get (form (request w)) "msg" = Some msg ->
  msg <> "" ->
  g w = mkG (Some user) (Some sid) (Some id) ->
  source_row (db w) id = Some src ->
  encrypt env (ext w) msg recipients output = Some e' ->
  commit_ok env d' = false ->
  let w' := snd (reply env w) in
  fst (reply env w) = Return (Redirect (url_for_col sid)) /\
  committed w' = committed w /\
  ext w' = e' /\
  events_of (reply env) w = [EvEncrypt msg recipients output true; EvCommit false] /\
  flashed_by (reply env) w =
    [("An unexpected error occurred! Please check the application " ++
      "logs or inform your adminstrator.", "error")].
Proof.
  intros count fname recipients output d' Hmsg Hne Hg Hrow Henc Hc.
  pose proof (reply_run env w msg sid id user src e' Hmsg Hne Hg Hrow Henc) as E.
  cbv zeta in E. fold count fname recipients output d' in E. rewrite Hc in E.
  unfold events_of, flashed_by. rewrite E. cbn.
  rewrite <- !app_assoc, !skipn_length_app. now repeat split.
Qed.

Lemma reply_accepted_witness :
  let w := Ref.world_in_c1 (Ref.post [("sid", "c1"); ("msg", "hello")]) in
  let w' := snd (reply Ref.env w) in
  form_get (form (request w)) "msg" = Some "hello" /\
  "hello" <> "" /\
  fst (reply Ref.env w) = Return (Redirect "/col/c1") /\
  source_row (db w') 1 = Some (mkSource 1 "c1" "oldname" 3 false false) /\
  replies (committed w') = [mkReply 1 1 "3-oldname-reply.gpg"] /\
  events_of (reply Ref.env) w =
    [EvEncrypt "hello" [Some "C1-KEY"; Some "JOURNALIST-KEY"]
               "/store/c1/3-oldname-reply.gpg" true; EvCommit true].
Proof.
  intros w w'.
  assert (Hne : "hello" <> "") by discriminate.
  split; [reflexivity|]. split; [exact Hne|].
  destruct (reply_accepted Ref.env w "hello" "c1" 1 Ref.alice Ref.c1
              (mkExt (("/store/c1/3-oldname-reply.gpg", "gpg:hello") :: files (ext w))
                     (keyring (ext w)))
              eq_refl Hne eq_refl eq_refl eq_refl eq_refl)
    as (Hr & Hrow & _ & _ & Hcm & _ & Hev & _).
  split; [exact Hr|]. split; [exact Hrow|].
  split; [unfold w'; rewrite Hcm; reflexivity | exact Hev].
Defined.

(** ** Renaming a source *)

Lemma rename_item_run (env : Env) (item : Submission) (w : World)
      (sid : string) (id : Z) (src : Source) :
  g_sid (g w) = Some sid ->
  g_source (g w) = Some id ->
  source_row (db w) id = Some src ->
  rename_item env item w =
    match rename_submission env (ext w) sid (filename item) (journalist_filename env src) with
    | Some (new, e') =>
        (Return tt,
         mkWorld (with_submissions
                    (update_where (fun x => submission_id x =? submission_id item)
                                  (set_filename new)) (db w))
                 (committed w) (session_uid w) (request w) (g w) (flashes w) (logged w)
                 e' (queue w) (utcnow w)
                 (trace w ++ [EvRenameSubmission sid (filename item)
                                (journalist_filename env src) (Some new)]))
    | None =>
        (Raise (CollaboratorError "store.rename_submission"),
         set_trace (trace w ++ [EvRenameSubmission sid (filename item)
                                  (journalist_filename env src) None]) w)
    end.
Proof.
  intros Hs Hsrc Hrow.
  unfold rename_item, g_sid_get, g_source_get, store_rename_submission, modify_db, emit.
  run_monad. rewrite Hs. cbn. rewrite Hsrc. cbn. rewrite Hrow. cbn.
  destruct (rename_submission env (ext w) sid (filename item) _) as [[new e']|];
    reflexivity.
Qed.







(** ** Whole requests *)

(** What [setup_g] leaves in [g] for a logged-in journalist who posts to a
    collection that exists: the worlds the lemmas above start from. *)
Lemma setup_g_resolves (w : World) (u : Z) (j : Journalist) (sid : string) (s : Source) :
  session_uid w = Some u ->
  u <> 0 ->
  Journalist_get (db w) u = Some j ->
  method (request w) = "POST" ->
  form_get (form (request w)) "sid" = Some sid ->
  sid <> "" ->
  sources_by_filesystem_id (db w) sid = [s] ->
  setup_g (set_g empty_g w) =
    (Return tt, set_g (mkG (Some j) (Some sid) (Some (source_id s))) w).
Proof.
  intros Hu Hnz Hj Hm Hf Hne Hs.
  unfold setup_g, get_source, get_one_or_else. run_monad.
  rewrite Hu. apply Z.eqb_neq in Hnz. rewrite Hnz. cbn. rewrite Hj, Hm. cbn.
  rewrite Hf. destruct sid as [|c sid]; [congruence|]. cbn. rewrite Hs. reflexivity.
Qed.

Example setup_g_enters_c1 :
  let r := Ref.post [("sid", "c1"); ("msg", "hello")] in
  setup_g (set_g empty_g (Ref.world (Some 1) r)) = (Return tt, Ref.world_in_c1 r).
Proof. reflexivity. Qed.

(** Collection [c1] holds two submissions; exporting all of it sends an
    archive with both files and leaves both marked as downloaded. *)
Example export_all_of_c1 :
  let w := Ref.world (Some 1)
             (Ref.post [("cols_selected", "c1"); ("action", "download-all")]) in
  let (r, w') := serve (login_required (col_process Ref.env)) w in
  r = Return (SendFile "/tmp/all.zip" "application/zip" (Some "all--1000.zip")) /\
  map downloaded (submissions (committed w')) = [true; true] /\
  events_of (serve (login_required (col_process Ref.env))) w =
    [EvGetBulkArchive [Ref.sub1; Ref.sub2] "all"
       (Some (mkZipFile "/tmp/all.zip" ["1-oldname-msg.gpg"; "2-oldname-doc.gpg"]));
     EvCommit true; EvSendFile "/tmp/all.zip"].
Proof. vm_compute. repeat split. Qed.

(** Exporting the unread submissions of [c2], which has none, is reported
    and builds nothing; exporting all of it sends an empty archive. *)
Example export_of_empty_c2 :
  let unread := Ref.world (Some 1)
                  (Ref.post [("cols_selected", "c2"); ("action", "download-unread")]) in
  let all := Ref.world (Some 1)
               (Ref.post [("cols_selected", "c2"); ("action", "download-all")]) in
  (fst (serve (login_required (col_process Ref.env)) unread) = Return (Redirect "/") /\
   flashed_by (serve (login_required (col_process Ref.env))) unread =
     [("No unread submissions in collections selected!", "error")] /\
   events_of (serve (login_required (col_process Ref.env))) unread = []) /\
  (fst (serve (login_required (col_process Ref.env)) all) =
     Return (SendFile "/tmp/all.zip" "application/zip" (Some "all--1000.zip")) /\
   flashed_by (serve (login_required (col_process Ref.env))) all = [] /\
   events_of (serve (login_required (col_process Ref.env))) all =
     [EvGetBulkArchive [] "all" (Some (mkZipFile "/tmp/all.zip" []));
      EvCommit true; EvSendFile "/tmp/all.zip"]).
Proof. vm_compute. repeat split. Qed.

(** Renaming [c1] when the backing file of its second submission is gone:
    the request fails, and the session that the next request sees still has
    the old designation and the old filenames, although the first file was
    renamed on disk. *)
Example rename_fails_on_missing_file :
  let w := set_ext Ref.store_without_doc
             (Ref.world (Some 1) (Ref.post [("sid", "c1")])) in
  let (r, w') := serve (login_required (generate_code Ref.env)) w in
  r = Raise (CollaboratorError "store.rename_submission") /\
  db w' = Ref.database /\
  committed w' = Ref.database /\
  files (ext w') = [("/store/c1/1-newname-msg.gpg", "gpg:one")].
Proof. vm_compute. repeat split. Qed.

(** The same request with a store that answers with the old name instead
    of raising: the request goes through, and the database now holds the
    new designation, one new filename and one old one. *)
Example rename_keeps_name_of_missing_file :
  let w := set_ext Ref.store_without_doc
             (Ref.world (Some 1) (Ref.post [("sid", "c1")])) in
  let (r, w') := serve (login_required (generate_code Desk.env_keeps_name)) w in
  r = Return (Redirect "/col/c1") /\
  map journalist_designation (sources (committed w')) = ["newname"; "quiet"] /\
  map filename (submissions (committed w')) = ["1-newname-msg.gpg"; "2-oldname-doc.gpg"] /\
  files (ext w') = [("/store/c1/1-newname-msg.gpg", "gpg:one")].
Proof. vm_compute. repeat split. Qed.

(** Starring with [c1] selected twice: the database ends up with two star
    rows for it. *)
Example star_selected_twice :
  let w := Ref.world (Some 1) (Ref.post [("cols_selected", "c1"); ("cols_selected", "c1");
                                         ("action", "star")]) in
  let (r, w') := serve (login_required (col_process Ref.env)) w in
  r = Return (Redirect "/") /\
  source_stars (committed w') = [mkSourceStar 1 true; mkSourceStar 1 true].
Proof. vm_compute. repeat split. Qed.

(** A reply while the database refuses to commit: the journalist sees the
    generic error, no reply is stored, the encrypted file is left behind. *)
Example reply_while_storage_is_down :
  let w := Ref.world (Some 1) (Ref.post [("sid", "c1"); ("msg", "hello")]) in
  let (r, w') := serve (login_required (reply Ref.env_storage_down)) w in
  r = Return (Redirect "/col/c1") /\
  db w' = Ref.database /\
  map fst (flashes w') =
    ["An unexpected error occurred! Please check the application logs or inform your adminstrator."] /\
  Ref.lookup "/store/c1/3-oldname-reply.gpg" (files (ext w')) = Some "gpg:hello".
Proof. vm_compute. repeat split. Qed.

(** * Further properties *)

(** ** Guards and sessions *)

(** What the [before_request] hook leaves: [g.user] is the journalist of the
    session, nothing else of the world moves but [g] and, on an abort, the
    log. *)
Lemma setup_g_run (w : World) :
  let r := fst (setup_g (set_g empty_g w)) in
  let w' := snd (setup_g (set_g empty_g w)) in
  g_user (g w') = session_user w /\
  db w' = db w /\ committed w' = committed w /\ session_uid w' = session_uid w /\
  request w' = request w /\ flashes w' = flashes w /\ ext w' = ext w /\
  queue w' = queue w /\ trace w' = trace w /\
  r = match setup_g_abort w with
      | Some c => Raise (HTTPException c)
      | None => Return tt
      end.
Proof.
  unfold setup_g, setup_g_abort, session_user, get_source, get_one_or_else, logger_error.
  run_monad.
  destruct (session_uid w) as [u|] eqn:Eu; cbn; [destruct (u =? 0); cbn|];
    (destruct (String.eqb (method (request w)) "POST"); cbn;
     [|repeat split; assumption]);
    (destruct (form_get (form (request w)) "sid") as [sid|]; cbn;
     [|repeat split; assumption]);
    (destruct (Py.truthy sid); cbn; [|repeat split; assumption]);
    (destruct (sources_by_filesystem_id (db w) sid) as [|s [|s' l]]; cbn;
     repeat split; assumption).
Qed.

(** Two views that agree once [g.user] is the journalist of the session are
    served alike. *)
Lemma serve_after_setup (view1 view2 : M Response) (w : World) :
  (forall w', g_user (g w') = session_user w -> view1 w' = view2 w') ->
  serve view1 w = serve view2 w.
Proof.
  intros H. pose proof (setup_g_run w) as S. cbv zeta in S.
  unfold serve, bind. destruct (setup_g (set_g empty_g w)) as [[[]|e] w'];
    cbn in S; [|reflexivity].
  destruct S as (Hg & _). now rewrite (H w' Hg).
Qed.

(** A request is served by running the view in the world [setup_g] leaves,
    unless [setup_g] aborts it. *)
Lemma serve_cases (view : M Response) (w : World) :
  exists w1,
    enters w w1 /\
    serve view w =
      match setup_g_abort w with
      | Some c => (Raise (HTTPException c), shutdown_session w1)
      | None => (fst (view w1), shutdown_session (snd (view w1)))
      end.
Proof.
  pose proof (setup_g_run w) as S. cbv zeta in S.
  unfold serve, bind. destruct (setup_g (set_g empty_g w)) as [r w1].
  cbn [fst snd] in S.
  destruct S as (Hg & Hd & Hc & Hu & Hr & Hf & He & Hq & Ht & Hres).
  exists w1. split; [now repeat split|].
  subst r. destruct (setup_g_abort w); [reflexivity|]. now destruct (view w1).
Qed.

Lemma enters_turned_away (w w1 : World) :
  enters w w1 -> turned_away w (shutdown_session w1) [].
Proof.
  intros (Hg & Hd & Hc & Hu & Hr & Hf & He & Hq & Ht).
  unfold turned_away, shutdown_session. cbn. rewrite app_nil_r. now repeat split.
Qed.

(** A request of a session that resolves to no journalist, to a view behind
    [login_required]. *)
Lemma serve_not_logged_in (view : M Response) (w : World) :
  session_user w = None ->
  fst (serve (login_required view) w) = refusal w (Redirect "/login") /\
  turned_away w (snd (serve (login_required view) w)) [].
Proof.
  intros Hnone. destruct (serve_cases (login_required view) w) as (w1 & Hin & E).
  rewrite E. unfold refusal. destruct (setup_g_abort w).
  - split; [reflexivity | now apply enters_turned_away].
  - pose proof Hin as (Hg & _). rewrite Hnone in Hg.
    unfold login_required, logged_in. run_monad. rewrite Hg. cbn.
    split; [reflexivity | now apply enters_turned_away].
Qed.

(** A request of a session that resolves to no administrator, to a view
    behind [admin_required]. *)
Lemma serve_not_admin (view : M Response) (w : World) :
  admin_session w = false ->
  fst (serve (admin_required view) w) = refusal w (Redirect "/") /\
  turned_away w (snd (serve (admin_required view) w))
    match setup_g_abort w with
    | Some _ => []
    | None => [("You must be an administrator to access that page", "notification")]
    end.
Proof.
  intros Hno. destruct (serve_cases (admin_required view) w) as (w1 & Hin & E).
  rewrite E. unfold refusal. destruct (setup_g_abort w).
  - split; [reflexivity | now apply enters_turned_away].
  - pose proof Hin as (Hg & Hd & Hc & Hu & Hr & Hf & He & Hq & Ht).
    unfold admin_session in Hno.
    unfold admin_required, logged_in, flash. run_monad. rewrite Hg.
    destruct (session_user w) as [j|]; cbn; [rewrite Hno; cbn|];
      (split; [reflexivity|]); unfold turned_away; cbn; rewrite Hf; now repeat split.
Qed.

(** X1: what [login_required] answers.  A request that [setup_g] aborts is
    answered with that abort, whoever asks.  Of the others, a request whose
    session resolves to a journalist is answered by the view, run with that
    journalist as [g.user]; any other is answered with the redirect to the
    login page.  A request that does not reach the view changes nothing:
    nothing is flashed, committed or called. *)
Theorem login_required_gate (view : M Response) (w : World) :
  let r := fst (serve (login_required view) w) in
  let w' := snd (serve (login_required view) w) in
  match setup_g_abort w with
  | Some c => r = Raise (HTTPException c) /\ turned_away w w' []
  | None =>
      match session_user w with
      | Some j =>
          exists w1, enters w w1 /\ g_user (g w1) = Some j /\
                     r = fst (view w1) /\ w' = shutdown_session (snd (view w1))
      | None => r = Return (Redirect "/login") /\ turned_away w w' []
      end
  end.
Proof.
  cbv zeta. destruct (session_user w) as [j|] eqn:Ej.
  - destruct (serve_cases (login_required view) w) as (w1 & Hin & E). rewrite E.
    destruct (setup_g_abort w).
    + split; [reflexivity | now apply enters_turned_away].
    + pose proof Hin as (Hg & _). rewrite Ej in Hg.
      exists w1. split; [exact Hin|]. split; [exact Hg|].
      unfold login_required, logged_in. run_monad. rewrite Hg. cbn. now split.
  - destruct (serve_not_logged_in view w Ej) as [Hr Hw]. unfold refusal in Hr.
    destruct (setup_g_abort w); now split.
Qed.

(** X2: what [admin_required] answers.  A request that [setup_g] aborts is
    answered with that abort.  Of the others, a request whose session
    resolves to an administrator is answered by the view; anybody else,
    logged in or not, is sent to the index with one notification, and
    nothing else changes. *)
Theorem admin_required_gate (view : M Response) (w : World) :
  let r := fst (serve (admin_required view) w) in
  let w' := snd (serve (admin_required view) w) in
  match setup_g_abort w with
  | Some c => r = Raise (HTTPException c) /\ turned_away w w' []
  | None =>
      if admin_session w
      then exists w1 j, enters w w1 /\ g_user (g w1) = Some j /\ is_admin j = true /\
                        r = fst (view w1) /\ w' = shutdown_session (snd (view w1))
      else r = Return (Redirect "/") /\
           turned_away w w'
             [("You must be an administrator to access that page", "notification")]
  end.
Proof.
  cbv zeta. destruct (admin_session w) eqn:Ea.
  - destruct (serve_cases (admin_required view) w) as (w1 & Hin & E). rewrite E.
    destruct (setup_g_abort w).
    + split; [reflexivity | now apply enters_turned_away].
    + pose proof Hin as (Hg & _). unfold admin_session in Ea.
      destruct (session_user w) as [j|]; [|discriminate Ea].
      exists w1, j. split; [exact Hin|]. split; [exact Hg|]. split; [exact Ea|].
      unfold admin_required, logged_in. run_monad. rewrite Hg. cbn. rewrite Ea. cbn.
      now split.
  - destruct (serve_not_admin view w Ea) as [Hr Hw]. unfold refusal in Hr.
    destruct (setup_g_abort w); now split.
Qed.

(** X3: [logout] forgets the user id and nothing else.  Whatever is asked
    next in that session, the view is not reached: a request to a view
    behind [login_required] is answered with the redirect to the login
    page, one to a view behind [admin_required] with the administrator
    notice and the redirect to the index, and either with the abort of
    [setup_g] when that comes first. *)
Theorem logout_ends_session (view : M Response) (w : World) (r : Request) :
  logout w = (Return (Redirect "/"), set_session_uid None w) /\
  let next := set_request r (snd (logout w)) in
  (fst (serve (login_required view) next) = refusal next (Redirect "/login") /\
   turned_away next (snd (serve (login_required view) next)) []) /\
  (fst (serve (admin_required view) next) = refusal next (Redirect "/") /\
   turned_away next (snd (serve (admin_required view) next))
     match setup_g_abort next with
     | Some _ => []
     | None => [("You must be an administrator to access that page", "notification")]
     end).
Proof.
  split; [reflexivity|]. cbv zeta. split.
  - now apply serve_not_logged_in.
  - now apply serve_not_admin.
Qed.

Lemma logout_ends_session_witness :
  let w := Ref.world (Some 1) Ref.get in
  let next := set_request (Ref.post [("sid", "c1"); ("msg", "hello")]) (snd (logout w)) in
  let ghost := set_request (Ref.post [("sid", "ghost")]) (snd (logout w)) in
  session_uid (snd (logout w)) = None /\
  fst (serve (login_required (reply Ref.env)) next) = Return (Redirect "/login") /\
  fst (serve (login_required (reply Ref.env)) ghost) = Raise (HTTPException 404).
Proof.
  intros w next ghost. split; [reflexivity|]. split.
  - destruct (logout_ends_session (reply Ref.env) w
                (Ref.post [("sid", "c1"); ("msg", "hello")])) as (_ & (H & _) & _).
    exact H.
  - destruct (logout_ends_session (reply Ref.env) w
                (Ref.post [("sid", "ghost")])) as (_ & (H & _) & _).
    exact H.
Defined.

(** ** Login, once more *)

Lemma find_of_member {A} (p : A -> bool) (l : list A) (x : A) :
  In x l -> p x = true -> exists y, find p l = Some y /\ p y = true.
Proof.
  intros Hin Hp. destruct (find p l) as [y|] eqn:E.
  - exists y. split; [reflexivity|]. now apply find_some in E.
  - rewrite (find_none _ _ E x Hin) in Hp. discriminate.
Qed.

(** A login that [Journalist.login] accepts, up to the commit. *)
Lemma login_accepted_run (env : Env) (w : World) (u p t : string) (user : Journalist) :
  let d' := with_journalists
              (update_where (fun j => journalist_id j =? journalist_id user)
                            (set_last_access (utcnow w))) (db w) in
  method (request w) = "POST" ->
  form_get (form (request w)) "username" = Some u ->
  form_get (form (request w)) "password" = Some p ->
  form_get (form (request w)) "token" = Some t ->
  Journalist_login env (db w) u p t = Return user ->
  login env w =
    if commit_ok env d' then
      (Return (Redirect "/"),
       mkWorld d' d' (Some (journalist_id user)) (request w) (g w) (flashes w)
               (logged w ++ ["INFO " ++ "Successful login for '" ++ u ++
                             "' with token " ++ t])
               (ext w) (queue w) (utcnow w) (trace w ++ [EvCommit true]))
    else
      (Raise StorageError,
       mkWorld d' (committed w) (session_uid w) (request w) (g w) (flashes w)
               (logged w ++ ["INFO " ++ "Successful login for '" ++ u ++
                             "' with token " ++ t])
               (ext w) (queue w) (utcnow w) (trace w ++ [EvCommit false])).
Proof.
  intros d' Hm Hu Hp Ht Hl. subst d'.
  unfold login, login_attempt, try_except_else, form_getitem, logger_info, modify_db,
    db_commit, emit. run_monad.
  rewrite Hm. cbn. rewrite Hu. cbn. rewrite Hp. cbn. rewrite Ht. cbn. rewrite Hl. cbn.
  rewrite Hu. cbn. rewrite Ht. cbn.
  destruct (commit_ok env _); reflexivity.
Qed.

(** X4: a login that [Journalist.login] accepts.  When the commit of the
    access time goes through, the user id is put into the session, nothing
    is flashed, and the next request of that session passes
    [login_required].  When the commit fails the login raises and the
    session keeps the user id it had: nobody is logged in by a login whose
    bookkeeping was not stored. *)
Theorem login_accepted (env : Env) (w : World) (u p t : string) (user : Journalist) :
  let d' := with_journalists
              (update_where (fun j => journalist_id j =? journalist_id user)
                            (set_last_access (utcnow w))) (db w) in
  method (request w) = "POST" ->
  form_get (form (request w)) "username" = Some u ->
  form_get (form (request w)) "password" = Some p ->
  form_get (form (request w)) "token" = Some t ->
  Journalist_login env (db w) u p t = Return user ->
  In user (journalists (db w)) ->
  journalist_id user <> 0 ->
  let w' := snd (login env w) in
  flashed_by (login env) w = [] /\
  if commit_ok env d' then
    fst (login env w) = Return (Redirect "/") /\
    session_uid w' = Some (journalist_id user) /\
    committed w' = d' /\
    (exists j, session_user w' = Some j /\
               journalist_id j = journalist_id user /\
               last_access j = Some (utcnow w)) /\
    (forall view r,
        serve (login_required view) (set_request r w') = serve view (set_request r w'))
  else
    fst (login env w) = Raise StorageError /\
    session_uid w' = session_uid w /\
    committed w' = committed w.
Proof.
  intros d' Hm Hu Hp Ht Hl Hin Hnz w'. subst w'. unfold flashed_by.
  rewrite (login_accepted_run env w u p t user Hm Hu Hp Ht Hl). fold d'.
  destruct (commit_ok env d'); cbn [fst snd flashes];
    (split; [apply skipn_all|]); [|now repeat split].
  set (W := mkWorld d' d' _ _ _ _ _ _ _ _ _).
  assert (Hj : exists j, session_user W = Some j /\
                         journalist_id j = journalist_id user /\
                         last_access j = Some (utcnow w)).
  { destruct (find_of_member (fun j => journalist_id j =? journalist_id user)
                (journalists (db w)) user Hin (Z.eqb_refl _)) as (y & Hy & Hpy).
    exists (set_last_access (utcnow w) y). split; [|split; [|reflexivity]].
    - unfold session_user, W. cbn [session_uid db].
      apply Z.eqb_neq in Hnz. rewrite Hnz.
      unfold Journalist_get, d', with_journalists; cbn [journalists].
      now apply find_update_where_same.
    - cbn. now apply Z.eqb_eq. }
  split; [reflexivity|]. split; [reflexivity|]. split; [reflexivity|].
  split; [exact Hj|].
  intros view r. apply serve_after_setup. intros w1 Hg.
  change (session_user (set_request r W)) with (session_user W) in Hg.
  destruct Hj as (j & Hs & _). rewrite Hs in Hg.
  unfold login_required, logged_in. run_monad. rewrite Hg. reflexivity.
Qed.

Lemma login_accepted_witness :
  let w := Ref.world None (Ref.post [("username", "alice"); ("password", "correct horse");
                                     ("token", "123456")]) in
  let w' := snd (login Ref.env w) in
  Journalist_login Ref.env (db w) "alice" "correct horse" "123456" = Return Ref.alice /\
  fst (login Ref.env w) = Return (Redirect "/") /\
  session_uid w' = Some 1 /\
  flashed_by (login Ref.env) w = [] /\
  serve (login_required (reply Ref.env))
        (set_request (Ref.post [("sid", "c1"); ("msg", "")]) w')
  = serve (reply Ref.env) (set_request (Ref.post [("sid", "c1"); ("msg", "")]) w').
Proof.
  intros w w'. split; [reflexivity|].
  assert (Hin : In Ref.alice (journalists (db w))) by (left; reflexivity).
  assert (Hnz : journalist_id Ref.alice <> 0) by discriminate.
  pose proof (login_accepted Ref.env w "alice" "correct horse" "123456" Ref.alice
                eq_refl eq_refl eq_refl eq_refl eq_refl Hin Hnz) as H.
  cbv zeta in H. fold w' in H. destruct H as (Hfl & H).
  change (commit_ok Ref.env _) with true in H. cbv iota in H.
  destruct H as (Hr & Hs & _ & _ & Hnext).
  split; [exact Hr|]. split; [exact Hs|]. split; [exact Hfl|]. apply Hnext.
Defined.

(** X5: a login that the throttle rejects.  The message flashed is the
    fixed sentence with the waiting time, whatever the username; the
    journalists are not looked up and nothing is changed but the log and
    the flashed message. *)
Theorem login_throttled_message (env : Env) (w : World) (u : string) :
  method (request w) = "POST" ->
  form_get (form (request w)) "username" = Some u ->
  fst (login_attempt env w) = Raise LoginThrottledException ->
  let w' := snd (login env w) in
  fst (login env w) = Return (RenderTemplate "login.html") /\
  flashed_by (login env) w =
    [("Login failed." ++ " Please wait at least " ++ Py.str (LOGIN_ATTEMPT_PERIOD env)
        ++ " seconds before logging in again.", "error")] /\
  db w' = db w /\ committed w' = committed w /\ session_uid w' = session_uid w /\
  events_of (login env) w = [].
Proof.
  intros Hm Hu He w'. subst w'.
  pose proof (login_attempt_reads_only env w) as Hw.
  assert (E : login env w =
    (Return (RenderTemplate "login.html"),
     set_flashes (flashes w ++ [("Login failed." ++ throttle_hint env, "error")])
       (set_logged (logged w ++ ["ERROR " ++ "Login for '" ++ u ++ "' failed: " ++
                                 str_exn LoginThrottledException]) w))).
  { unfold login, try_except_else, bind at 1, gets.
    rewrite Hm. cbn [String.eqb Ascii.eqb Bool.eqb]. cbv iota.
    destruct (login_attempt env w) as [r w1]. cbn in He, Hw. subst r w1.
    unfold form_getitem, logger_error, flash. run_monad. rewrite Hu. reflexivity. }
  unfold flashed_by, events_of. rewrite E. cbn.
  rewrite skipn_length_app, skipn_all. now repeat split.
Qed.

Lemma login_throttled_message_witness :
  let known := Ref.world None (Ref.post [("username", "alice"); ("password", "x");
                                         ("token", "000000")]) in
  let unknown := Ref.world None (Ref.post [("username", "bob"); ("password", "x");
                                           ("token", "000000")]) in
  fst (login_attempt Desk.env_throttled known) = Raise LoginThrottledException /\
  flashed_by (login Desk.env_throttled) known =
    [("Login failed. Please wait at least 60 seconds before logging in again.", "error")] /\
  flashed_by (login Desk.env_throttled) unknown =
    flashed_by (login Desk.env_throttled) known.
Proof.
  intros known unknown. split; [reflexivity|].
  destruct (login_throttled_message Desk.env_throttled known "alice"
              eq_refl eq_refl eq_refl) as (_ & Hk & _).
  destruct (login_throttled_message Desk.env_throttled unknown "bob"
              eq_refl eq_refl eq_refl) as (_ & Hu & _).
  split; [exact Hk|]. rewrite Hk, Hu. reflexivity.
Defined.

(** X6: a login form with a field missing.  Without [username] the request
    is a bad request and nothing is flashed or logged.  With [username] but
    without [password] or [token], [Journalist.login] is never asked; the
    attempt is answered like any failed login, with the fixed sentence and,
    for a journalist with a time-based second factor, the token hint. *)
Theorem login_missing_field (env : Env) (w : World) :
  method (request w) = "POST" ->
  (form_get (form (request w)) "username" = None ->
   login env w = (Raise (BadRequestKeyError "username"), w)) /\
  (forall u,
      form_get (form (request w)) "username" = Some u ->
      form_get (form (request w)) "password" = None \/
      form_get (form (request w)) "token" = None ->
      fst (login env w) = Return (RenderTemplate "login.html") /\
      flashed_by (login env) w =
        [("Login failed." ++
          match journalists_by_username (db w) u with
          | [j] => if is_totp j then totp_hint else ""
          | _ => ""
          end, "error")]).
Proof.
  intros Hm. split.
  - intros Hu. unfold login, login_attempt, try_except_else, form_getitem.
    run_monad. rewrite Hm. cbn. rewrite Hu. cbn. rewrite Hu. reflexivity.
  - intros u Hu Hmiss.
    assert (Hf : failed_login_attempt env w u).
    { split; [exact Hm|]. split; [exact Hu|].
      unfold login_attempt, form_getitem. run_monad. rewrite Hu. cbn.
      destruct (form_get (form (request w)) "password") as [p|] eqn:Ep; cbn.
      - destruct Hmiss as [Hp|Ht]; [discriminate|]. rewrite Ht. cbn.
        exists (BadRequestKeyError "token"). now split.
      - exists (BadRequestKeyError "password"). now split. }
    split; [|exact (login_failed_flash env w u Hf)].
    destruct (login_failed_run env w u Hf) as [line E]. now rewrite E.
Qed.

Lemma login_missing_field_witness :
  let no_name := Ref.world None (Ref.post [("password", "x"); ("token", "000000")]) in
  let no_password := Ref.world None (Ref.post [("username", "alice")]) in
  login Ref.env no_name = (Raise (BadRequestKeyError "username"), no_name) /\
  flashed_by (login Ref.env) no_password =
    [("Login failed. Please wait for a new two-factor token before logging in again.",
      "error")].
Proof.
  intros no_name no_password. split.
  - exact (proj1 (login_missing_field Ref.env no_name eq_refl) eq_refl).
  - exact (proj2 (proj2 (login_missing_field Ref.env no_password eq_refl)
                    "alice" eq_refl (or_introl eq_refl))).
Defined.

(** ** Deleting users and collections *)

Lemma find_filter_negb {A} (p : A -> bool) (l : list A) :
  find p (filter (fun x => negb (p x)) l) = None.
Proof.
  induction l as [|x l IH]; cbn; [reflexivity|].
  destruct (p x) eqn:E; cbn; [exact IH | now rewrite E].
Qed.

(** X7: deleting a journalist who exists.  The row is removed and the
    removal committed, the administrator is told whom they deleted, and
    from then on a session that still carries the deleted user id is not
    logged in: its requests to views behind [login_required] do not reach
    the view and are answered with the redirect to the login page, or with
    the abort of [setup_g] when that comes first. *)
Theorem admin_delete_user_ends_their_session
        (env : Env) (user_id : Z) (w : World) (user : Journalist) :
  let d' := with_journalists
              (filter (fun x => negb (journalist_id x =? user_id))) (db w) in
  Journalist_get (db w) user_id = Some user ->
  commit_ok env d' = true ->
  let w' := snd (admin_delete_user env user_id w) in
  fst (admin_delete_user env user_id w) = Return (Redirect "/admin") /\
  db w' = d' /\
  committed w' = d' /\
  Journalist_get (committed w') user_id = None /\
  flashed_by (admin_delete_user env user_id) w =
    [("Deleted user '" ++ username user ++ "'", "notification")] /\
  (forall view r,
      let next := set_request r (set_session_uid (Some user_id) w') in
      fst (serve (login_required view) next) = refusal next (Redirect "/login") /\
      turned_away next (snd (serve (login_required view) next)) []).
Proof.
  intros d' Hget Hc w'. subst w'.
  assert (Hid : journalist_id user = user_id).
  { apply find_some in Hget as [_ H]. now apply Z.eqb_eq in H. }
  assert (E : admin_delete_user env user_id w =
    (Return (Redirect "/admin"),
     mkWorld d' d' (session_uid w) (request w) (g w)
             (flashes w ++ [("Deleted user '" ++ username user ++ "'", "notification")])
             (logged w) (ext w) (queue w) (utcnow w) (trace w ++ [EvCommit true]))).
  { unfold admin_delete_user, db_delete_journalist, modify_db, db_commit, emit, flash.
    run_monad. rewrite Hget. cbn. rewrite Hid. fold d'. rewrite Hc. reflexivity. }
  unfold flashed_by. rewrite E. cbn [fst snd flashes db committed].
  assert (Hgone : Journalist_get d' user_id = None).
  { unfold Journalist_get, d', with_journalists; cbn [journalists].
    apply (find_filter_negb (fun j => journalist_id j =? user_id)). }
  rewrite skipn_length_app.
  split; [reflexivity|]. split; [reflexivity|]. split; [reflexivity|].
  split; [exact Hgone|]. split; [reflexivity|].
  intros view r. cbv zeta. apply serve_not_logged_in.
  unfold session_user; cbn [session_uid db set_request set_session_uid].
  destruct (user_id =? 0); [reflexivity | exact Hgone].
Qed.

Lemma admin_delete_user_ends_their_session_witness :
  let w := Desk.world_of_erin (Ref.post []) in
  let w' := snd (admin_delete_user Ref.env 1 w) in
  let next := set_request (Ref.post [("sid", "c1"); ("msg", "hello")])
                          (set_session_uid (Some 1) w') in
  Journalist_get (db w) 1 = Some Ref.alice /\
  commit_ok Ref.env (with_journalists
                       (filter (fun x => negb (journalist_id x =? 1))) (db w)) = true /\
  journalists (committed w') = [Ref.dave; Desk.erin] /\
  flashed_by (admin_delete_user Ref.env 1) w = [("Deleted user 'alice'", "notification")] /\
  fst (serve (login_required (reply Ref.env)) next) = Return (Redirect "/login").
Proof.
  intros w w' next. split; [reflexivity|]. split; [reflexivity|].
  destruct (admin_delete_user_ends_their_session Ref.env 1 w Ref.alice eq_refl eq_refl)
    as (_ & _ & Hcm & _ & Hfl & Hnext).
  fold w' in Hcm, Hnext.
  split; [rewrite Hcm; reflexivity|]. split; [exact Hfl|].
  destruct (Hnext (reply Ref.env) (Ref.post [("sid", "c1"); ("msg", "hello")]))
    as [Hr _].
  exact Hr.
Defined.

(** X8: deleting a journalist who does not exist is answered with 404; the
    attempt is logged under the administrator's name, and neither the
    session nor the committed state changes. *)
Theorem admin_delete_user_unknown (env : Env) (user_id : Z) (w : World)
        (admin : Journalist) :
  Journalist_get (db w) user_id = None ->
  g_user (g w) = Some admin ->
  admin_delete_user env user_id w =
    (Raise (HTTPException 404),
     set_logged (logged w ++
                 ["ERROR " ++ "Admin " ++ username admin ++
                  " tried to delete nonexistent user with pk=" ++ Py.str user_id]) w).
Proof.
  intros Hget Hg. unfold admin_delete_user, g_user_get, logger_error.
  run_monad. rewrite Hget. cbn. rewrite Hg. reflexivity.
Qed.

Lemma admin_delete_user_unknown_witness :
  let w := Desk.world_of_erin (Ref.post []) in
  Journalist_get (db w) 9 = None /\
  fst (admin_delete_user Ref.env 9 w) = Raise (HTTPException 404) /\
  db (snd (admin_delete_user Ref.env 9 w)) = db w /\
  logged (snd (admin_delete_user Ref.env 9 w)) =
    ["ERROR Admin erin tried to delete nonexistent user with pk=9"].
Proof.
  intros w. split; [reflexivity|].
  rewrite (admin_delete_user_unknown Ref.env 9 w Desk.erin eq_refl eq_refl).
  repeat split.
Defined.

(** X9: [delete_collection] for an identifier that names no collection.
    The lookup comes last, so by the time the handler aborts with 404 the
    erase task for that identifier is queued and the keypair destroyed; the
    database is untouched. *)
Theorem delete_collection_unknown (env : Env) (sid : string) (w : World) (e' : Ext) :
  sources_by_filesystem_id (db w) sid = [] ->
  delete_reply_keypair env (ext w) sid = Some e' ->
  let w' := snd (delete_collection env sid w) in
  fst (delete_collection env sid w) = Raise (HTTPException 404) /\
  events_of (delete_collection env sid) w =
    [EvEnqueue (DeleteSourceDirectory sid); EvDeleteReplyKeypair sid true] /\
  queue w' = (queue w ++ [DeleteSourceDirectory sid])%list /\
  ext w' = e' /\
  db w' = db w /\
  committed w' = committed w.
Proof.
  intros Hs Hk w'. subst w'.
  assert (E : delete_collection env sid w =
    (Raise (HTTPException 404),
     mkWorld (db w) (committed w) (session_uid w) (request w) (g w) (flashes w)
             (logged w ++ ["ERROR Found none when one was expected"]) e'
             (queue w ++ [DeleteSourceDirectory sid]) (utcnow w)
             ((trace w ++ [EvEnqueue (DeleteSourceDirectory sid)])
                ++ [EvDeleteReplyKeypair sid true]))).
  { unfold delete_collection, worker_enqueue, crypto_delete_reply_keypair,
      get_source, get_one_or_else, logger_error, emit.
    run_monad. rewrite Hk. cbn. rewrite Hs. reflexivity. }
  unfold events_of. rewrite E. cbn.
  rewrite <- !app_assoc, skipn_length_app. now repeat split.
Qed.

Lemma delete_collection_unknown_witness :
  let w := Ref.world_in_c1 (Ref.post [("cols_selected", "ghost"); ("action", "delete")]) in
  let w' := snd (delete_collection Ref.env "ghost" w) in
  sources_by_filesystem_id (db w) "ghost" = [] /\
  fst (delete_collection Ref.env "ghost" w) = Raise (HTTPException 404) /\
  queue w' = [DeleteSourceDirectory "ghost"] /\
  db w' = db w.
Proof.
  intros w w'. split; [reflexivity|].
  destruct (delete_collection_unknown Ref.env "ghost" w (ext w) eq_refl eq_refl)
    as (Hr & _ & Hq & _ & Hdb & _).
  split; [exact Hr|]. split; [exact Hq | exact Hdb].
Defined.

(** X10: [col_delete_single] looks the collection up before it deletes.
    For an identifier that is not exactly one collection it aborts (404 for
    none, 500 for several) having done nothing but log: no task is queued
    and no key destroyed.  For a collection that exists, and a deletion that
    goes through, it makes the three calls of [delete_collection], names the
    designation the collection had in the notification, and leads back to
    the index. *)
Theorem col_delete_single_checks_first (env : Env) (sid : string) (w : World) :
  match sources_by_filesystem_id (db w) sid with
  | [] =>
      col_delete_single env sid w =
        (Raise (HTTPException 404),
         set_logged (logged w ++ ["ERROR Found none when one was expected"]) w)
  | [s] =>
      forall e',
        delete_reply_keypair env (ext w) sid = Some e' ->
        commit_ok env (with_sources
                         (filter (fun x => negb (source_id x =? source_id s))) (db w))
        = true ->
        fst (col_delete_single env sid w) = Return (Redirect "/") /\
        flashed_by (col_delete_single env sid) w =
          [(journalist_designation s ++ "'s collection deleted", "notification")] /\
        events_of (col_delete_single env sid) w =
          [EvEnqueue (DeleteSourceDirectory sid); EvDeleteReplyKeypair sid true;
           EvCommit true] /\
        committed (snd (col_delete_single env sid w)) =
          with_sources (filter (fun x => negb (source_id x =? source_id s))) (db w)
  | _ :: _ :: _ =>
      col_delete_single env sid w =
        (Raise (HTTPException 500),
         set_logged (logged w ++ ["ERROR Found multiple when one was expected"]) w)
  end.
Proof.
  destruct (sources_by_filesystem_id (db w) sid) as [|s [|s' l]] eqn:Hs.
  - unfold col_delete_single, get_source, get_one_or_else, logger_error.
    run_monad. now rewrite Hs.
  - intros e' Hk Hc.
    assert (E : col_delete_single env sid w =
      (Return (Redirect "/"),
       let d' := with_sources (filter (fun x => negb (source_id x =? source_id s))) (db w) in
       mkWorld d' d' (session_uid w) (request w) (g w)
               (flashes w ++ [(journalist_designation s ++ "'s collection deleted",
                               "notification")])
               (logged w) e' (queue w ++ [DeleteSourceDirectory sid]) (utcnow w)
               (((trace w ++ [EvEnqueue (DeleteSourceDirectory sid)])
                   ++ [EvDeleteReplyKeypair sid true]) ++ [EvCommit true]))).
    { unfold col_delete_single, delete_collection, worker_enqueue,
        crypto_delete_reply_keypair, get_source, get_one_or_else, db_delete_source,
        db_commit, modify_db, emit, flash.
      run_monad. rewrite Hs. cbn. rewrite Hk. cbn. rewrite Hs. cbn. rewrite Hc.
      reflexivity. }
    unfold flashed_by, events_of. rewrite E. cbn.
    rewrite <- !app_assoc, !skipn_length_app. now repeat split.
  - unfold col_delete_single, get_source, get_one_or_else, logger_error.
    run_monad. now rewrite Hs.
Qed.

Lemma col_delete_single_checks_first_witness :
  let w := Ref.world_in_c1 (Ref.post []) in
  (events_of (col_delete_single Ref.env "ghost") w = [] /\
   queue (snd (col_delete_single Ref.env "ghost" w)) = [] /\
   fst (col_delete_single Ref.env "ghost" w) = Raise (HTTPException 404)) /\
  (fst (col_delete_single Ref.env "c1" w) = Return (Redirect "/") /\
   flashed_by (col_delete_single Ref.env "c1") w =
     [("oldname's collection deleted", "notification")]).
Proof.
  intros w. split.
  - pose proof (col_delete_single_checks_first Ref.env "ghost" w) as H.
    change (sources_by_filesystem_id (db w) "ghost") with (@nil Source) in H.
    cbv iota in H. unfold events_of. rewrite H. repeat split.
  - pose proof (col_delete_single_checks_first Ref.env "c1" w) as H.
    change (sources_by_filesystem_id (db w) "c1") with [Ref.c1] in H.
    cbv iota in H.
    destruct (H (mkExt (files (ext w)) [("c2", "C2-KEY")]) eq_refl eq_refl)
      as (Hr & Hfl & _).
    split; [exact Hr | exact Hfl].
Defined.

(** ** The dispatcher of collection actions *)

(** X11: what [col_process] refuses.  Without [cols_selected] in the form
    it reports that nothing was selected and goes back to the index,
    whatever the action, even a missing or unknown one.  With a selection,
    an action that is none of the five known ones is answered with 500 and
    a missing action with a bad request; in both cases nothing changes. *)
Theorem col_process_refusals (env : Env) (w : World) :
  (form_has (form (request w)) "cols_selected" = false ->
   col_process env w =
     (Return (Redirect "/"),
      set_flashes (flashes w ++ [("No collections selected!", "error")]) w)) /\
  (form_has (form (request w)) "cols_selected" = true ->
   forall action,
     form_get (form (request w)) "action" = Some action ->
     Py.mem action ["download-unread"; "download-all"; "star"; "un-star"; "delete"]
     = false ->
     col_process env w = (Raise (HTTPException 500), w)) /\
  (form_has (form (request w)) "cols_selected" = true ->
   form_get (form (request w)) "action" = None ->
   col_process env w = (Raise (BadRequestKeyError "action"), w)).
Proof.
  unfold col_process, form_getitem, flash. run_monad. repeat split.
  - intros H. now rewrite H.
  - intros H action Ha Hn. rewrite H. cbn. rewrite Ha. cbn.
    unfold Py.mem in Hn. cbn in Hn.
    apply orb_false_iff in Hn as [E1 Hn]. apply orb_false_iff in Hn as [E2 Hn].
    apply orb_false_iff in Hn as [E3 Hn]. apply orb_false_iff in Hn as [E4 Hn].
    apply orb_false_iff in Hn as [E5 _].
    now rewrite E1, E2, E3, E4, E5.
  - intros H Ha. rewrite H. cbn. now rewrite Ha.
Qed.

Lemma col_process_refusals_witness :
  let nothing := Ref.world_in_c1 (Ref.post [("action", "destroy")]) in
  let unknown := Ref.world_in_c1 (Ref.post [("cols_selected", "c1"); ("action", "destroy")]) in
  let silent := Ref.world_in_c1 (Ref.post [("cols_selected", "c1")]) in
  col_process Ref.env nothing =
    (Return (Redirect "/"), set_flashes [("No collections selected!", "error")] nothing) /\
  col_process Ref.env unknown = (Raise (HTTPException 500), unknown) /\
  col_process Ref.env silent = (Raise (BadRequestKeyError "action"), silent).
Proof.
  intros nothing unknown silent. split; [|split].
  - exact (proj1 (col_process_refusals Ref.env nothing) eq_refl).
  - exact (proj1 (proj2 (col_process_refusals Ref.env unknown)) eq_refl "destroy"
                 eq_refl eq_refl).
  - exact (proj2 (proj2 (col_process_refusals Ref.env silent)) eq_refl eq_refl).
Defined.

(** ** Export, once more *)

(** X12: what no export does.  Whatever its outcome, [download] adds,
    removes, renames or moves no submission, clears no downloaded flag, and
    leaves sources, stars and replies alone. *)
Theorem download_only_sets_flags (env : Env) (base : string)
        (subs : list Submission) (w : World) :
  let w' := snd (download env base subs w) in
  map (fun x => (submission_id x, submission_source_id x, filename x))
      (submissions (db w'))
  = map (fun x => (submission_id x, submission_source_id x, filename x))
        (submissions (db w)) /\
  (forall i x x',
      nth_error (submissions (db w)) i = Some x ->
      nth_error (submissions (db w')) i = Some x' ->
      downloaded x = true -> downloaded x' = true) /\
  sources (db w') = sources (db w) /\
  source_stars (db w') = source_stars (db w) /\
  replies (db w') = replies (db w).
Proof.
  cbv zeta. rewrite download_run.
  assert (Hmap : map (fun x => (submission_id x, submission_source_id x, filename x))
                     (update_where (exported subs) (set_downloaded true)
                                   (submissions (db w)))
                 = map (fun x => (submission_id x, submission_source_id x, filename x))
                       (submissions (db w))).
  { unfold update_where. rewrite map_map. apply map_ext. intros x.
    now destruct (exported subs x). }
  assert (Hmono : forall i x x',
      nth_error (submissions (db w)) i = Some x ->
      nth_error (update_where (exported subs) (set_downloaded true)
                              (submissions (db w))) i = Some x' ->
      downloaded x = true -> downloaded x' = true).
  { intros i x x' Hx Hx' Hd. unfold update_where in Hx'.
    rewrite nth_error_map, Hx in Hx'. cbn in Hx'. injection Hx' as <-.
    now destruct (exported subs x). }
  destruct (get_bulk_archive env (ext w) subs base) as [[zf e']|]; cbn zeta.
  - destruct (commit_ok env _); cbn; (split; [exact Hmap|]); (split; [exact Hmono|]);
      now repeat split.
  - cbn. split; [reflexivity|]. split; [|now repeat split].
    intros i x x' Hx Hx' Hd. rewrite Hx in Hx'. now injection Hx' as <-.
Qed.

Lemma nothing_unread_after_marking (id : Z) (l : list Submission) :
  let unread := fun x => (submission_source_id x =? id) && negb (downloaded x) in
  filter unread (update_where (exported (filter unread l)) (set_downloaded true) l) = [].
Proof.
  intros unread.
  destruct (filter unread (update_where _ _ l)) as [|x' t] eqn:E; [reflexivity|].
  assert (Hx : In x' (filter unread (update_where (exported (filter unread l))
                                                  (set_downloaded true) l)))
    by (rewrite E; now left).
  apply filter_In in Hx as [Hin Hq]. unfold update_where in Hin.
  apply in_map_iff in Hin as (x & Hx & Hl).
  destruct (exported (filter unread l) x) eqn:Ex.
  - subst x'. unfold unread in Hq. cbn in Hq. now rewrite andb_false_r in Hq.
  - subst x'. assert (Hex : exported (filter unread l) x = true).
    { unfold exported. apply existsb_exists. exists x. split.
      - apply filter_In. now split.
      - apply Z.eqb_refl. }
    congruence.
Qed.

(** X13: exporting the unread submissions of a collection twice.  Once an
    export of the unread submissions of a collection has gone through, none
    of its submissions is unread, so the same request again only reports
    that there is nothing unread and builds no archive. *)
Theorem download_unread_sid_twice (env : Env) (sid : string) (w : World) (s : Source)
        (zf : ZipFile) (e' : Ext) :
  let unread := fun x => (submission_source_id x =? source_id s) && negb (downloaded x) in
  let subs := filter unread (submissions (db w)) in
  sources_by_filesystem_id (db w) sid = [s] ->
  get_bulk_archive env (ext w) subs (journalist_filename env s) = Some (zf, e') ->
  commit_ok env (with_submissions (update_where (exported subs) (set_downloaded true))
                                  (db w)) = true ->
  let w1 := snd (download_unread_sid env sid w) in
  filter unread (submissions (db w1)) = [] /\
  download_unread_sid env sid w1 =
    (Return (Redirect (url_for_col sid)),
     set_flashes (flashes w1 ++ [("No unread submissions for this source!", "message")])
                 w1).
Proof.
  intros unread subs Hs Ha Hc w1.
  assert (Hempty : forall w0,
    sources_by_filesystem_id (db w0) sid = [s] ->
    filter unread (submissions (db w0)) = [] ->
    download_unread_sid env sid w0 =
      (Return (Redirect (url_for_col sid)),
       set_flashes (flashes w0 ++ [("No unread submissions for this source!", "message")])
                   w0)).
  { intros w0 Hs0 He0. unfold download_unread_sid, one, flash. run_monad.
    rewrite Hs0. cbn. fold unread. now rewrite He0. }
  assert (H1 : sources_by_filesystem_id (db w1) sid = [s] /\
               filter unread (submissions (db w1)) = []).
  { subst w1. destruct subs as [|x0 rest] eqn:Esubs.
    - rewrite (Hempty w Hs Esubs). cbn. now split.
    - assert (E : download_unread_sid env sid w =
                  download env (journalist_filename env s) subs w).
      { unfold download_unread_sid, one, get_source, get_one_or_else. run_monad.
        rewrite Hs. cbn. fold unread. fold subs. rewrite Esubs. cbn. rewrite Hs.
        reflexivity. }
      rewrite E, download_run. rewrite <- Esubs in Ha, Hc. rewrite Ha. cbn zeta.
      rewrite Hc. cbn. split; [exact Hs|].
      apply (nothing_unread_after_marking (source_id s)). }
  destruct H1 as [Hs1 He1]. split; [exact He1 | exact (Hempty w1 Hs1 He1)].
Qed.

Lemma download_unread_sid_twice_witness :
  let w := Ref.world_in_c1 Ref.get in
  let w1 := snd (download_unread_sid Ref.env "c1" w) in
  sources_by_filesystem_id (db w) "c1" = [Ref.c1] /\
  fst (download_unread_sid Ref.env "c1" w) =
    Return (SendFile "/tmp/oldname.zip" "application/zip" (Some "oldname--1000.zip")) /\
  map downloaded (submissions (db w1)) = [true; true] /\
  fst (download_unread_sid Ref.env "c1" w1) = Return (Redirect "/col/c1") /\
  flashed_by (download_unread_sid Ref.env "c1") w1 =
    [("No unread submissions for this source!", "message")].
Proof.
  intros w w1. split; [reflexivity|]. split; [reflexivity|]. split; [reflexivity|].
  destruct (download_unread_sid_twice Ref.env "c1" w Ref.c1
              (mkZipFile "/tmp/oldname.zip" ["2-oldname-doc.gpg"])
              (mkExt (("/tmp/oldname.zip", "zip") :: files (ext w)) (keyring (ext w)))
              eq_refl eq_refl eq_refl) as (_ & E).
  fold w1 in E. unfold flashed_by. rewrite E. cbn [fst snd flashes set_flashes].
  split; [reflexivity | apply skipn_length_app].
Defined.

(** X14: a single download whose filename is well formed, by the number of
    submission records with that filename.  With none, the miss is logged
    with the message of the exception, nothing is marked or committed, and
    [send_file] is called all the same.  With exactly one, that record is
    marked downloaded and the mark committed before [send_file] is called,
    whichever collection the address names; if the commit fails
    [send_file] is not called.  With several, the request fails before
    anything is marked or sent.  Where [send_file] is called, the file is
    sent if the store holds it under the collection of the address, and
    the call raises if not: a mark that was committed stays. *)
Theorem download_single_submission_lookup (env : Env) (sid fn : string) (w : World) :
  bad_filename fn = false ->
  let path := store_path env sid fn in
  let r := fst (download_single_submission env sid fn w) in
  let w' := snd (download_single_submission env sid fn w) in
  let sent := if file_exists (ext w) path
              then Return (SendFile path "application/pgp-encrypted" None)
              else Raise (CollaboratorError "flask.send_file") in
  let sending := if file_exists (ext w) path then [EvSendFile path] else [] in
  match filter (fun x => String.eqb (filename x) fn) (submissions (db w)) with
  | [] =>
      r = sent /\
      db w' = db w /\ committed w' = committed w /\
      events_of (download_single_submission env sid fn) w = sending /\
      logged w' = (logged w ++ [("ERROR " ++ "Could not mark " ++ fn ++
                                 " as downloaded: No row was found for one()")%string])%list
  | [s] =>
      let d' := with_submissions
                  (update_where (fun x => submission_id x =? submission_id s)
                                (set_downloaded true)) (db w) in
      if commit_ok env d' then
        r = sent /\
        committed w' = d' /\
        events_of (download_single_submission env sid fn) w = EvCommit true :: sending
      else
        r = Raise StorageError /\
        committed w' = committed w /\
        events_of (download_single_submission env sid fn) w = [EvCommit false]
  | _ :: _ :: _ =>
      r = Raise MultipleResultsFound /\ w' = w
  end.
Proof.
  intros Hb path r w' sent sending. subst r w' sent sending path.
  unfold events_of, download_single_submission, try_except, try_except_else, one,
    mark_downloaded, modify_db, db_commit, send_file, emit, logger_error.
  run_monad. rewrite Hb. cbn.
  destruct (filter _ (submissions (db w))) as [|s [|s' l]]; cbn.
  - destruct (file_exists (ext w) (store_path env sid fn)); cbn.
    + rewrite skipn_length_app. now repeat split.
    + rewrite skipn_all. now repeat split.
  - destruct (commit_ok env _); cbn.
    + destruct (file_exists (ext w) (store_path env sid fn)); cbn.
      * rewrite <- !app_assoc, skipn_length_app. now repeat split.
      * rewrite skipn_length_app. now repeat split.
    + rewrite skipn_length_app. now repeat split.
  - now split.
Qed.

Lemma download_single_submission_lookup_witness :
  let w := Ref.world_in_c1 Ref.get in
  bad_filename "2-oldname-doc.gpg" = false /\
  (fst (download_single_submission Ref.env "c1" "2-oldname-doc.gpg" w) =
     Return (SendFile "/store/c1/2-oldname-doc.gpg" "application/pgp-encrypted" None) /\
   map downloaded (submissions (committed
     (snd (download_single_submission Ref.env "c1" "2-oldname-doc.gpg" w)))) = [true; true]) /\
  (fst (download_single_submission Ref.env "c2" "2-oldname-doc.gpg" w) =
     Raise (CollaboratorError "flask.send_file") /\
   map downloaded (submissions (committed
     (snd (download_single_submission Ref.env "c2" "2-oldname-doc.gpg" w)))) = [true; true]) /\
  (fst (download_single_submission Ref.env "c1" "9-nothing.gpg" w) =
     Raise (CollaboratorError "flask.send_file") /\
   db (snd (download_single_submission Ref.env "c1" "9-nothing.gpg" w)) = db w).
Proof.
  intros w. split; [reflexivity|]. split; [|split].
  - pose proof (download_single_submission_lookup Ref.env "c1" "2-oldname-doc.gpg" w
                  eq_refl) as H.
    cbv zeta in H.
    change (filter _ (submissions (db w))) with [Ref.sub2] in H. cbv iota in H.
    change (commit_ok Ref.env _) with true in H. cbv iota in H.
    destruct H as (Hr & Hc & _). split; [exact Hr|]. rewrite Hc. reflexivity.
  - pose proof (download_single_submission_lookup Ref.env "c2" "2-oldname-doc.gpg" w
                  eq_refl) as H.
    cbv zeta in H.
    change (filter _ (submissions (db w))) with [Ref.sub2] in H. cbv iota in H.
    change (commit_ok Ref.env _) with true in H. cbv iota in H.
    destruct H as (Hr & Hc & _). split; [exact Hr|]. rewrite Hc. reflexivity.
  - pose proof (download_single_submission_lookup Ref.env "c1" "9-nothing.gpg" w
                  eq_refl) as H.
    cbv zeta in H.
    change (filter _ (submissions (db w))) with (@nil Submission) in H. cbv iota in H.
    destruct H as (Hr & Hd & _). split; [exact Hr | exact Hd].
Defined.

(** What the selection loop of the two collection exports returns when
    every selected identifier names one collection. *)
Lemma gather_run (keep : Submission -> bool) (cols : list string) (w : World) :
  Forall (resolves (db w)) cols ->
  forall acc,
    gather keep cols acc w =
      (Return (acc ++ flat_map (submissions_of keep (db w)) cols)%list, w).
Proof.
  induction 1 as [|sid cols [s Hs] _ IH]; intros acc.
  - cbn. unfold ret. now rewrite app_nil_r.
  - cbn [gather flat_map]. unfold one, submissions_of at 1. run_monad.
    rewrite Hs. cbn. rewrite IH. now rewrite <- app_assoc.
Qed.

(** X15: what the collection exports select.  When every selected
    identifier names one collection, the submissions handed on are those of
    the selected collections, collection after collection in the order of
    the selection: all of them for the export of everything, the unread
    ones for the export of the unread, which reports an empty selection
    instead of exporting it. *)
Theorem col_download_selection (env : Env) (cols : list string) (w : World) :
  Forall (resolves (db w)) cols ->
  col_download_all env cols w =
    download env "all" (flat_map (submissions_of (fun _ => true) (db w)) cols) w /\
  col_download_unread env cols w =
    let subs := flat_map (submissions_of (fun x => negb (downloaded x)) (db w)) cols in
    match subs with
    | [] => (Return (Redirect "/"),
             set_flashes (flashes w ++
                          [("No unread submissions in collections selected!", "error")]) w)
    | _ :: _ => download env "unread" subs w
    end.
Proof.
  intros H. split.
  - unfold col_download_all, bind at 1. now rewrite (gather_run _ cols w H []).
  - unfold col_download_unread, bind at 1. rewrite (gather_run _ cols w H []).
    cbn [app]. cbv zeta. now destruct (flat_map _ cols).
Qed.

Lemma col_download_selection_witness :
  let w := Ref.world_in_c1 (Ref.post []) in
  Forall (resolves (db w)) ["c1"; "c2"; "c1"] /\
  col_download_all Ref.env ["c1"; "c2"; "c1"] w =
    download Ref.env "all" [Ref.sub1; Ref.sub2; Ref.sub1; Ref.sub2] w /\
  col_download_unread Ref.env ["c1"; "c2"; "c1"] w =
    download Ref.env "unread" [Ref.sub2; Ref.sub2] w.
Proof.
  intros w.
  assert (H : Forall (resolves (db w)) ["c1"; "c2"; "c1"]).
  { repeat constructor; [exists Ref.c1 | exists Ref.c2 | exists Ref.c1]; reflexivity. }
  split; [exact H|].
  destruct (col_download_selection Ref.env ["c1"; "c2"; "c1"] w H) as [Ha Hu].
  split; [exact Ha | exact Hu].
Defined.

Lemma gather_fails (cols : list string) (w : World) :
  (exists sid, In sid cols /\ ~ resolves (db w) sid) ->
  exists e, (e = NoResultFound \/ e = MultipleResultsFound) /\
            forall keep acc, gather keep cols acc w = (Raise e, w).
Proof.
  induction cols as [|sid cols IH]; intros (bad & Hin & Hbad); [destruct Hin|].
  destruct (sources_by_filesystem_id (db w) sid) as [|s [|s' l]] eqn:Hs.
  - exists NoResultFound. split; [now left|]. intros keep acc.
    cbn [gather]. unfold one. run_monad. now rewrite Hs.
  - destruct Hin as [<-|Hin]; [exfalso; apply Hbad; now exists s|].
    destruct IH as (e & He & Hg); [now exists bad|].
    exists e. split; [exact He|]. intros keep acc.
    cbn [gather]. unfold one. run_monad. rewrite Hs. cbn. apply Hg.
  - exists MultipleResultsFound. split; [now right|]. intros keep acc.
    cbn [gather]. unfold one. run_monad. now rewrite Hs.
Qed.

(** X16: one bad identifier fails a whole collection export.  If any
    selected identifier does not name exactly one collection, both exports
    raise ([NoResultFound] or [MultipleResultsFound]) and leave the world as
    it was: no archive is built and nothing is marked, also for the
    collections that were named correctly. *)
Theorem col_download_unknown_collection (env : Env) (cols : list string) (w : World) :
  (exists sid, In sid cols /\ ~ resolves (db w) sid) ->
  exists e, (e = NoResultFound \/ e = MultipleResultsFound) /\
            col_download_all env cols w = (Raise e, w) /\
            col_download_unread env cols w = (Raise e, w).
Proof.
  intros H. destruct (gather_fails cols w H) as (e & He & Hg).
  exists e. split; [exact He|].
  unfold col_download_all, col_download_unread, bind. now rewrite !Hg.
Qed.

Lemma col_download_unknown_collection_witness :
  let w := Ref.world_in_c1 (Ref.post []) in
  (exists sid, In sid ["c1"; "ghost"] /\ ~ resolves (db w) sid) /\
  col_download_all Ref.env ["c1"; "ghost"] w = (Raise NoResultFound, w).
Proof.
  intros w.
  assert (H : exists sid, In sid ["c1"; "ghost"] /\ ~ resolves (db w) sid).
  { exists "ghost". split; [right; now left|]. intros [s Hs]. discriminate Hs. }
  split; [exact H|].
  destruct (col_download_unknown_collection Ref.env ["c1"; "ghost"] w H)
    as (e & _ & Ha & _).
  rewrite Ha. f_equal.
  assert (E : fst (col_download_all Ref.env ["c1"; "ghost"] w) = Raise NoResultFound)
    by reflexivity.
  rewrite Ha in E. exact E.
Defined.

(** ** Deleting selected submissions *)

Lemma filter_all {A} (l : list A) : filter (fun _ => true) l = l.
Proof. induction l as [|x l IH]; cbn; [|rewrite IH]; reflexivity. Qed.

Lemma filter_filter {A} (p q : A -> bool) (l : list A) :
  filter p (filter q l) = filter (fun x => q x && p x) l.
Proof.
  induction l as [|x l IH]; cbn; [reflexivity|].
  destruct (q x); cbn; [destruct (p x)|]; now rewrite IH.
Qed.

Lemma set_queue_trace_same (w : World) :
  mkWorld (db w) (committed w) (session_uid w) (request w) (g w) (flashes w)
          (logged w) (ext w) (queue w) (utcnow w) (trace w) = w.
Proof. destruct w; reflexivity. Qed.

(** The loop of [bulk_delete]: a task for each item, in order, and the rows
    of the items gone from the session. *)
Lemma bulk_delete_loop (env : Env) (sid : string) (items : list Submission) (w : World) :
  for_each items
    (fun item =>
       let item_path := store_path env sid (filename item) in
       worker_enqueue (SecureUnlink item_path) ;;
       db_delete_submission item) w =
  (Return tt,
   mkWorld (with_submissions (filter (fun x => negb (exported items x))) (db w))
           (committed w) (session_uid w) (request w) (g w) (flashes w) (logged w)
           (ext w) (queue w ++ unlink_jobs env sid items) (utcnow w)
           (trace w ++ map EvEnqueue (unlink_jobs env sid items))).
Proof.
  revert w. induction items as [|item items IH]; intros w.
  - cbn. unfold ret. f_equal. rewrite !app_nil_r.
    replace (with_submissions _ (db w)) with (db w);
      [apply eq_sym, set_queue_trace_same|].
    unfold with_submissions. change (fun x => negb (exported [] x))
      with (fun _ : Submission => true).
    rewrite filter_all. now destruct (db w).
  - rewrite for_each_cons.
    unfold worker_enqueue at 1, db_delete_submission at 1, modify_db, emit.
    run_monad. rewrite IH. cbn. f_equal. rewrite <- !app_assoc. cbn.
    f_equal. unfold with_submissions; cbn. f_equal.
    rewrite filter_filter. apply filter_ext. intros x.
    unfold exported; cbn. now rewrite negb_orb.
Qed.

Lemma bulk_delete_eq (env : Env) (sid : string) (items : list Submission) (w : World) :
  let d' := with_submissions (filter (fun x => negb (exported items x))) (db w) in
  let jobs := unlink_jobs env sid items in
  bulk_delete env sid items w =
    if commit_ok env d' then
      (Return (Redirect (url_for_col sid)),
       mkWorld d' d' (session_uid w) (request w) (g w)
               (flashes w ++
                [("Submission" ++ (if 1 <? Z.of_nat (length items) then "s" else "")
                    ++ " deleted.", "notification")])
               (logged w) (ext w) (queue w ++ jobs) (utcnow w)
               ((trace w ++ map EvEnqueue jobs) ++ [EvCommit true]))
    else
      (Raise StorageError,
       mkWorld d' (committed w) (session_uid w) (request w) (g w) (flashes w)
               (logged w) (ext w) (queue w ++ jobs) (utcnow w)
               ((trace w ++ map EvEnqueue jobs) ++ [EvCommit false])).
Proof.
  intros d' jobs. unfold bulk_delete, bind at 1. rewrite bulk_delete_loop.
  unfold db_commit, emit, flash. run_monad. fold d'.
  destruct (commit_ok env d'); reflexivity.
Qed.

(** X17: [bulk_delete] queues one secure-unlink task per item, in order and
    for the item's path in the store, removes the rows of the items, and
    does not touch the files itself.  The removals are committed in one
    commit after all tasks are queued; if that commit fails no row is
    deleted for good, yet the tasks stay queued. *)
Theorem bulk_delete_queues_then_commits (env : Env) (sid : string)
        (items : list Submission) (w : World) :
  let d' := with_submissions (filter (fun x => negb (exported items x))) (db w) in
  let jobs := unlink_jobs env sid items in
  let w' := snd (bulk_delete env sid items w) in
  queue w' = (queue w ++ jobs)%list /\
  ext w' = ext w /\
  db w' = d' /\
  if commit_ok env d' then
    fst (bulk_delete env sid items w) = Return (Redirect (url_for_col sid)) /\
    committed w' = d' /\
    events_of (bulk_delete env sid items) w = (map EvEnqueue jobs ++ [EvCommit true])%list /\
    flashed_by (bulk_delete env sid items) w =
      [("Submission" ++ (if 1 <? Z.of_nat (length items) then "s" else "") ++ " deleted.",
        "notification")]
  else
    fst (bulk_delete env sid items w) = Raise StorageError /\
    committed w' = committed w /\
    events_of (bulk_delete env sid items) w = (map EvEnqueue jobs ++ [EvCommit false])%list /\
    flashed_by (bulk_delete env sid items) w = [].
Proof.
  intros d' jobs w'. subst w'. unfold events_of, flashed_by.
  rewrite bulk_delete_eq. fold d' jobs.
  destruct (commit_ok env d'); cbn;
    rewrite <- ?app_assoc, ?skipn_length_app, ?skipn_all; now repeat split.
Qed.

(** X18: what [bulk] does not do.  Asking for the confirmation page of a
    non-empty selection changes nothing.  An action that is none of
    download, delete and confirm_delete is a bad request (400) when
    something is selected, and with an empty selection it is answered with
    the redirect to the collection and no message at all. *)
Theorem bulk_refusals (env : Env) (w : World) (action sid : string) (id : Z)
        (src : Source) :
  form_get (form (request w)) "action" = Some action ->
  g_sid (g w) = Some sid ->
  g_source (g w) = Some id ->
  source_row (db w) id = Some src ->
  (action = "confirm_delete" -> selected_docs w id <> [] ->
   bulk env w = (Return (RenderTemplate "delete.html"), w)) /\
  (Py.mem action ["download"; "delete"; "confirm_delete"] = false ->
   bulk env w =
     (match selected_docs w id with
      | [] => Return (Redirect (url_for_col sid))
      | _ :: _ => Raise (HTTPException 400)
      end, w)).
Proof.
  intros Ha Hs Hsrc Hrow. pose proof (source_row_id _ _ _ Hrow) as Hid.
  unfold selected_docs. split.
  - intros -> Hne.
    unfold bulk, form_getitem, g_source_get, g_sid_get, confirm_bulk_delete.
    run_monad. rewrite Ha. cbn. rewrite Hsrc, Hrow. cbn. rewrite Hid.
    destruct (filter _ (collection (db w) id)); [congruence|]. cbn. now rewrite Hs.
  - intros Hn. unfold Py.mem in Hn. cbn in Hn.
    apply orb_false_iff in Hn as [E1 Hn]. apply orb_false_iff in Hn as [E2 Hn].
    apply orb_false_iff in Hn as [E3 _].
    unfold bulk, form_getitem, g_source_get, g_sid_get.
    run_monad. rewrite Ha. cbn. rewrite Hsrc, Hrow. cbn. rewrite Hid.
    destruct (filter _ (collection (db w) id)); cbn; rewrite E1, E2, E3; cbn;
      [now rewrite Hs | reflexivity].
Qed.

Lemma bulk_refusals_witness :
  let confirm := Ref.world_in_c1 (Ref.post [("action", "confirm_delete");
                                            ("doc_names_selected", "2-oldname-doc.gpg")]) in
  let odd := Ref.world_in_c1 (Ref.post [("action", "shred");
                                        ("doc_names_selected", "2-oldname-doc.gpg")]) in
  let odd_empty := Ref.world_in_c1 (Ref.post [("action", "shred")]) in
  bulk Ref.env confirm = (Return (RenderTemplate "delete.html"), confirm) /\
  bulk Ref.env odd = (Raise (HTTPException 400), odd) /\
  bulk Ref.env odd_empty = (Return (Redirect "/col/c1"), odd_empty).
Proof.
  intros confirm odd odd_empty. split; [|split].
  - refine (proj1 (bulk_refusals Ref.env confirm "confirm_delete" "c1" 1 Ref.c1
                     eq_refl eq_refl eq_refl eq_refl) eq_refl _).
    discriminate.
  - exact (proj2 (bulk_refusals Ref.env odd "shred" "c1" 1 Ref.c1
                    eq_refl eq_refl eq_refl eq_refl) eq_refl).
  - exact (proj2 (bulk_refusals Ref.env odd_empty "shred" "c1" 1 Ref.c1
                    eq_refl eq_refl eq_refl eq_refl) eq_refl).
Defined.

Lemma nodup_map_inj {A B} (f : A -> B) (l : list A) (x y : A) :
  NoDup (map f l) -> In x l -> In y l -> f x = f y -> x = y.
Proof.
  induction l as [|a l IH]; cbn; intros Hnd Hx Hy Hf; [destruct Hx|].
  inversion Hnd as [|b l' Hnotin Hnd']; subst.
  destruct Hx as [<-|Hx], Hy as [<-|Hy]; [reflexivity | | | now apply IH].
  - exfalso. apply Hnotin. rewrite Hf. now apply in_map.
  - exfalso. apply Hnotin. rewrite <- Hf. now apply in_map.
Qed.

(** X19: deleting by [bulk] stays inside the collection of the request.
    With primary keys that are distinct, the rows that go are exactly the
    submissions of the collection behind [g.source] whose filename the form
    names; a submission of another collection stays even if the form names
    its filename. *)
Theorem bulk_delete_stays_in_collection (env : Env) (w : World) (sid : string)
        (id : Z) (src : Source) :
  let names := form_getlist (form (request w)) "doc_names_selected" in
  let d' := with_submissions
              (filter (fun x => negb ((submission_source_id x =? id)
                                        && Py.mem (filename x) names))) (db w) in
  form_get (form (request w)) "action" = Some "delete" ->
  g_sid (g w) = Some sid ->
  g_source (g w) = Some id ->
  source_row (db w) id = Some src ->
  selected_docs w id <> [] ->
  NoDup (map submission_id (submissions (db w))) ->
  commit_ok env d' = true ->
  fst (bulk env w) = Return (Redirect (url_for_col sid)) /\
  committed (snd (bulk env w)) = d' /\
  queue (snd (bulk env w)) = (queue w ++ unlink_jobs env sid (selected_docs w id))%list.
Proof.
  intros names d' Ha Hs Hsrc Hrow Hne Hnd Hc.
  pose proof (source_row_id _ _ _ Hrow) as Hid.
  assert (E : bulk env w = bulk_delete env sid (selected_docs w id) w).
  { unfold selected_docs in *.
    unfold bulk, form_getitem, g_source_get, g_sid_get.
    run_monad. rewrite Ha. cbn. rewrite Hsrc, Hrow. cbn. rewrite Hid.
    destruct (filter _ (collection (db w) id)); [congruence|]. cbn. now rewrite Hs. }
  assert (Hd : with_submissions (filter (fun x => negb (exported (selected_docs w id) x)))
                                (db w) = d').
  { unfold d', with_submissions. f_equal. apply filter_ext_in. intros x Hx. f_equal.
    unfold selected_docs, collection. fold names. rewrite filter_filter.
    destruct ((submission_source_id x =? id) && Py.mem (filename x) names) eqn:Ex.
    - unfold exported. apply existsb_exists. exists x. split; [|apply Z.eqb_refl].
      apply filter_In. now split.
    - destruct (exported _ x) eqn:Ee; [|reflexivity].
      unfold exported in Ee. apply existsb_exists in Ee as (s & Hin & Heq).
      apply filter_In in Hin as [Hin Hp]. apply Z.eqb_eq in Heq.
      rewrite (nodup_map_inj submission_id _ x s Hnd Hx Hin Heq) in Ex. congruence. }
  rewrite E, bulk_delete_eq. cbv zeta. rewrite Hd, Hc. now repeat split.
Qed.

Lemma bulk_delete_stays_in_collection_witness :
  let w := set_request (Ref.post [("action", "delete");
                                  ("doc_names_selected", "2-oldname-doc.gpg");
                                  ("doc_names_selected", "1-quiet-doc.gpg")])
                       (Desk.world_in_c1 Ref.get) in
  selected_docs w 1 = [Ref.sub2] /\
  NoDup (map submission_id (submissions (db w))) /\
  fst (bulk Ref.env w) = Return (Redirect "/col/c1") /\
  submissions (committed (snd (bulk Ref.env w))) = [Ref.sub1; Desk.sub3] /\
  queue (snd (bulk Ref.env w)) = [SecureUnlink "/store/c1/2-oldname-doc.gpg"].
Proof.
  intros w. split; [reflexivity|].
  assert (Hnd : NoDup (map submission_id (submissions (db w)))).
  { cbn. repeat constructor; cbn; intuition discriminate. }
  split; [exact Hnd|].
  assert (Hne : selected_docs w 1 <> []) by discriminate.
  destruct (bulk_delete_stays_in_collection Ref.env w "c1" 1 Ref.c1
              eq_refl eq_refl eq_refl eq_refl Hne Hnd eq_refl) as (Hr & Hc & Hq).
  split; [exact Hr|]. split; [rewrite Hc; reflexivity | exact Hq].
Defined.

(** ** Stars, once more *)

Lemma update_first_keeps_keys (id : Z) (v : bool) (l : list SourceStar) :
  map star_source_id
      (update_first (fun st => star_source_id st =? id) (set_starred v) l)
  = map star_source_id l.
Proof.
  induction l as [|x l IH]; cbn; [reflexivity|].
  destruct (star_source_id x =? id); cbn; [reflexivity | now rewrite IH].
Qed.

Lemma NoDup_snoc {A} (l : list A) (x : A) : NoDup l -> ~ In x l -> NoDup (l ++ [x]).
Proof.
  induction 1 as [|y l Hy Hnd IH]; cbn; intros Hx.
  - constructor; [intros [] | constructor].
  - constructor.
    + intros Hin. apply in_app_or in Hin as [Hin|[<-|[]]]; [now apply Hy|].
      apply Hx. now left.
    + apply IH. intros Hin. apply Hx. now right.
Qed.

Lemma no_star_no_key (d : DB) (s : Source) :
  star_of d s = None -> ~ In (source_id s) (map star_source_id (source_stars d)).
Proof.
  intros H Hin. apply in_map_iff in Hin as (st & Hk & Hst).
  pose proof (find_none _ _ H st Hst) as Hf. cbn in Hf.
  rewrite Hk, Z.eqb_refl in Hf. discriminate.
Qed.

Lemma option_match_id {A} (o : option A) :
  match o with Some x => Some x | None => None end = o.
Proof. now destruct o. Qed.

Lemma update_first_none {A} (p : A -> bool) (f : A -> A) (l : list A) :
  find p l = None -> update_first p f l = l.
Proof.
  induction l as [|x l IH]; cbn; [reflexivity|].
  destruct (p x); [discriminate|]. intros H. now rewrite IH.
Qed.

Lemma find_snoc_some {A} (p : A -> bool) (l : list A) (x y : A) :
  find p l = Some y -> find p (l ++ [x]) = Some y.
Proof.
  induction l as [|z l IH]; cbn; [discriminate|]. now destruct (p z).
Qed.

Lemma find_update_first_other {A} (p q : A -> bool) (f : A -> A) (l : list A) :
  (forall y, q y = true -> p y = false) ->
  (forall y, p (f y) = p y) ->
  find p (update_first q f l) = find p l.
Proof.
  intros Hq Hp. induction l as [|x l IH]; cbn; [reflexivity|].
  destruct (q x) eqn:Eq; cbn.
  - now rewrite Hp, (Hq x Eq).
  - now rewrite IH.
Qed.

Lemma find_snoc_miss {A} (p : A -> bool) (l : list A) (x : A) :
  p x = false -> find p (l ++ [x]) = find p l.
Proof.
  intros Hx. induction l as [|y l IH]; cbn; [now rewrite Hx|].
  now destruct (p y).
Qed.

(** The star of the collection with key [id0] after the first star row of
    the collection with key [id] was assigned. *)
Lemma star_find_update (id id0 : Z) (v : bool) (l : list SourceStar) :
  find (fun st => star_source_id st =? id0)
       (update_first (fun st => star_source_id st =? id) (set_starred v) l)
  = if id =? id0
    then match find (fun st => star_source_id st =? id) l with
         | Some _ => Some (mkSourceStar id0 v)
         | None => None
         end
    else find (fun st => star_source_id st =? id0) l.
Proof.
  destruct (id =? id0) eqn:E.
  - apply Z.eqb_eq in E. subst id0.
    destruct (find (fun st => star_source_id st =? id) l) as [st|] eqn:Ef.
    + rewrite (find_update_first (fun x : SourceStar => star_source_id x =? id)
                 (set_starred v) _ st (fun _ => eq_refl) Ef).
      apply find_some in Ef as [_ Ef]. apply Z.eqb_eq in Ef.
      unfold set_starred. now rewrite Ef.
    + now rewrite update_first_none.
  - apply find_update_first_other; [|reflexivity].
    intros y Hy. apply Z.eqb_eq in Hy. now rewrite Hy.
Qed.

(** The star of the collection with key [id0] after a star row for the
    collection with key [id] was added. *)
Lemma star_find_snoc (id id0 : Z) (b : bool) (l : list SourceStar) :
  find (fun st => star_source_id st =? id0) (l ++ [mkSourceStar id b])
  = match find (fun st => star_source_id st =? id0) l with
    | Some st => Some st
    | None => if id =? id0 then Some (mkSourceStar id b) else None
    end.
Proof.
  destruct (find (fun st => star_source_id st =? id0) l) as [st|] eqn:Ef.
  - now apply find_snoc_some.
  - destruct (id =? id0) eqn:E.
    + now apply find_snoc_none.
    + rewrite find_snoc_miss; [exact Ef | exact E].
Qed.

(** One star action as seen from any collection [s0], in a session whose
    pending star rows, if any, carry the value of the action: the star of
    [s0] takes the value when the action is for a collection with its key,
    and stays what it was otherwise. *)
Lemma make_star_effect (env : Env) (v : bool) (sid : string) (w : World) (s : Source) :
  default_starred env = true ->
  (forall d, commit_ok env d = true) ->
  sources_by_filesystem_id (db w) sid = [s] ->
  (forall s0, star_of (committed w) s0 = None ->
              star_of (db w) s0 = None \/
              star_of (db w) s0 = Some (mkSourceStar (source_id s0) v)) ->
  let w1 := snd (make_star env v sid w) in
  fst (make_star env v sid w) = Return tt /\
  sources (db w1) = sources (db w) /\
  (forall s0, star_of (committed w1) s0 = None ->
              star_of (db w1) s0 = None \/
              star_of (db w1) s0 = Some (mkSourceStar (source_id s0) v)) /\
  forall s0,
    star_of (db w1) s0 =
      if source_id s =? source_id s0
      then Some (mkSourceStar (source_id s0) v)
      else star_of (db w) s0.
Proof.
  intros Hd Hc Hs HP w1.
  assert (Hcore :
    fst (make_star env v sid w) = Return tt /\
    sources (db w1) = sources (db w) /\
    (forall s0,
        star_of (db w1) s0 =
          if source_id s =? source_id s0
          then Some (mkSourceStar (source_id s0) v)
          else star_of (db w) s0) /\
    (forall s0, (source_id s =? source_id s0) = false ->
                star_of (committed w1) s0 = None ->
                star_of (committed w) s0 = None \/ star_of (db w) s0 = None)).
  { subst w1. unfold make_star. destruct v.
    - rewrite (make_star_true_run env sid w s Hs). cbn [fst snd].
      split; [reflexivity|]. split; [reflexivity|]. split; [|intros s0 _ H; now left].
      intros s0. unfold source_star, SourceStar_new. rewrite Hd.
      destruct (star_of (committed w) s) as [c|] eqn:Ec;
        [destruct (star_of (db w) s) as [st|] eqn:Ed|];
        unfold star_of in *; cbn [db set_db with_source_stars source_stars].
      + rewrite star_find_update, Ed. reflexivity.
      + rewrite star_find_snoc.
        destruct (source_id s =? source_id s0) eqn:E.
        * apply Z.eqb_eq in E. rewrite <- E, Ed. reflexivity.
        * apply option_match_id.
      + rewrite star_find_snoc.
        destruct (source_id s =? source_id s0) eqn:E.
        * apply Z.eqb_eq in E. rewrite <- E.
          destruct (HP s Ec) as [H|H]; rewrite H; reflexivity.
        * apply option_match_id.
    - rewrite (make_star_false_run env sid w s Hs Hc). cbn [fst snd].
      split; [reflexivity|]. unfold source_star, SourceStar_new. rewrite Hd.
      destruct (star_of (committed w) s) as [c|] eqn:Ec;
        [destruct (star_of (db w) s) as [st|] eqn:Ed|];
        unfold star_of in *;
        cbn [db committed set_db with_source_stars source_stars sources].
      + split; [reflexivity|]. split; [|intros s0 _ H; now left].
        intros s0. rewrite star_find_update, Ed. reflexivity.
      + split; [reflexivity|]. split.
        * intros s0. rewrite star_find_update, star_find_snoc, Z.eqb_refl.
          destruct (source_id s =? source_id s0) eqn:E.
          -- destruct (find (fun st => star_source_id st =? source_id s)
                            (source_stars (db w))); reflexivity.
          -- rewrite star_find_snoc, E. apply option_match_id.
        * intros s0 E H. right. rewrite star_find_snoc in H.
          destruct (find (fun st => star_source_id st =? source_id s0)
                         (source_stars (db w))); [discriminate H | reflexivity].
      + split; [reflexivity|]. split.
        * intros s0. rewrite star_find_update, star_find_snoc, Z.eqb_refl.
          destruct (source_id s =? source_id s0) eqn:E.
          -- destruct (find (fun st => star_source_id st =? source_id s)
                            (source_stars (db w))); reflexivity.
          -- rewrite star_find_snoc, E. apply option_match_id.
        * intros s0 E H. right. rewrite star_find_snoc in H.
          destruct (find (fun st => star_source_id st =? source_id s0)
                         (source_stars (db w))); [discriminate H | reflexivity]. }
  destruct Hcore as (Hr & Hsrc & Hstar & Hcm).
  split; [exact Hr|]. split; [exact Hsrc|]. split; [|exact Hstar].
  intros s0 H0. rewrite Hstar.
  destruct (source_id s =? source_id s0) eqn:E; [now right|].
  destruct (Hcm s0 E H0) as [H|H]; [now apply HP | now left].
Qed.

Lemma resolves_by_sources (d d' : DB) (sid : string) :
  sources d' = sources d ->
  sources_by_filesystem_id d' sid = sources_by_filesystem_id d sid.
Proof. intros H. unfold sources_by_filesystem_id. now rewrite H. Qed.

Lemma existsb_pointwise {A} (f g : A -> bool) (l : list A) :
  (forall a, f a = g a) -> existsb f l = existsb g l.
Proof. intros H. induction l as [|x l IH]; cbn; [|rewrite H, IH]; reflexivity. Qed.

Lemma for_each_make_star_effect (env : Env) (v : bool) (cols : list string) :
  default_starred env = true ->
  (forall d, commit_ok env d = true) ->
  forall w,
    Forall (resolves (db w)) cols ->
    (forall s0, star_of (committed w) s0 = None ->
                star_of (db w) s0 = None \/
                star_of (db w) s0 = Some (mkSourceStar (source_id s0) v)) ->
    let w' := snd (for_each cols (make_star env v) w) in
    fst (for_each cols (make_star env v) w) = Return tt /\
    sources (db w') = sources (db w) /\
    forall s0,
      star_of (db w') s0 =
        if star_selected (db w) cols s0
        then Some (mkSourceStar (source_id s0) v)
        else star_of (db w) s0.
Proof.
  intros Hd Hc. induction cols as [|sid cols IH]; intros w Hall HP.
  - cbn. now repeat split.
  - inversion Hall as [|x l [s Hs] Hrest]; subst. cbv zeta. rewrite for_each_cons.
    destruct (make_star_effect env v sid w s Hd Hc Hs HP) as (Hr & Hsrc & HP1 & Hstar).
    destruct (make_star env v sid w) as [r w1]. cbn in Hr, Hsrc, HP1, Hstar. subst r.
    assert (Hall1 : Forall (resolves (db w1)) cols).
    { eapply Forall_impl; [|exact Hrest]. intros a [sa Ha]. exists sa.
      now rewrite (resolves_by_sources _ _ a Hsrc). }
    destruct (IH w1 Hall1 HP1) as (Hr2 & Hsrc2 & Hstar2).
    split; [exact Hr2|]. split; [now rewrite Hsrc2|].
    intros s0. rewrite Hstar2, Hstar.
    assert (Hsel : star_selected (db w1) cols s0 = star_selected (db w) cols s0).
    { unfold star_selected. apply existsb_pointwise. intros a.
      now rewrite (resolves_by_sources _ _ a Hsrc). }
    rewrite Hsel.
    change (star_selected (db w) (sid :: cols) s0)
      with (match sources_by_filesystem_id (db w) sid with
            | [s1] => source_id s1 =? source_id s0
            | _ => false
            end || star_selected (db w) cols s0).
    rewrite Hs.
    destruct (star_selected (db w) cols s0); [now rewrite orb_true_r|].
    now rewrite orb_false_r.
Qed.

(** A star row that is pending when [col_star] begins is not seen through
    [source.star]: a second row is added behind it, and the star of the
    collection stays the pending one. *)
Example col_star_behind_a_pending_row :
  let w := set_db (with_source_stars (fun _ => [mkSourceStar 1 false]) Ref.database)
                  (Ref.world_in_c1 (Ref.post [])) in
  let w' := snd (col_star Ref.env ["c1"] w) in
  source_stars (committed w') = [mkSourceStar 1 false; mkSourceStar 1 true] /\
  star_of (committed w') Ref.c1 = Some (mkSourceStar 1 false).
Proof. vm_compute. split; reflexivity. Qed.

(** X21: starring or un-starring a selection of collections at the start
    of a request, when no star row is pending in the session (with one
    pending, see [col_star_behind_a_pending_row]).  When every selected
    identifier names one collection and storage does not fail, the
    committed star of every selected collection carries the value of the
    action, a missing star row being created for it, and the star of every
    collection that was not selected is what it was. *)
Theorem col_star_marks_selection (env : Env) (cols : list string) (w : World) :
  default_starred env = true ->
  (forall d, commit_ok env d = true) ->
  Forall (resolves (db w)) cols ->
  no_pending_star w ->
  (fst (col_star env cols w) = Return (Redirect "/") /\
   forall s0,
     star_of (committed (snd (col_star env cols w))) s0 =
       if star_selected (db w) cols s0
       then Some (mkSourceStar (source_id s0) true)
       else star_of (db w) s0) /\
  (fst (col_un_star env cols w) = Return (Redirect "/") /\
   forall s0,
     star_of (committed (snd (col_un_star env cols w))) s0 =
       if star_selected (db w) cols s0
       then Some (mkSourceStar (source_id s0) false)
       else star_of (db w) s0).
Proof.
  intros Hd Hc Hall Hclean.
  assert (H : forall v,
    fst ((for_each cols (make_star env v) ;; db_commit env ;;
          redirect url_for_index) w) = Return (Redirect "/") /\
    forall s0,
      star_of (committed (snd ((for_each cols (make_star env v) ;; db_commit env ;;
                                redirect url_for_index) w))) s0 =
        if star_selected (db w) cols s0
        then Some (mkSourceStar (source_id s0) v)
        else star_of (db w) s0).
  { intros v.
    destruct (for_each_make_star_effect env v cols Hd Hc w Hall
                (fun s0 H0 => or_introl (Hclean s0 H0))) as (Hr & _ & Hstar).
    unfold bind, db_commit, emit, gets, modify, redirect, ret.
    destruct (for_each cols (make_star env v) w) as [r w1]. cbn in Hr, Hstar. subst r.
    cbn. rewrite Hc. cbn. split; [reflexivity | exact Hstar]. }
  split; [exact (H true) | exact (H false)].
Qed.

Lemma col_star_marks_selection_witness :
  let w := Ref.world_in_c1 (Ref.post [("cols_selected", "c2"); ("action", "star")]) in
  Forall (resolves (db w)) ["c2"] /\
  no_pending_star w /\
  fst (col_star Ref.env ["c2"] w) = Return (Redirect "/") /\
  star_of (committed (snd (col_star Ref.env ["c2"] w))) Ref.c2 = Some (mkSourceStar 2 true) /\
  star_of (committed (snd (col_star Ref.env ["c2"] w))) Ref.c1 = None.
Proof.
  intros w.
  assert (H : Forall (resolves (db w)) ["c2"]).
  { repeat constructor. exists Ref.c2. reflexivity. }
  assert (Hclean : no_pending_star w) by (intros s0 H0; exact H0).
  split; [exact H|]. split; [exact Hclean|].
  destruct (col_star_marks_selection Ref.env ["c2"] w eq_refl (fun _ => eq_refl) H Hclean)
    as ((Hr & Hs) & _).
  split; [exact Hr|]. split; [exact (Hs Ref.c2) | exact (Hs Ref.c1)].
Defined.

Lemma resolved_source (d : DB) (sid : string) (s : Source) :
  sources_by_filesystem_id d sid = [s] -> In s (sources d) /\ filesystem_id s = sid.
Proof.
  intros H. assert (Hin : In s (sources_by_filesystem_id d sid)) by (rewrite H; now left).
  apply filter_In in Hin as [Hin Hf]. split; [exact Hin | now apply String.eqb_eq].
Qed.

(** One star action keeps the star rows unique when no star row is pending
    for the collection it is for, whatever its outcome; and it leaves no
    star row pending for a collection with another key. *)
Lemma make_star_keeps_stars_unique (env : Env) (v : bool) (sid : string) (w : World) :
  stars_unique (db w) -> stars_unique (committed w) ->
  (forall s, sources_by_filesystem_id (db w) sid = [s] ->
             star_of (committed w) s = None -> star_of (db w) s = None) ->
  let w1 := snd (make_star env v sid w) in
  stars_unique (db w1) /\ stars_unique (committed w1) /\
  sources (db w1) = sources (db w) /\
  forall s0,
    (forall s, sources_by_filesystem_id (db w) sid = [s] -> source_id s <> source_id s0) ->
    (star_of (committed w) s0 = None -> star_of (db w) s0 = None) ->
    star_of (committed w1) s0 = None -> star_of (db w1) s0 = None.
Proof.
  intros Hd Hc Hpend w1.
  assert (Hadd : forall s, star_of (db w) s = None ->
            stars_unique (with_source_stars
                            (fun l => (l ++ [SourceStar_new env s])%list) (db w))).
  { intros s Hs. unfold stars_unique, with_source_stars; cbn.
    rewrite map_app. cbn. apply NoDup_snoc; [exact Hd | now apply no_star_no_key]. }
  assert (Hset : forall s b d, stars_unique d ->
            stars_unique (with_source_stars
                            (update_first (fun st => star_source_id st =? source_id s)
                                          (set_starred b)) d)).
  { intros s b d H. unfold stars_unique, with_source_stars; cbn.
    now rewrite update_first_keeps_keys. }
  assert (Hother_set : forall s s0 b d, source_id s <> source_id s0 ->
            star_of (with_source_stars
                       (update_first (fun st => star_source_id st =? source_id s)
                                     (set_starred b)) d) s0 = star_of d s0).
  { intros s s0 b d Hne. unfold star_of, with_source_stars; cbn.
    rewrite star_find_update. apply Z.eqb_neq in Hne. now rewrite Hne. }
  assert (Hother_add : forall s s0 d, source_id s <> source_id s0 ->
            star_of (with_source_stars
                       (fun l => (l ++ [SourceStar_new env s])%list) d) s0 = star_of d s0).
  { intros s s0 d Hne. unfold star_of, with_source_stars, SourceStar_new; cbn.
    rewrite star_find_snoc. apply Z.eqb_neq in Hne. rewrite Hne.
    apply option_match_id. }
  destruct (sources_by_filesystem_id (db w) sid) as [|s [|s' l]] eqn:Hs.
  - subst w1. unfold make_star, make_star_true, make_star_false, get_source,
      get_one_or_else, logger_error.
    destruct v; run_monad; rewrite Hs; cbn; (split; [exact Hd|]);
      (split; [exact Hc|]); (split; [reflexivity|]); intros s0 _ H; exact H.
  - specialize (Hpend s eq_refl).
    assert (Hnone : source_star w s = None -> star_of (db w) s = None).
    { unfold source_star. destruct (star_of (committed w) s); [trivial|].
      intros _. now apply Hpend. }
    subst w1. unfold make_star, make_star_true, make_star_false, get_source,
      get_one_or_else, set_star_of, db_add_star, db_commit, modify_db, emit.
    destruct v; unfold bind, gets, modify, ret, raise; rewrite Hs;
      destruct (source_star w s) as [st|] eqn:Est; cbn [fst snd db committed set_db
        set_committed set_trace].
    + split; [now apply Hset|]. split; [exact Hc|]. split; [reflexivity|].
      intros s0 Hne H H0. rewrite (Hother_set s s0 true (db w) (Hne s eq_refl)).
      now apply H.
    + split; [apply Hadd; now apply Hnone|]. split; [exact Hc|]. split; [reflexivity|].
      intros s0 Hne H H0. rewrite (Hother_add s s0 (db w) (Hne s eq_refl)).
      now apply H.
    + split; [now apply Hset|]. split; [exact Hc|]. split; [reflexivity|].
      intros s0 Hne H H0. rewrite (Hother_set s s0 false (db w) (Hne s eq_refl)).
      now apply H.
    + destruct (commit_ok env _); cbn [fst snd db committed set_db set_committed
        set_trace].
      * split; [apply Hset, Hadd; now apply Hnone|].
        split; [apply Hadd; now apply Hnone|]. split; [reflexivity|].
        intros s0 Hne _ H0. rewrite (Hother_set s s0 false _ (Hne s eq_refl)).
        exact H0.
      * split; [apply Hadd; now apply Hnone|]. split; [exact Hc|].
        split; [reflexivity|].
        intros s0 Hne H H0. rewrite (Hother_add s s0 (db w) (Hne s eq_refl)).
        now apply H.
  - subst w1. unfold make_star, make_star_true, make_star_false, get_source,
      get_one_or_else, logger_error.
    destruct v; run_monad; rewrite Hs; cbn; (split; [exact Hd|]);
      (split; [exact Hc|]); (split; [reflexivity|]); intros s0 _ H; exact H.
Qed.

Lemma for_each_make_star_keeps_stars_unique (env : Env) (v : bool) (cols : list string) :
  NoDup cols ->
  forall w,
    stars_unique (db w) -> stars_unique (committed w) ->
    NoDup (map source_id (sources (db w))) ->
    (forall sid s, In sid cols -> sources_by_filesystem_id (db w) sid = [s] ->
                   star_of (committed w) s = None -> star_of (db w) s = None) ->
    stars_unique (db (snd (for_each cols (make_star env v) w))) /\
    stars_unique (committed (snd (for_each cols (make_star env v) w))).
Proof.
  induction 1 as [|sid cols Hnotin Hnd IH]; intros w Hd Hc Hids Hpend; [now split|].
  rewrite for_each_cons.
  destruct (make_star_keeps_stars_unique env v sid w Hd Hc
              (fun s Hs => Hpend sid s (or_introl eq_refl) Hs))
    as (Hd1 & Hc1 & Hsrc & Hrest).
  destruct (make_star env v sid w) as [[[]|e] w1]; cbn [snd] in Hd1, Hc1, Hsrc, Hrest;
    [|now split].
  apply IH; [exact Hd1 | exact Hc1 | now rewrite Hsrc |].
  intros sid' s' Hin' Hs'. rewrite (resolves_by_sources _ _ sid' Hsrc) in Hs'.
  apply Hrest; [|now apply (Hpend sid' s' (or_intror Hin'))].
  intros s Hs Heq.
  destruct (resolved_source _ _ _ Hs) as [Hin Hf].
  destruct (resolved_source _ _ _ Hs') as [Hin0 Hf0].
  pose proof (nodup_map_inj source_id _ s s' Hids Hin Hin0 Heq) as Hsame.
  apply Hnotin. subst s'. now rewrite <- Hf, Hf0.
Qed.

Lemma commit_keeps_stars_unique (env : Env) (w : World) :
  stars_unique (db w) -> stars_unique (committed w) ->
  stars_unique (db (snd (db_commit env w))) /\
  stars_unique (committed (snd (db_commit env w))).
Proof.
  intros Hd Hc. unfold db_commit, emit. run_monad.
  destruct (commit_ok env (db w)); cbn; now split.
Qed.

(** X20: a star action at the start of a request makes no second star row
    for a collection, unless a collection is selected twice.  If the
    session and the database hold at most one star row for each
    collection, no star row is pending, and the sources have distinct
    primary keys, then after starring or un-starring one collection, or a
    selection that names no collection twice, both still hold at most one
    star row for each collection, whatever the outcome of the request. *)
Theorem star_actions_keep_stars_unique (env : Env) (sid : string)
        (cols : list string) (w : World) :
  stars_unique (db w) -> stars_unique (committed w) ->
  no_pending_star w ->
  NoDup (map source_id (sources (db w))) ->
  NoDup cols ->
  (stars_unique (db (snd (add_star env sid w))) /\
   stars_unique (committed (snd (add_star env sid w)))) /\
  (stars_unique (db (snd (remove_star env sid w))) /\
   stars_unique (committed (snd (remove_star env sid w)))) /\
  (stars_unique (db (snd (col_star env cols w))) /\
   stars_unique (committed (snd (col_star env cols w)))) /\
  (stars_unique (db (snd (col_un_star env cols w))) /\
   stars_unique (committed (snd (col_un_star env cols w)))).
Proof.
  intros Hd Hc Hclean Hids Hnd.
  assert (Hthen : forall (c : M unit),
    (stars_unique (db (snd (c w))) /\ stars_unique (committed (snd (c w)))) ->
    stars_unique (db (snd ((c ;; db_commit env ;; redirect url_for_index) w))) /\
    stars_unique (committed (snd ((c ;; db_commit env ;; redirect url_for_index) w)))).
  { intros c [H1 H2]. unfold bind, redirect, ret.
    destruct (c w) as [[[]|e] w1]; cbn in H1, H2; [|now split].
    destruct (commit_keeps_stars_unique env w1 H1 H2) as [H3 H4].
    destruct (db_commit env w1) as [[[]|e] w2]; now split. }
  assert (Hone : forall v,
    stars_unique (db (snd (make_star env v sid w))) /\
    stars_unique (committed (snd (make_star env v sid w)))).
  { intros v.
    destruct (make_star_keeps_stars_unique env v sid w Hd Hc (fun s _ => Hclean s))
      as (H1 & H2 & _). now split. }
  split; [|split; [|split]].
  - apply (Hthen (make_star env true sid)), Hone.
  - apply (Hthen (make_star env false sid)), Hone.
  - apply (Hthen (for_each cols (make_star env true))).
    apply for_each_make_star_keeps_stars_unique; try assumption.
    intros sid' s _ _. apply Hclean.
  - apply (Hthen (for_each cols (make_star env false))).
    apply for_each_make_star_keeps_stars_unique; try assumption.
    intros sid' s _ _. apply Hclean.
Qed.

Lemma star_actions_keep_stars_unique_witness :
  let w := Ref.world_in_c1 (Ref.post [("cols_selected", "c1"); ("cols_selected", "c2");
                                      ("action", "star")]) in
  let w1 := snd (col_star Ref.env ["c1"; "c2"] w) in
  stars_unique (db w) /\ no_pending_star w /\
  NoDup (map source_id (sources (db w))) /\ NoDup ["c1"; "c2"] /\
  source_stars (committed w1) = [mkSourceStar 1 true; mkSourceStar 2 true] /\
  stars_unique (committed w1).
Proof.
  intros w w1.
  assert (H0 : stars_unique (db w)) by constructor.
  assert (Hclean : no_pending_star w) by (intros s0 H; exact H).
  assert (Hids : NoDup (map source_id (sources (db w)))).
  { cbn. constructor; [intros [H|[]]; discriminate H|].
    constructor; [intros []|constructor]. }
  assert (Hnd : NoDup ["c1"; "c2"]).
  { constructor; [intros [H|[]]; discriminate H|].
    constructor; [intros []|constructor]. }
  split; [exact H0|]. split; [exact Hclean|]. split; [exact Hids|]. split; [exact Hnd|].
  split; [reflexivity|].
  destruct (star_actions_keep_stars_unique Ref.env "c1" ["c1"; "c2"] w H0 H0 Hclean
              Hids Hnd) as (_ & _ & [_ Hc1] & _).
  exact Hc1.
Defined.

(** A star action that is committed, as [add_star] and [remove_star] commit
    theirs, done once more: the session and the database stay as they
    are. *)
Lemma star_route_again (env : Env) (v : bool) (sid : string) (w : World) (s : Source) :
  default_starred env = true ->
  (forall d, commit_ok env d = true) ->
  sources_by_filesystem_id (db w) sid = [s] ->
  no_pending_star w ->
  let route := make_star env v sid ;; db_commit env ;; redirect url_for_index in
  let w1 := snd (route w) in
  let w2 := snd (route w1) in
  fst (route w) = Return (Redirect "/") /\
  star_of (committed w1) s = Some (mkSourceStar (source_id s) v) /\
  fst (route w1) = Return (Redirect "/") /\
  db w2 = db w1 /\ committed w2 = committed w1.
Proof.
  intros Hd Hc Hs Hclean route w1 w2.
  destruct (make_star_effect env v sid w s Hd Hc Hs
              (fun s0 H0 => or_introl (Hclean s0 H0))) as (Hr & Hsrc & _ & Hstar).
  specialize (Hstar s). rewrite Z.eqb_refl in Hstar.
  assert (E1 : route w =
               (Return (Redirect "/"),
                let wa := snd (make_star env v sid w) in
                mkWorld (db wa) (db wa) (session_uid wa) (request wa) (g wa) (flashes wa)
                        (logged wa) (ext wa) (queue wa) (utcnow wa)
                        (trace wa ++ [EvCommit true]))).
  { unfold route, db_commit, emit. unfold bind, gets, modify, redirect, ret.
    destruct (make_star env v sid w) as [r wa]. cbn [fst snd] in Hr |- *. subst r.
    rewrite Hc. reflexivity. }
  set (wa := snd (make_star env v sid w)) in *. cbv zeta in E1.
  assert (Hw1 : db w1 = db wa /\ committed w1 = db wa)
    by (unfold w1; rewrite E1; now split).
  destruct Hw1 as [Hdb1 Hcm1].
  assert (Hs1 : sources_by_filesystem_id (db w1) sid = [s]).
  { rewrite Hdb1. now rewrite (resolves_by_sources _ _ sid Hsrc). }
  assert (Hstar1 : source_star w1 s = Some (mkSourceStar (source_id s) v)).
  { unfold source_star. now rewrite Hcm1, Hdb1, Hstar. }
  assert (Hfix : update_first (fun st => star_source_id st =? source_id s)
                              (set_starred v) (source_stars (db w1))
                 = source_stars (db w1)).
  { apply (update_first_fixed _ (set_starred v) _ (mkSourceStar (source_id s) v));
      [|reflexivity]. rewrite Hdb1. exact Hstar. }
  assert (Hsame : with_source_stars
                    (update_first (fun st => star_source_id st =? source_id s)
                                  (set_starred v)) (db w1) = db w1).
  { unfold with_source_stars. rewrite Hfix. now destruct (db w1). }
  assert (E2 : make_star env v sid w1 = (Return tt, set_db (db w1) w1)).
  { unfold make_star. destruct v.
    - rewrite (make_star_true_run env sid w1 s Hs1), Hstar1. now rewrite <- Hsame at 2.
    - rewrite (make_star_false_run env sid w1 s Hs1 Hc), Hstar1.
      now rewrite <- Hsame at 2. }
  assert (E3 : route w1 =
               (Return (Redirect "/"),
                mkWorld (db w1) (db w1) (session_uid w1) (request w1) (g w1) (flashes w1)
                        (logged w1) (ext w1) (queue w1) (utcnow w1)
                        (trace w1 ++ [EvCommit true]))).
  { unfold route, db_commit, emit. unfold bind, gets, modify, redirect, ret.
    rewrite E2. cbn [db set_db]. rewrite Hc. reflexivity. }
  split; [now rewrite E1|]. split; [now rewrite Hcm1|]. split; [now rewrite E3|].
  unfold w2. rewrite E3. cbn [snd db committed]. split; [reflexivity|].
  now rewrite Hcm1, Hdb1.
Qed.

(** X30: the star routes are idempotent.  At the start of a request, for a
    collection that exists and storage that does not fail, [add_star]
    leaves the collection with a committed star that is set and
    [remove_star] with one that is not set, a missing star row being
    created; and the same request once more changes neither the session
    nor the database. *)
Theorem star_routes_idempotent (env : Env) (sid : string) (w : World) (s : Source) :
  default_starred env = true ->
  (forall d, commit_ok env d = true) ->
  sources_by_filesystem_id (db w) sid = [s] ->
  no_pending_star w ->
  (let w1 := snd (add_star env sid w) in
   let w2 := snd (add_star env sid w1) in
   fst (add_star env sid w) = Return (Redirect "/") /\
   star_of (committed w1) s = Some (mkSourceStar (source_id s) true) /\
   fst (add_star env sid w1) = Return (Redirect "/") /\
   db w2 = db w1 /\ committed w2 = committed w1) /\
  (let w1 := snd (remove_star env sid w) in
   let w2 := snd (remove_star env sid w1) in
   fst (remove_star env sid w) = Return (Redirect "/") /\
   star_of (committed w1) s = Some (mkSourceStar (source_id s) false) /\
   fst (remove_star env sid w1) = Return (Redirect "/") /\
   db w2 = db w1 /\ committed w2 = committed w1).
Proof.
  intros Hd Hc Hs Hclean. split.
  - exact (star_route_again env true sid w s Hd Hc Hs Hclean).
  - exact (star_route_again env false sid w s Hd Hc Hs Hclean).
Qed.

Lemma star_routes_idempotent_witness :
  let w := Ref.world_in_c1 (Ref.post []) in
  let w1 := snd (remove_star Ref.env "c1" w) in
  sources_by_filesystem_id (db w) "c1" = [Ref.c1] /\
  no_pending_star w /\
  source_stars (committed w1) = [mkSourceStar 1 false] /\
  db (snd (remove_star Ref.env "c1" w1)) = db w1 /\
  source_stars (committed (snd (add_star Ref.env "c1" w))) = [mkSourceStar 1 true].
Proof.
  intros w w1.
  assert (Hclean : no_pending_star w) by (intros s0 H; exact H).
  split; [reflexivity|]. split; [exact Hclean|]. split; [reflexivity|].
  destruct (star_routes_idempotent Ref.env "c1" w Ref.c1 eq_refl (fun _ => eq_refl)
              eq_refl Hclean) as (_ & _ & _ & _ & Hdb & _).
  split; [exact Hdb | reflexivity].
Defined.

(** ** Replies, once more *)

(** X22: a reply whose encryption fails.  The exception of
    [crypto_util.encrypt] leaves [reply]: no reply row is added, nothing is
    committed and nothing is flashed.  The counter was already raised in
    the session; the teardown of the request drops that with the session. *)
Theorem reply_encrypt_fails (env : Env) (w : World) (msg sid : string) (id : Z)
        (user : Journalist) (src : Source) :
  let count := interaction_count src + 1 in
  let fname := reply_filename_for count (journalist_filename env src) in
  let recipients := [getkey env (ext w) sid; Some (JOURNALIST_KEY env)] in
  let output := store_path env sid fname in
  form_get (form (request w)) "msg" = Some msg ->
  msg <> "" ->
  g w = mkG (Some user) (Some sid) (Some id) ->
  source_row (db w) id = Some src ->
  encrypt env (ext w) msg recipients output = None ->
  let w' := snd (reply env w) in
  fst (reply env w) = Raise (CollaboratorError "crypto_util.encrypt") /\
  replies (db w') = replies (db w) /\
  committed w' = committed w /\
  ext w' = ext w /\
  flashed_by (reply env) w = [] /\
  events_of (reply env) w = [EvEncrypt msg recipients output false] /\
  source_row (db w') id = Some (set_interaction_count count src) /\
  db (shutdown_session w') = committed w.
Proof.
  intros count fname recipients output Hmsg Hne Hg Hrow Henc w'. subst w'.
  pose proof (source_row_id _ _ _ Hrow) as Hid.
  pose proof (source_row_assigned (db w) id src (set_interaction_count count)
                (fun _ => eq_refl) Hrow) as Hrow'.
  rewrite Hid in Hrow'.
  assert (E : reply env w =
    (Raise (CollaboratorError "crypto_util.encrypt"),
     mkWorld (with_sources (update_where (fun x => source_id x =? id)
                                         (set_interaction_count count)) (db w))
             (committed w) (session_uid w) (request w) (g w) (flashes w) (logged w)
             (ext w) (queue w) (utcnow w)
             (trace w ++ [EvEncrypt msg recipients output false]))).
  { pose proof Hrow' as Hfind.
    unfold source_row, with_sources, count in Hfind. cbn in Hfind.
    unfold recipients, output, fname, count, journalist_filename, reply_filename_for
      in Henc. cbn in Henc.
    assert (Hs : g_sid (g w) = Some sid) by now rewrite Hg.
    assert (Hsrc : g_source (g w) = Some id) by now rewrite Hg.
    unfold reply, form_getitem, bind at 1, bind at 1, gets. rewrite Hmsg.
    destruct msg as [|c m]; [congruence|]. cbn [Py.truthy negb].
    unfold recipients, output, fname, count.
    unfold g_source_get, g_sid_get, crypto_getkey, crypto_encrypt, modify_db, emit,
      journalist_filename, reply_filename_for.
    run_monad. rewrite Hsrc. cbn. rewrite Hrow. cbn. rewrite Hsrc. cbn.
    rewrite Hid, Hfind. cbn. rewrite Hs. cbn. rewrite Henc. reflexivity. }
  unfold flashed_by, events_of. rewrite E. cbn [fst snd flashes trace].
  rewrite skipn_all, skipn_length_app.
  split; [reflexivity|]. split; [reflexivity|]. split; [reflexivity|].
  split; [reflexivity|]. split; [reflexivity|]. split; [reflexivity|].
  split; [exact Hrow' | reflexivity].
Qed.

Lemma reply_encrypt_fails_witness :
  let w := set_ext Desk.store_without_keys
             (Ref.world_in_c1 (Ref.post [("sid", "c1"); ("msg", "hello")])) in
  let w' := snd (reply Ref.env w) in
  encrypt Ref.env (ext w) "hello" [None; Some "JOURNALIST-KEY"]
          "/store/c1/3-oldname-reply.gpg" = None /\
  fst (reply Ref.env w) = Raise (CollaboratorError "crypto_util.encrypt") /\
  flashed_by (reply Ref.env) w = [] /\
  replies (db w') = [] /\
  db (shutdown_session w') = committed w.
Proof.
  intros w w'. split; [reflexivity|].
  assert (Hne : "hello" <> "") by discriminate.
  destruct (reply_encrypt_fails Ref.env w "hello" "c1" 1 Ref.alice Ref.c1
              eq_refl Hne eq_refl eq_refl eq_refl)
    as (Hr & Hrep & _ & _ & Hfl & _ & _ & Hdown).
  split; [exact Hr|]. split; [exact Hfl|]. split; [exact Hrep | exact Hdown].
Defined.

Lemma reply_commit_fails_witness :
  let w := Ref.world_in_c1 (Ref.post [("sid", "c1"); ("msg", "hello")]) in
  let w' := snd (reply Ref.env_storage_down w) in
  fst (reply Ref.env_storage_down w) = Return (Redirect "/col/c1") /\
  committed w' = committed w /\
  Ref.lookup "/store/c1/3-oldname-reply.gpg" (files (ext w')) = Some "gpg:hello" /\
  flashed_by (reply Ref.env_storage_down) w =
    [("An unexpected error occurred! Please check the application logs or inform your adminstrator.",
      "error")].
Proof.
  intros w w'.
  assert (Hne : "hello" <> "") by discriminate.
  destruct (reply_commit_fails Ref.env_storage_down w "hello" "c1" 1 Ref.alice Ref.c1
              (mkExt (("/store/c1/3-oldname-reply.gpg", "gpg:hello") :: files (ext w))
                     (keyring (ext w)))
              eq_refl Hne eq_refl eq_refl eq_refl eq_refl)
    as (Hr & Hcm & Hext & _ & Hfl).
  split; [exact Hr|]. split; [exact Hcm|].
  split; [unfold w'; rewrite Hext; reflexivity | exact Hfl].
Defined.

Lemma bulk_download_empty_selection_witness :
  let w := Ref.world_in_c1 (Ref.post [("action", "download");
                                      ("doc_names_selected", "7-missing.gpg")]) in
  form_get (form (request w)) "action" = Some "download" /\
  bulk Ref.env w =
    (Return (Redirect "/col/c1"),
     set_flashes [("No collections selected to download!", "error")] w).
Proof.
  intros w. split; [reflexivity|].
  exact (bulk_download_empty_selection Ref.env w "c1" 1 Ref.c1
           eq_refl eq_refl eq_refl eq_refl eq_refl).
Defined.

Lemma string_length_app (a b : string) :
  String.length (a ++ b) = (String.length a + String.length b)%nat.
Proof. induction a as [|c a IH]; cbn; [reflexivity | now rewrite IH]. Qed.

Lemma string_app_cancel_r (a b r : string) : a ++ r = b ++ r -> a = b.
Proof.
  revert b. induction a as [|c a IH]; intros [|c' b] H; cbn in H.
  - reflexivity.
  - apply (f_equal String.length) in H. cbn in H. rewrite string_length_app in H. lia.
  - apply (f_equal String.length) in H. cbn in H. rewrite string_length_app in H. lia.
  - injection H as -> H. f_equal. now apply IH.
Qed.

(** The decimal numeral of an integer reads back as that integer. *)
Lemma str_reads_back (n : Z) : NilZero.int_of_string (Py.str n) = Some (Z.to_int n).
Proof.
  unfold Py.str. apply NilZero.isi.
  - destruct n; cbn; try discriminate.
    intros [= H]. exact (DecimalPos.Unsigned.to_uint_nonnil _ H).
  - destruct n; cbn; try discriminate.
    intros [= H]. exact (DecimalPos.Unsigned.to_uint_nonnil _ H).
Qed.

(** X23: replies to one collection do not collide.  Under one designation
    the filename of a reply determines the interaction count it was made
    from, so two replies made from different counts, as successive replies
    are, get different filenames. *)
Theorem reply_filenames_differ (a b : Z) (jfn : string) :
  a <> b -> reply_filename_for a jfn <> reply_filename_for b jfn.
Proof.
  intros Hab H. apply Hab. unfold reply_filename_for in H.
  apply string_app_cancel_r in H.
  apply DecimalZ.to_int_inj.
  pose proof (str_reads_back a) as Ha. rewrite H, str_reads_back in Ha. congruence.
Qed.

Lemma reply_filenames_differ_witness :
  2 <> 2 + 1 /\
  reply_filename_for 2 "oldname" <> reply_filename_for (2 + 1) "oldname".
Proof.
  assert (H : 2 <> 2 + 1) by discriminate.
  split; [exact H | exact (reply_filenames_differ 2 (2 + 1) "oldname" H)].
Defined.

(** ** Renaming, once more *)

(** What the renaming loop leaves alone, whatever the store does: the key,
    the owner and the downloaded flag of every submission, every table but
    the submissions, and every row whose key is not that of an item. *)
Lemma rename_loop_frame (env : Env) (sid : string) (id : Z) (src : Source)
      (items : list Submission) :
  forall w,
    g_sid (g w) = Some sid ->
    g_source (g w) = Some id ->
    source_row (db w) id = Some src ->
    let w' := snd (for_each items (rename_item env) w) in
    map row_facts (submissions (db w')) = map row_facts (submissions (db w)) /\
    journalists (db w') = journalists (db w) /\
    sources (db w') = sources (db w) /\
    source_stars (db w') = source_stars (db w) /\
    replies (db w') = replies (db w) /\
    g w' = g w /\
    (forall x, In x (submissions (db w)) -> exported items x = false ->
               In x (submissions (db w'))).
Proof.
  induction items as [|item items IH]; intros w Hs Hsrc Hrow.
  - cbn. now repeat split.
  - cbv zeta. rewrite for_each_cons.
    rewrite (rename_item_run env item w sid id src Hs Hsrc Hrow).
    destruct (rename_submission env (ext w) sid (filename item) _) as [[new e']|].
    + set (w1 := mkWorld _ _ _ _ _ _ _ _ _ _ _).
      destruct (IH w1 Hs Hsrc Hrow) as (Hf & Hj & Hso & Hst & Hrp & Hg & Hkeep).
      split. { rewrite Hf. unfold w1, with_submissions, update_where.
               cbn [db submissions]. rewrite map_map. apply map_ext.
               intros x. now destruct (submission_id x =? submission_id item). }
      split; [exact Hj|]. split; [exact Hso|]. split; [exact Hst|].
      split; [exact Hrp|]. split; [exact Hg|].
      intros x Hx Hex. unfold exported in Hex. cbn in Hex.
      apply orb_false_iff in Hex as [Hhead Htail].
      apply Hkeep; [|exact Htail].
      unfold w1; cbn. unfold update_where. apply in_map_iff. exists x.
      now rewrite Hhead.
    + cbn. repeat split. intros x Hx _. exact Hx.
Qed.

(** [generate_code] up to the end of its loop. *)
Lemma generate_code_eq (env : Env) (w : World) (sid : string) (id : Z) (src : Source) :
  g_sid (g w) = Some sid ->
  g_source (g w) = Some id ->
  source_row (db w) id = Some src ->
  generate_code env w =
    match for_each (collection (db w) id) (rename_item env)
            (set_db (with_sources (update_where (fun x => source_id x =? id)
                                     (set_journalist_designation (display_id env (db w))))
                                  (db w)) w) with
    | (Return _, w2) =>
        (db_commit env ;;
         s2 <- g_source_get ;;
         flash ("The source '" ++ journalist_designation src ++
                "' has been renamed to '" ++ journalist_designation s2 ++ "'")
               "notification" ;;
         sid <- g_sid_get ;;
         redirect ("/col/" ++ sid)) w2
    | (Raise e, w2) => (Raise e, w2)
    end.
Proof.
  intros Hs Hsrc Hrow.
  pose proof (source_row_id _ _ _ Hrow) as Hid.
  pose proof (source_row_assigned (db w) id src
                (set_journalist_designation (display_id env (db w)))
                (fun _ => eq_refl) Hrow) as Hfind.
  rewrite Hid in Hfind. unfold source_row, with_sources in Hfind. cbn in Hfind.
  unfold generate_code, g_source_get at 1 2, modify_db, bind at 1 2 3 4 5 6, gets, modify.
  rewrite Hsrc, Hrow. cbn. rewrite Hsrc, Hid, Hfind. cbn. rewrite Hid. reflexivity.
Qed.

(** X24: what a rename never touches.  Whatever the store does and however
    the request ends, [generate_code] changes no submission's key, owner or
    downloaded flag, adds and removes none, leaves every submission whose
    key is not that of a submission of the renamed collection exactly as it
    was, and changes nothing about any other source: of the sources only
    the designation of the renamed one is new. *)
Theorem generate_code_frame (env : Env) (w : World) (sid : string) (id : Z)
        (src : Source) :
  g_sid (g w) = Some sid ->
  g_source (g w) = Some id ->
  source_row (db w) id = Some src ->
  let w' := snd (generate_code env w) in
  map row_facts (submissions (db w')) = map row_facts (submissions (db w)) /\
  (forall x, In x (submissions (db w)) ->
             exported (collection (db w) id) x = false ->
             In x (submissions (db w'))) /\
  sources (db w') =
    update_where (fun x => source_id x =? id)
                 (set_journalist_designation (display_id env (db w))) (sources (db w)) /\
  journalists (db w') = journalists (db w) /\
  source_stars (db w') = source_stars (db w) /\
  replies (db w') = replies (db w).
Proof.
  intros Hs Hsrc Hrow w'. subst w'.
  rewrite (generate_code_eq env w sid id src Hs Hsrc Hrow).
  pose proof (source_row_id _ _ _ Hrow) as Hid.
  pose proof (source_row_assigned (db w) id src
                (set_journalist_designation (display_id env (db w)))
                (fun _ => eq_refl) Hrow) as Hrow1.
  rewrite Hid in Hrow1.
  set (w1 := set_db _ w) in *.
  pose proof (rename_loop_frame env sid id _ (collection (db w) id) w1 Hs Hsrc Hrow1)
    as Hloop. cbv zeta in Hloop.
  destruct (for_each (collection (db w) id) (rename_item env) w1) as [[[]|e] w2];
    cbn [fst snd] in Hloop;
    destruct Hloop as (Hf & Hj & Hso & Hst & Hrp & Hg & Hkeep).
  - assert (Hdb : db (snd ((db_commit env ;;
                  s2 <- g_source_get ;;
                  flash ("The source '" ++ journalist_designation src ++
                         "' has been renamed to '" ++ journalist_designation s2 ++ "'")
                        "notification" ;;
                  sid <- g_sid_get ;;
                  redirect ("/col/" ++ sid)) w2)) = db w2).
    { unfold db_commit, g_source_get, g_sid_get, flash, emit. run_monad.
      destruct (commit_ok env (db w2)); cbn; [|reflexivity].
      destruct (g_source (g w2)); cbn; [|reflexivity].
      destruct (source_row (db w2) z); cbn; [|reflexivity].
      destruct (g_sid (g w2)); reflexivity. }
    rewrite Hdb. now repeat split.
  - cbn [snd]. now repeat split.
Qed.

Lemma generate_code_frame_witness :
  let w := set_request (Ref.post [("sid", "c1")]) (Desk.world_in_c1 Ref.get) in
  let w' := snd (generate_code Ref.env w) in
  source_row (db w) 1 = Some Ref.c1 /\
  map filename (submissions (db w')) =
    ["1-newname-msg.gpg"; "2-newname-doc.gpg"; "1-quiet-doc.gpg"] /\
  In Desk.sub3 (submissions (db w')) /\
  map row_facts (submissions (db w')) = [(1, 1, true); (2, 1, false); (3, 2, false)] /\
  sources (db w') = [set_journalist_designation "newname" Ref.c1; Ref.c2].
Proof.
  intros w w'. split; [reflexivity|]. split; [reflexivity|].
  destruct (generate_code_frame Ref.env w "c1" 1 Ref.c1 eq_refl eq_refl eq_refl)
    as (Hf & Hkeep & Hso & _).
  fold w' in Hf, Hkeep, Hso.
  split; [apply Hkeep; [right; right; left|]; reflexivity|].
  split; [rewrite Hf; reflexivity | rewrite Hso; reflexivity].
Defined.

(** ** Deleting several collections *)

Lemma delete_collection_done (env : Env) (sid : string) (w : World) (e' : Ext)
      (s : Source) :
  delete_reply_keypair env (ext w) sid = Some e' ->
  sources_by_filesystem_id (db w) sid = [s] ->
  commit_ok env (with_sources (filter (fun x => negb (source_id x =? source_id s))) (db w))
    = true ->
  delete_collection env sid w =
    (Return (length (queue w)),
     let d' := with_sources (filter (fun x => negb (source_id x =? source_id s))) (db w) in
     mkWorld d' d' (session_uid w) (request w) (g w) (flashes w) (logged w) e'
             (queue w ++ [DeleteSourceDirectory sid]) (utcnow w)
             (((trace w ++ [EvEnqueue (DeleteSourceDirectory sid)])
                 ++ [EvDeleteReplyKeypair sid true]) ++ [EvCommit true])).
Proof.
  intros Hk Hs Hc.
  unfold delete_collection, worker_enqueue, crypto_delete_reply_keypair,
    get_source, get_one_or_else, db_delete_source, db_commit, modify_db, emit.
  run_monad. rewrite Hk. cbn. rewrite Hs. cbn. rewrite Hc. reflexivity.
Qed.

Lemma delete_collection_missing (env : Env) (sid : string) (w : World) (e' : Ext) :
  sources_by_filesystem_id (db w) sid = [] ->
  delete_reply_keypair env (ext w) sid = Some e' ->
  delete_collection env sid w =
    (Raise (HTTPException 404),
     mkWorld (db w) (committed w) (session_uid w) (request w) (g w) (flashes w)
             (logged w ++ ["ERROR Found none when one was expected"]) e'
             (queue w ++ [DeleteSourceDirectory sid]) (utcnow w)
             ((trace w ++ [EvEnqueue (DeleteSourceDirectory sid)])
                ++ [EvDeleteReplyKeypair sid true])).
Proof.
  intros Hs Hk.
  unfold delete_collection, worker_enqueue, crypto_delete_reply_keypair,
    get_source, get_one_or_else, logger_error, emit.
  run_monad. rewrite Hk. cbn. rewrite Hs. reflexivity.
Qed.

(** X25: deleting several collections is not one transaction.  Each
    collection is deleted and committed on its own, so when the second
    identifier of a selection names no collection (as it does when the
    first one is selected again) the request aborts with 404 and without a
    notification, while the first collection stays deleted and the erase
    tasks of both identifiers stay queued. *)
Theorem col_delete_is_not_atomic (env : Env) (sid sid' : string) (rest : list string)
        (w : World) (s : Source) (e1 e2 : Ext) :
  let d1 := with_sources (filter (fun x => negb (source_id x =? source_id s))) (db w) in
  sources_by_filesystem_id (db w) sid = [s] ->
  delete_reply_keypair env (ext w) sid = Some e1 ->
  commit_ok env d1 = true ->
  sources_by_filesystem_id d1 sid' = [] ->
  delete_reply_keypair env e1 sid' = Some e2 ->
  let w' := snd (col_delete env (sid :: sid' :: rest) w) in
  fst (col_delete env (sid :: sid' :: rest) w) = Raise (HTTPException 404) /\
  committed w' = d1 /\
  flashed_by (col_delete env (sid :: sid' :: rest)) w = [] /\
  queue w' = (queue w ++ [DeleteSourceDirectory sid; DeleteSourceDirectory sid'])%list /\
  ext w' = e2.
Proof.
  intros d1 Hs Hk Hc Hs' Hk' w'. subst w'.
  assert (E : col_delete env (sid :: sid' :: rest) w =
    (Raise (HTTPException 404),
     mkWorld d1 d1 (session_uid w) (request w) (g w) (flashes w)
             (logged w ++ ["ERROR Found none when one was expected"]) e2
             ((queue w ++ [DeleteSourceDirectory sid]) ++ [DeleteSourceDirectory sid'])
             (utcnow w)
             ((((((trace w ++ [EvEnqueue (DeleteSourceDirectory sid)])
                    ++ [EvDeleteReplyKeypair sid true]) ++ [EvCommit true])
                  ++ [EvEnqueue (DeleteSourceDirectory sid')])
                 ++ [EvDeleteReplyKeypair sid' true])))).
  { pose proof (delete_collection_done env sid w e1 s Hk Hs Hc) as E1.
    cbn zeta in E1. fold d1 in E1.
    match type of E1 with _ = (_, ?w1) =>
      pose proof (delete_collection_missing env sid' w1 e2 Hs' Hk') as E2
    end.
    cbn [db committed session_uid request g flashes logged ext queue utcnow trace] in E2.
    unfold col_delete.
    replace (Z.of_nat (length (sid :: sid' :: rest)) <? 1) with false
      by (symmetry; apply Z.ltb_ge; cbn [length]; lia).
    unfold bind. rewrite for_each_cons. rewrite E1. unfold ret.
    rewrite for_each_cons. rewrite E2. reflexivity. }
  unfold flashed_by. rewrite E. cbn [fst snd flashes committed queue ext].
  rewrite skipn_all, <- app_assoc. now repeat split.
Qed.

Lemma col_delete_is_not_atomic_witness :
  let w := Ref.world_in_c1 (Ref.post [("cols_selected", "c1"); ("cols_selected", "c1");
                                      ("action", "delete")]) in
  let w' := snd (col_delete Ref.env ["c1"; "c1"] w) in
  sources_by_filesystem_id (db w) "c1" = [Ref.c1] /\
  fst (col_delete Ref.env ["c1"; "c1"] w) = Raise (HTTPException 404) /\
  sources (committed w') = [Ref.c2] /\
  flashed_by (col_delete Ref.env ["c1"; "c1"]) w = [].
Proof.
  intros w w'. split; [reflexivity|].
  destruct (col_delete_is_not_atomic Ref.env "c1" "c1" [] w Ref.c1
              (mkExt (files (ext w)) [("c2", "C2-KEY")])
              (mkExt (files (ext w)) [("c2", "C2-KEY")])
              eq_refl eq_refl eq_refl eq_refl eq_refl) as (Hr & Hc & Hfl & _).
  split; [exact Hr|]. split; [unfold w'; rewrite Hc; reflexivity | exact Hfl].
Defined.

(** ** Flagging a source *)

Lemma update_where_again {A} (p : A -> bool) (f : A -> A) (l : list A) :
  (forall x, f (f x) = f x) ->
  (forall x, p (f x) = p x) ->
  update_where p f (update_where p f l) = update_where p f l.
Proof.
  intros Hf Hp. rewrite (update_where_twice p p f l Hf Hp).
  unfold update_where. apply map_ext. intros x. now destruct (p x).
Qed.

(** X26: flagging the source of a request.  When the commit goes through,
    the source behind [g.source] is flagged in the committed state; its
    designation, identifier and interaction count, every other source and
    every other table are as before, and flagging it again changes nothing
    in the database. *)
Theorem flag_sets_only_the_flag (env : Env) (w : World) (sid : string) (id : Z)
        (src : Source) :
  let d' := with_sources (update_where (fun x => source_id x =? id) (set_flagged true))
                         (db w) in
  g_sid (g w) = Some sid ->
  g_source (g w) = Some id ->
  source_row (db w) id = Some src ->
  commit_ok env d' = true ->
  let w' := snd (flag env w) in
  fst (flag env w) = Return (RenderTemplate "flag.html") /\
  db w' = d' /\
  committed w' = d' /\
  source_row (committed w') id =
    Some (mkSource (source_id src) (filesystem_id src) (journalist_designation src)
                   (interaction_count src) true (pending src)) /\
  db (snd (flag env w')) = db w' /\
  committed (snd (flag env w')) = committed w'.
Proof.
  intros d' Hs Hsrc Hrow Hc w'. subst w'.
  pose proof (source_row_id _ _ _ Hrow) as Hid.
  pose proof (source_row_assigned (db w) id src (set_flagged true)
                (fun _ => eq_refl) Hrow) as Hrow'.
  rewrite Hid in Hrow'. fold d' in Hrow'.
  assert (Hrun : forall w0 s0,
    g_sid (g w0) = Some sid -> g_source (g w0) = Some id ->
    source_row (db w0) id = Some s0 ->
    let d0 := with_sources (update_where (fun x => source_id x =? id) (set_flagged true))
                           (db w0) in
    commit_ok env d0 = true ->
    flag env w0 =
      (Return (RenderTemplate "flag.html"),
       mkWorld d0 d0 (session_uid w0) (request w0) (g w0) (flashes w0) (logged w0)
               (ext w0) (queue w0) (utcnow w0) (trace w0 ++ [EvCommit true]))).
  { intros w0 s0 Hs0 Hsrc0 Hrow0 d0 Hc0.
    pose proof (source_row_id _ _ _ Hrow0) as Hid0.
    pose proof (source_row_assigned (db w0) id s0 (set_flagged true)
                  (fun _ => eq_refl) Hrow0) as Hf0.
    rewrite Hid0 in Hf0. unfold source_row, with_sources in Hf0. cbn in Hf0.
    unfold d0, with_sources in Hc0.
    unfold flag, g_source_get, g_sid_get, modify_db, db_commit, emit. run_monad.
    rewrite Hsrc0. cbn. rewrite Hrow0. cbn. rewrite Hid0.
    unfold with_sources. rewrite Hc0. cbn. rewrite Hs0. cbn. rewrite Hsrc0. cbn.
    now rewrite Hf0. }
  rewrite (Hrun w src Hs Hsrc Hrow Hc). cbn [fst snd db committed].
  split; [reflexivity|]. split; [reflexivity|]. split; [reflexivity|].
  split; [exact Hrow'|].
  set (w1 := mkWorld d' d' (session_uid w) (request w) (g w) (flashes w) (logged w)
                     (ext w) (queue w) (utcnow w) (trace w ++ [EvCommit true])).
  assert (Hsame : with_sources (update_where (fun x => source_id x =? id)
                                             (set_flagged true)) d' = d').
  { unfold d', with_sources; cbn. f_equal.
    apply update_where_again; reflexivity. }
  assert (Hc1 : commit_ok env (with_sources (update_where (fun x => source_id x =? id)
                                                          (set_flagged true)) (db w1))
                = true).
  { unfold w1; cbn [db]. now rewrite Hsame. }
  pose proof (Hrun w1 _ Hs Hsrc Hrow' Hc1) as E1. cbn zeta in E1.
  change (db (snd (flag env w1)) = d' /\ committed (snd (flag env w1)) = d').
  rewrite E1. cbn [snd db committed].
  unfold w1; cbn [db committed]. now rewrite Hsame.
Qed.

Lemma flag_sets_only_the_flag_witness :
  let w := Ref.world_in_c1 (Ref.post [("sid", "c1")]) in
  let w' := snd (flag Ref.env w) in
  source_row (db w) 1 = Some Ref.c1 /\
  fst (flag Ref.env w) = Return (RenderTemplate "flag.html") /\
  sources (committed w') = [mkSource 1 "c1" "oldname" 2 true false; Ref.c2] /\
  db (snd (flag Ref.env w')) = db w'.
Proof.
  intros w w'. split; [reflexivity|].
  destruct (flag_sets_only_the_flag Ref.env w "c1" 1 Ref.c1
              eq_refl eq_refl eq_refl eq_refl) as (Hr & _ & Hc & _ & Hagain & _).
  split; [exact Hr|]. split; [unfold w'; rewrite Hc; reflexivity | exact Hagain].
Defined.
